(** * Campaign-brief generator: the LLM response pipeline of
      [generator/services/llm.py] and the HTTP layer of
      [generator/views.py]

    A shallow embedding of the response normaliser and validator
    ([parse_json_response]), the three provider adapters
    ([call_ollama_api], [call_openai_api], [call_test_api]) and the
    orchestrator ([generate_campaign_brief]), together with the part of
    Python they rest on: [str] methods, dictionaries, exceptions and the
    [json] module; and of the views in front of them: input validation
    ([validate_brand_name], [validate_form_inputs]), the rate limiter
    ([check_rate_limit]), the endpoint ([generate_brief]), the health
    check and the provider switch ([set_provider]).

    Conventions.
    - A Python [str] is a Rocq [string]; one [ascii] stands for one code
      point, so the model covers texts whose code points lie in
      U+0000..U+00FF.  A JSON escape that denotes a code point above
      U+00FF has no value here and the model's decoder rejects it.
    - A Python [dict] is an association list in insertion order;
      [Dict.set] and [Dict.of_pairs] keep the keys pairwise distinct.
    - A call that can raise returns an [outcome]; code that also talks to
      the network threads the list of requests sent so far.
    - Floating-point numbers are carried by their literal text only
      ([PFloat]); no arithmetic is done on them.  Clock readings enter
      as the text of the rounded difference.
    - Integers are unbounded.  The interpreter's limits (recursion depth,
      number of digits in a conversion between [int] and [str]) are not
      modelled: the decoder here raises no [RecursionError] however
      deep the nesting, and reads integers of any length.  A statement
      about a failure of the decoder therefore goes by the class of the
      exception, and the round trip of the parser is stated for
      elements within those limits.
    - In the views, the body of a request is its decoded text, the cache
      is threaded like the requests sent, and the clock of the cache
      counts whole seconds. *)

From Stdlib Require Import String Ascii List ZArith Lia Bool Arith.
From Stdlib Require Import Decimal DecimalString DecimalZ DecimalPos DecimalFacts.
Import ListNotations.

Local Open Scope list_scope.
Local Open Scope string_scope.

(* ================================================================== *)
(** * Python strings *)
(* ================================================================== *)

Module PyStr.

(** [str.isspace] of one character, for code points below 256:
    U+0009..U+000D, U+001C..U+0020, U+0085 and U+00A0. *)
Definition isspace (c : ascii) : bool :=
  let n := nat_of_ascii c in
  (((9 <=? n) && (n <=? 13)) || ((28 <=? n) && (n <=? 32))
   || (n =? 133) || (n =? 160))%nat.

Fixpoint lstrip (s : string) : string :=
  match s with
  | String c s' => if isspace c then lstrip s' else s
  | EmptyString => EmptyString
  end.

Fixpoint rstrip (s : string) : string :=
  match s with
  | EmptyString => EmptyString
  | String c s' =>
      match rstrip s' with
      | EmptyString => if isspace c then EmptyString else String c EmptyString
      | r => String c r
      end
  end.

(** [s.strip()] *)
Definition strip (s : string) : string := rstrip (lstrip s).

(** [s.startswith(p)] *)
Fixpoint has_prefix (p s : string) : bool :=
  match p, s with
  | EmptyString, _ => true
  | String a p', String b s' => (a =? b)%char && has_prefix p' s'
  | String _ _, EmptyString => false
  end.

(** [s[n:]] for [0 <= n] *)
Fixpoint skip (n : nat) (s : string) : string :=
  match n, s with
  | S n', String _ s' => skip n' s'
  | _, _ => s
  end.

(** Offset of the first occurrence of [sub] in [s]. *)
Fixpoint first_occurrence (sub s : string) : option nat :=
  if has_prefix sub s then Some 0
  else match s with
       | EmptyString => None
       | String _ s' => option_map S (first_occurrence sub s')
       end.

(** Offset of the last occurrence of [sub] in [s]. *)
Fixpoint last_occurrence (sub s : string) : option nat :=
  match s with
  | EmptyString => if has_prefix sub EmptyString then Some 0 else None
  | String _ s' =>
      match last_occurrence sub s' with
      | Some i => Some (S i)
      | None => if has_prefix sub s then Some 0 else None
      end
  end.

(** [sub in s] *)
Definition contains (sub s : string) : bool :=
  match first_occurrence sub s with Some _ => true | None => false end.

(** [s.find(sub, start)] for [0 <= start]: the index, or [-1]. *)
Definition find (s sub : string) (start : nat) : Z :=
  if (String.length s <? start)%nat then (-1)%Z
  else match first_occurrence sub (skip start s) with
       | Some i => Z.of_nat (start + i)
       | None => (-1)%Z
       end.

(** [s.rfind(sub)]: the index of the last occurrence, or [-1]. *)
Definition rfind (s sub : string) : Z :=
  match last_occurrence sub s with
  | Some i => Z.of_nat i
  | None => (-1)%Z
  end.

(** How a slice bound is read: a negative bound counts from the end,
    and the result is clipped to [0 .. len]. *)
Definition slice_bound (len i : Z) : Z :=
  let i' := if (i <? 0)%Z then (i + len)%Z else i in
  if (i' <? 0)%Z then 0%Z else if (len <? i')%Z then len else i'.

(** [s[start:stop]] *)
Definition slice (s : string) (start stop : Z) : string :=
  let len := Z.of_nat (String.length s) in
  let a := slice_bound len start in
  let b := slice_bound len stop in
  substring (Z.to_nat a) (Z.to_nat (b - a)) s.

Definition is_empty (s : string) : bool :=
  match s with EmptyString => true | _ => false end.

(** [s.split()]: the maximal runs of non-whitespace characters.
    [cur] is the run being read. *)
Fixpoint split_from (s cur : string) : list string :=
  match s with
  | EmptyString => if is_empty cur then [] else [cur]
  | String c s' =>
      if isspace c
      then (if is_empty cur then split_from s' EmptyString
            else cur :: split_from s' EmptyString)
      else split_from s' (cur ++ String c EmptyString)
  end.

Definition split (s : string) : list string := split_from s EmptyString.

(** [sep.join(parts)] *)
Definition join (sep : string) (parts : list string) : string :=
  String.concat sep parts.

(** Decimal text of a natural number and of an integer ([str(n)]). *)
Definition of_nat (n : nat) : string :=
  NilZero.string_of_uint (Nat.to_uint n).

Definition of_Z (z : Z) : string :=
  NilZero.string_of_int (Z.to_int z).

End PyStr.

(** [re.split(r'[.!?]+', s)]: the pieces of [s] between maximal runs of
    the three sentence terminators.  [cur] is the piece being read and
    [in_run] tells whether the previous character was a terminator. *)
Module Re.

Definition is_terminator (c : ascii) : bool :=
  (c =? ".")%char || (c =? "!")%char || (c =? "?")%char.

Fixpoint split_from (s cur : string) (in_run : bool) : list string :=
  match s with
  | EmptyString => [cur]
  | String c s' =>
      if is_terminator c
      then (if in_run then split_from s' EmptyString true
            else cur :: split_from s' EmptyString true)
      else split_from s' (cur ++ String c EmptyString) false
  end.

Definition split_sentences (s : string) : list string :=
  split_from s EmptyString false.

End Re.

(* ================================================================== *)
(** * Python values, exceptions and dictionaries *)
(* ================================================================== *)

(** The values [json.loads] can build and [json.dumps] can print. *)
Unset Elimination Schemes.
Inductive pyval : Type :=
| PNone
| PBool (b : bool)
| PInt (z : Z)
| PFloat (literal : string)
| PStr (s : string)
| PList (items : list pyval)
| PDict (entries : list (string * pyval)).
Set Elimination Schemes.

(** Structural induction that reaches the items of a list and the values
    of a dictionary. *)
Section PyvalInduction.
Variable P : pyval -> Prop.
Hypothesis HNone : P PNone.
Hypothesis HBool : forall b, P (PBool b).
Hypothesis HInt : forall z, P (PInt z).
Hypothesis HFloat : forall r, P (PFloat r).
Hypothesis HStr : forall s, P (PStr s).
Hypothesis HList : forall items, Forall P items -> P (PList items).
Hypothesis HDict :
  forall entries, Forall (fun kv => P (snd kv)) entries -> P (PDict entries).

Fixpoint pyval_ind (v : pyval) : P v :=
  match v with
  | PNone => HNone
  | PBool b => HBool b
  | PInt z => HInt z
  | PFloat r => HFloat r
  | PStr s => HStr s
  | PList items =>
      HList items
        ((fix all (l : list pyval) : Forall P l :=
            match l with
            | [] => Forall_nil P
            | x :: l' => Forall_cons x (pyval_ind x) (all l')
            end) items)
  | PDict entries =>
      HDict entries
        ((fix all (l : list (string * pyval))
            : Forall (fun kv => P (snd kv)) l :=
            match l with
            | [] => Forall_nil _
            | kv :: l' => Forall_cons kv (pyval_ind (snd kv)) (all l')
            end) entries)
  end.
End PyvalInduction.

(** The exception classes the pipeline raises or meets.
    [JSONDecodeError] is a subclass of [ValueError]; every class is a
    subclass of [Exception]. *)
Inductive exn : Type :=
| Exception (msg : string)
| ValueError (msg : string)
| JSONDecodeError (msg : string) (lineno colno pos : nat)
| TypeError (msg : string)
| KeyError (key : string)
| RecursionError (msg : string).

(** [str(e)] *)
Definition exn_str (e : exn) : string :=
  match e with
  | Exception m | ValueError m | TypeError m | RecursionError m => m
  | JSONDecodeError m l c p =>
      m ++ ": line " ++ PyStr.of_nat l ++ " column " ++ PyStr.of_nat c
        ++ " (char " ++ PyStr.of_nat p ++ ")"
  | KeyError k => "'" ++ k ++ "'"
  end.

(** [isinstance(e, ValueError)], what [except ValueError] and
    [except (json.JSONDecodeError, ValueError)] catch. *)
Definition is_ValueError (e : exn) : bool :=
  match e with
  | ValueError _ | JSONDecodeError _ _ _ _ => true
  | _ => false
  end.

Inductive outcome (A : Type) : Type :=
| Return (a : A)
| Raise (e : exn).
Arguments Return {A} a.
Arguments Raise {A} e.

Definition bind {A B} (m : outcome A) (k : A -> outcome B) : outcome B :=
  match m with
  | Return a => k a
  | Raise e => Raise e
  end.

Notation "x <- m ;; k" := (bind m (fun x => k))
  (at level 61, m at next level, right associativity).

Notation "'check' c 'else_raise' e ;; k" :=
  (if c then k else Raise e)
  (at level 61, c at next level, e at next level, right associativity).

Module Dict.

Definition t : Type := list (string * pyval).

(** [d.get(k)] *)
Fixpoint get (k : string) (d : t) : option pyval :=
  match d with
  | [] => None
  | (k', v) :: d' => if String.eqb k k' then Some v else get k d'
  end.

(** [k in d] *)
Definition mem (k : string) (d : t) : bool :=
  match get k d with Some _ => true | None => false end.

(** [d[k] = v]: overwrite in place, or append a new entry. *)
Fixpoint set (k : string) (v : pyval) (d : t) : t :=
  match d with
  | [] => [(k, v)]
  | (k', v') :: d' =>
      if String.eqb k k' then (k', v) :: d' else (k', v') :: set k v d'
  end.

(** [d.get(k, default)] *)
Definition get_default (k : string) (default : pyval) (d : t) : pyval :=
  match get k d with Some v => v | None => default end.

(** [dict(pairs)] *)
Definition of_pairs (pairs : list (string * pyval)) : t :=
  fold_left (fun d kv => set (fst kv) (snd kv) d) pairs [].

(** [d.update(other)] *)
Definition update (d other : t) : t :=
  fold_left (fun d kv => set (fst kv) (snd kv) d) other d.

End Dict.

(* ================================================================== *)
(** * The [json] module of the Python standard library *)
(* ================================================================== *)

(** [json.dumps] and [json.loads] are not code of the repository; the
    pipeline calls them.  They are modelled after CPython's
    [json.encoder] (with [ensure_ascii=True], the default) and
    [json.decoder]/[json.scanner] (strict mode).  The decoder's messages
    and positions follow CPython's scanner (3.12); the general theorems
    below depend only on which exception class is raised, and the
    examples quote the message of the input they evaluate. *)
Module Json.

Definition quote : ascii := "034"%char.
Definition backslash : ascii := "092"%char.
Definition newline : ascii := "010"%char.

(** ** Encoder *)

Definition hex_digit (n : nat) : ascii :=
  match n with
  | 0 => "0" | 1 => "1" | 2 => "2" | 3 => "3" | 4 => "4" | 5 => "5"
  | 6 => "6" | 7 => "7" | 8 => "8" | 9 => "9" | 10 => "a" | 11 => "b"
  | 12 => "c" | 13 => "d" | 14 => "e" | _ => "f"
  end%char.

(** [ESCAPE_DCT], with the [\uXXXX] form for every other character
    outside [' ' .. '~']. *)
Definition escape_char (c : ascii) : string :=
  let n := nat_of_ascii c in
  if (c =? quote)%char then String backslash (String quote "")
  else if (c =? backslash)%char then String backslash (String backslash "")
  else if (n =? 8)%nat then String backslash "b"
  else if (n =? 12)%nat then String backslash "f"
  else if (n =? 10)%nat then String backslash "n"
  else if (n =? 13)%nat then String backslash "r"
  else if (n =? 9)%nat then String backslash "t"
  else if ((32 <=? n) && (n <=? 126))%nat then String c ""
  else String backslash
         (String "u" (String "0" (String "0"
            (String (hex_digit (n / 16))
               (String (hex_digit (n mod 16)) ""))))).

Fixpoint escape (s : string) : string :=
  match s with
  | EmptyString => EmptyString
  | String c s' => escape_char c ++ escape s'
  end.

(** [encode_basestring_ascii] *)
Definition encode_basestring_ascii (s : string) : string :=
  String quote (escape s ++ String quote "").

Fixpoint spaces (n : nat) : string :=
  match n with
  | 0 => EmptyString
  | S n' => String " " (spaces n')
  end.

(** ['\n' + indent * level], or nothing when [indent] is [None]. *)
Definition newline_indent (indent : option nat) (level : nat) : string :=
  match indent with
  | None => EmptyString
  | Some n => String newline (spaces (n * level))
  end.

(** The item separator: [', '] by default, [','] and a new line when
    an indent is given. *)
Definition separator (indent : option nat) (level : nat) : string :=
  match indent with
  | None => ", "
  | Some _ => "," ++ newline_indent indent level
  end.

Definition key_separator : string := ": ".

(** [_iterencode] at nesting depth [level]. *)
Fixpoint encode (indent : option nat) (level : nat) (v : pyval)
  {struct v} : string :=
  match v with
  | PNone => "null"
  | PBool true => "true"
  | PBool false => "false"
  | PInt z => PyStr.of_Z z
  | PFloat r => r
  | PStr s => encode_basestring_ascii s
  | PList [] => "[]"
  | PList items =>
      "[" ++ newline_indent indent (S level)
        ++ PyStr.join (separator indent (S level))
             (map (encode indent (S level)) items)
        ++ newline_indent indent level ++ "]"
  | PDict [] => "{}"
  | PDict entries =>
      "{" ++ newline_indent indent (S level)
        ++ PyStr.join (separator indent (S level))
             (map (fun kv => encode_basestring_ascii (fst kv)
                               ++ key_separator
                               ++ encode indent (S level) (snd kv))
                  entries)
        ++ newline_indent indent level ++ "}"
  end.

(** [json.dumps(v)] and [json.dumps(v, indent=n)] *)
Definition dumps (indent : option nat) (v : pyval) : string :=
  encode indent 0 v.

(** ** Decoder *)

(** What a scanning step yields: a value and the text after it, the
    [StopIteration] of [scan_once], a [JSONDecodeError] at the text
    position where [at_] starts, or exhausted recursion depth. *)
Inductive scanned (A : Type) : Type :=
| Scanned (a : A) (rest : string)
| Stop (at_ : string)
| Fail (msg : string) (at_ : string)
| TooDeep.
Arguments Scanned {A} a rest.
Arguments Stop {A} at_.
Arguments Fail {A} msg at_.
Arguments TooDeep {A}.

Definition smap {A B} (f : A -> B) (r : scanned A) : scanned B :=
  match r with
  | Scanned a rest => Scanned (f a) rest
  | Stop a => Stop a
  | Fail m a => Fail m a
  | TooDeep => TooDeep
  end.

(** [WHITESPACE = ' \t\n\r'] *)
Definition is_ws (c : ascii) : bool :=
  let n := nat_of_ascii c in
  ((n =? 32) || (n =? 9) || (n =? 10) || (n =? 13))%nat.

Fixpoint skip_ws (s : string) : string :=
  match s with
  | String c s' => if is_ws c then skip_ws s' else s
  | EmptyString => EmptyString
  end.

Definition hex_value (c : ascii) : option nat :=
  let n := nat_of_ascii c in
  if ((48 <=? n) && (n <=? 57))%nat then Some (n - 48)
  else if ((97 <=? n) && (n <=? 102))%nat then Some (n - 87)
  else if ((65 <=? n) && (n <=? 70))%nat then Some (n - 55)
  else None.

Definition hex4 (a b c d : ascii) : option nat :=
  match hex_value a, hex_value b, hex_value c, hex_value d with
  | Some x, Some y, Some z, Some w => Some (((x * 16 + y) * 16 + z) * 16 + w)
  | _, _, _, _ => None
  end.

(** The [BACKSLASH] table. *)
Definition unescape (e : ascii) : option ascii :=
  if (e =? quote)%char then Some quote
  else if (e =? backslash)%char then Some backslash
  else if (e =? "/")%char then Some "/"%char
  else if (e =? "b")%char then Some "008"%char
  else if (e =? "f")%char then Some "012"%char
  else if (e =? "n")%char then Some "010"%char
  else if (e =? "r")%char then Some "013"%char
  else if (e =? "t")%char then Some "009"%char
  else None.

(** [scanstring]: [s] is the text after the opening quote and [begin]
    the text from that quote on.  A [\uXXXX] escape above U+00FF has
    no character in this model and is reported as a failure. *)
Fixpoint scanstring (begin s : string) : scanned string :=
  match s with
  | EmptyString => Fail "Unterminated string starting at" begin
  | String c s' =>
      if (c =? quote)%char then Scanned EmptyString s'
      else if (c =? backslash)%char then
        match s' with
        | EmptyString => Fail "Unterminated string starting at" begin
        | String e s'' =>
            if (e =? "u")%char then
              match s'' with
              | String h1 (String h2 (String h3 (String h4 tail))) =>
                  if PyStr.is_empty tail
                  then Fail "Invalid \uXXXX escape" s'
                  else
                    match hex4 h1 h2 h3 h4 with
                    | Some n =>
                        if (n <? 256)%nat
                        then smap (String (ascii_of_nat n))
                               (scanstring begin tail)
                        else Fail "\uXXXX escape above U+00FF" s'
                    | None => Fail "Invalid \uXXXX escape" s'
                    end
              | _ => Fail "Invalid \uXXXX escape" s'
              end
            else
              match unescape e with
              | Some ch => smap (String ch) (scanstring begin s'')
              | None => Fail "Invalid \escape" s
              end
        end
      else if (nat_of_ascii c <? 32)%nat
      then Fail "Invalid control character at" s
      else smap (String c) (scanstring begin s')
  end.

Definition is_digit (c : ascii) : bool :=
  let n := nat_of_ascii c in ((48 <=? n) && (n <=? 57))%nat.

Fixpoint span_digits (s : string) : string * string :=
  match s with
  | String c s' =>
      if is_digit c
      then let (d, r) := span_digits s' in (String c d, r)
      else (EmptyString, s)
  | EmptyString => (EmptyString, EmptyString)
  end.

(** The three groups of [NUMBER_RE]: an integer part (an optional
    minus sign, then either a single zero or a non-zero digit followed
    by digits), an optional fraction (a dot and at least one digit) and
    an optional exponent (e or E, an optional sign, at least one
    digit). *)
Definition match_integer (s : string) : option (string * string) :=
  let (sign, s1) :=
    match s with
    | String c s' => if (c =? "-")%char then ("-", s') else ("", s)
    | EmptyString => ("", s)
    end in
  match s1 with
  | String c s2 =>
      if (c =? "0")%char then Some (sign ++ "0", s2)
      else if is_digit c
           then let (d, r) := span_digits s2 in Some (sign ++ String c d, r)
           else None
  | EmptyString => None
  end.

Definition match_frac (s : string) : string * string :=
  match s with
  | String c s' =>
      if (c =? ".")%char
      then match span_digits s' with
           | (EmptyString, _) => (EmptyString, s)
           | (d, r) => (String c d, r)
           end
      else (EmptyString, s)
  | EmptyString => (EmptyString, s)
  end.

Definition match_exp (s : string) : string * string :=
  match s with
  | String e s' =>
      if ((e =? "e") || (e =? "E"))%char
      then
        let (sgn, s2) :=
          match s' with
          | String c s'' =>
              if ((c =? "-") || (c =? "+"))%char
              then (String c EmptyString, s'') else (EmptyString, s')
          | EmptyString => (EmptyString, s')
          end in
        match span_digits s2 with
        | (EmptyString, _) => (EmptyString, s)
        | (d, r) => (String e (sgn ++ d), r)
        end
      else (EmptyString, s)
  | EmptyString => (EmptyString, s)
  end.

(** A number: an [int] when neither fraction nor exponent matched,
    else a [float], kept as its literal. *)
Definition scan_number (s : string) : option (pyval * string) :=
  match match_integer s with
  | None => None
  | Some (i, r1) =>
      let (f, r2) := match_frac r1 in
      let (e, r3) := match_exp r2 in
      if PyStr.is_empty f && PyStr.is_empty e
      then match NilZero.int_of_string i with
           | Some d => Some (PInt (Z.of_int d), r3)
           | None => None
           end
      else Some (PFloat (i ++ f ++ e), r3)
  end.

(** [scan_once], with [JSONArray] and [JSONObject]: [array_items] and
    [object_items] are their [while] loops.  [fuel] bounds the number of
    nested calls. *)
Fixpoint scan_once (fuel : nat) (s : string) {struct fuel}
  : scanned pyval :=
  match fuel with
  | 0 => TooDeep
  | S fuel' =>
      match s with
      | EmptyString => Stop s
      | String c s' =>
          if (c =? quote)%char then smap PStr (scanstring s s')
          else if (c =? "{")%char then
            let s1 := skip_ws s' in
            match s1 with
            | String c1 r =>
                if (c1 =? "}")%char then Scanned (PDict []) r
                else if (c1 =? quote)%char
                then smap (fun pairs => PDict (Dict.of_pairs pairs))
                       (object_items fuel' s1 r)
                else Fail "Expecting property name enclosed in double quotes" s1
            | EmptyString =>
                Fail "Expecting property name enclosed in double quotes" s1
            end
          else if (c =? "[")%char then
            let s1 := skip_ws s' in
            if PyStr.has_prefix "]" s1 then Scanned (PList []) (PyStr.skip 1 s1)
            else smap PList (array_items fuel' s1)
          else if PyStr.has_prefix "null" s then Scanned PNone (PyStr.skip 4 s)
          else if PyStr.has_prefix "true" s then Scanned (PBool true) (PyStr.skip 4 s)
          else if PyStr.has_prefix "false" s then Scanned (PBool false) (PyStr.skip 5 s)
          else
            match scan_number s with
            | Some (v, r) => Scanned v r
            | None =>
                if PyStr.has_prefix "NaN" s
                then Scanned (PFloat "NaN") (PyStr.skip 3 s)
                else if PyStr.has_prefix "Infinity" s
                then Scanned (PFloat "Infinity") (PyStr.skip 8 s)
                else if PyStr.has_prefix "-Infinity" s
                then Scanned (PFloat "-Infinity") (PyStr.skip 9 s)
                else Stop s
            end
      end
  end

with array_items (fuel : nat) (s : string) {struct fuel}
  : scanned (list pyval) :=
  match fuel with
  | 0 => TooDeep
  | S fuel' =>
      match scan_once fuel' s with
      | Scanned v r =>
          let r1 := skip_ws r in
          match r1 with
          | String c r2 =>
              if (c =? "]")%char then Scanned [v] r2
              else if (c =? ",")%char
              then smap (cons v) (array_items fuel' (skip_ws r2))
              else Fail "Expecting ',' delimiter" r1
          | EmptyString => Fail "Expecting ',' delimiter" r1
          end
      | Stop a => Fail "Expecting value" a
      | Fail m a => Fail m a
      | TooDeep => TooDeep
      end
  end

with object_items (fuel : nat) (begin s : string) {struct fuel}
  : scanned (list (string * pyval)) :=
  match fuel with
  | 0 => TooDeep
  | S fuel' =>
      match scanstring begin s with
      | Scanned key r =>
          let r1 := skip_ws r in
          if PyStr.has_prefix ":" r1 then
            match scan_once fuel' (skip_ws (PyStr.skip 1 r1)) with
            | Scanned v r4 =>
                let r5 := skip_ws r4 in
                match r5 with
                | String c r6 =>
                    if (c =? "}")%char then Scanned [(key, v)] r6
                    else if (c =? ",")%char then
                      let r7 := skip_ws r6 in
                      match r7 with
                      | String c7 r8 =>
                          if (c7 =? quote)%char
                          then smap (cons (key, v))
                                 (object_items fuel' r7 r8)
                          else Fail "Expecting property name enclosed in double quotes" r7
                      | EmptyString =>
                          Fail "Expecting property name enclosed in double quotes" r7
                      end
                    else Fail "Expecting ',' delimiter" r5
                | EmptyString => Fail "Expecting ',' delimiter" r5
                end
            | Stop a => Fail "Expecting value" a
            | Fail m a => Fail m a
            | TooDeep => TooDeep
            end
          else Fail "Expecting ':' delimiter" r1
      | Stop a => Stop a
      | Fail m a => Fail m a
      | TooDeep => TooDeep
      end
  end.

(** Line and column (both from 1) of the character at offset [pos]. *)
Fixpoint line_col (doc : string) (pos line col : nat) : nat * nat :=
  match pos, doc with
  | S pos', String c doc' =>
      if (c =? newline)%char then line_col doc' pos' (S line) 1
      else line_col doc' pos' line (S col)
  | _, _ => (line, col)
  end.

(** [JSONDecodeError(msg, doc, pos)], [pos] being where [at_] starts. *)
Definition decode_error (msg doc at_ : string) : exn :=
  let pos := String.length doc - String.length at_ in
  let (l, c) := line_col doc pos 1 1 in
  JSONDecodeError msg l c pos.

(** [json.loads(doc)].  Two units of fuel per character and two more is
    more than the scanner can use, so the last case never arises;
    CPython's own bound on nesting, its recursion limit, is not
    modelled. *)
Definition loads (doc : string) : outcome pyval :=
  match scan_once (2 * String.length doc + 2) (skip_ws doc) with
  | Scanned v r =>
      let r1 := skip_ws r in
      if PyStr.is_empty r1 then Return v
      else Raise (decode_error "Extra data" doc r1)
  | Stop a => Raise (decode_error "Expecting value" doc a)
  | Fail m a => Raise (decode_error m doc a)
  | TooDeep => Raise (RecursionError "maximum recursion depth exceeded")
  end.

End Json.

(* ================================================================== *)
(** * Prompt builder *)
(* ================================================================== *)

Definition nl : string := String Json.newline EmptyString.

(** [s] between double quotes. *)
Definition quoted (s : string) : string :=
  String Json.quote (s ++ String Json.quote EmptyString).

Definition build_system_prompt : string :=
  PyStr.join nl
    [ "You are a professional marketing strategist. Create campaign briefs in valid JSON format."
    ; ""
    ; "STRICT REQUIREMENTS - FOLLOW EXACTLY:"
    ; "1. " ++ quoted "brief" ++ ": Write exactly 4-6 complete sentences"
    ; "2. " ++ quoted "angles" ++ ": Array with exactly 3 content strategy angles"
    ; "3. " ++ quoted "criteria" ++ ": Array with exactly 3 creator selection criteria"
    ; ""
    ; "CONTENT SAFETY GUIDELINES:"
    ; "- Generate only professional, appropriate marketing content"
    ; "- Avoid any profanity, offensive language, or inappropriate content"
    ; "- Focus on positive brand messaging and ethical marketing practices"
    ; "- Ensure all suggestions are suitable for public marketing campaigns"
    ; ""
    ; "IMPORTANT: "
    ; "- Always include exactly 3 items in angles array"
    ; "- Always include exactly 3 items in criteria array"
    ; "- Brief must be 4-6 sentences"
    ; "- Use proper JSON format only"
    ; "- No additional text outside JSON"
    ; ""
    ; "Example format:"
    ; "{"
    ; "  " ++ quoted "brief" ++ ": "
        ++ quoted "Sentence 1. Sentence 2. Sentence 3. Sentence 4." ++ ","
    ; "  " ++ quoted "angles" ++ ": [" ++ quoted "Angle 1" ++ ", "
        ++ quoted "Angle 2" ++ ", " ++ quoted "Angle 3" ++ "],"
    ; "  " ++ quoted "criteria" ++ ": [" ++ quoted "Criteria 1" ++ ", "
        ++ quoted "Criteria 2" ++ ", " ++ quoted "Criteria 3" ++ "]"
    ; "}" ].

Definition build_user_prompt (brand platform goal tone : string) : string :=
  PyStr.join nl
    [ "Create a campaign brief for:"
    ; "Brand: " ++ brand
    ; "Platform: " ++ platform
    ; "Goal: " ++ goal
    ; "Tone: " ++ tone
    ; ""
    ; "Generate a strategic campaign brief with content angles and creator criteria." ].

(* ================================================================== *)
(** * Response normaliser and schema validator: [parse_json_response] *)
(* ================================================================== *)

Definition fence_json : string := "```json".
Definition fence : string := "```".

(** Lines 273-281: the text handed to [json.loads]. *)
Definition extract_json_text (response_text : string) : string :=
  let response_text := PyStr.strip response_text in
  if PyStr.contains fence_json response_text then
    let start := (PyStr.find response_text fence_json 0 + 7)%Z in
    let end_ := PyStr.find response_text fence (Z.to_nat start) in
    PyStr.strip (PyStr.slice response_text start end_)
  else if PyStr.contains "{" response_text && PyStr.contains "}" response_text
  then
    let start := PyStr.find response_text "{" 0 in
    let end_ := (PyStr.rfind response_text "}" + 1)%Z in
    PyStr.slice response_text start end_
  else response_text.

(** The name of a value's class, as Python's messages print it. *)
Definition type_name (v : pyval) : string :=
  match v with
  | PNone => "NoneType"
  | PBool _ => "bool"
  | PInt _ => "int"
  | PFloat _ => "float"
  | PStr _ => "str"
  | PList _ => "list"
  | PDict _ => "dict"
  end.

(** [field in data], for a string [field]: key membership in a dict,
    element equality in a list, substring in a string, and a
    [TypeError] for a value that is no container. *)
Definition py_in (field : string) (data : pyval) : outcome bool :=
  match data with
  | PDict d => Return (Dict.mem field d)
  | PList items =>
      Return (existsb (fun x => match x with
                                | PStr s => String.eqb field s
                                | _ => false
                                end) items)
  | PStr s => Return (PyStr.contains field s)
  | _ => Raise (TypeError ("argument of type '" ++ type_name data
                             ++ "' is not iterable"))
  end.

(** [all(field in data for field in fields)]; the generator stops at the
    first [False]. *)
Fixpoint all_in (fields : list string) (data : pyval) : outcome bool :=
  match fields with
  | [] => Return true
  | f :: fs =>
      b <- py_in f data ;;
      if b then all_in fs data else Return false
  end.

(** [data[key]], for a string [key]. *)
Definition getitem (data : pyval) (key : string) : outcome pyval :=
  match data with
  | PDict d =>
      match Dict.get key d with
      | Some v => Return v
      | None => Raise (KeyError key)
      end
  | PList _ =>
      Raise (TypeError "list indices must be integers or slices, not str")
  | PStr _ => Raise (TypeError "string indices must be integers, not 'str'")
  | _ => Raise (TypeError ("'" ++ type_name data
                             ++ "' object is not subscriptable"))
  end.

Definition is_str (v : pyval) : bool :=
  match v with PStr _ => true | _ => false end.

(** [isinstance(v, list) and len(v) == 3] *)
Definition is_list_of_3 (v : pyval) : bool :=
  match v with
  | PList items => (List.length items =? 3)%nat
  | _ => false
  end.

(** [len([s for s in re.split(r'[.!?]+', brief) if s.strip()])] *)
Definition sentence_count (brief : string) : nat :=
  List.length
    (filter (fun s => negb (PyStr.is_empty (PyStr.strip s)))
       (Re.split_sentences brief)).

(** [len(brief.split())] *)
Definition word_count (brief : string) : nat :=
  List.length (PyStr.split brief).

(** Lines 285-313: the checks on the decoded value. *)
Definition validate (data : pyval) : outcome pyval :=
  present <- all_in ["brief"; "angles"; "criteria"] data ;;
  check present else_raise ValueError "Missing required fields in response" ;;
  brief <- getitem data "brief" ;;
  match brief with
  | PStr brief_text =>
      let count := sentence_count brief_text in
      let _lenient :=
        if ((count <? 3) || (8 <? count))%nat then tt else tt in
      let brief_words := word_count brief_text in
      check negb (brief_words <? 10)%nat
        else_raise ValueError "Brief too short - needs more content" ;;
      angles <- getitem data "angles" ;;
      check is_list_of_3 angles
        else_raise ValueError "Must have exactly 3 content angles" ;;
      criteria <- getitem data "criteria" ;;
      check is_list_of_3 criteria
        else_raise ValueError "Must have exactly 3 selection criteria" ;;
      Return data
  | _ => Raise (ValueError "Brief must be a string")
  end.

(** The body of the [try] block of [parse_json_response]. *)
Definition parse_json_response_body (response_text : string)
  : outcome pyval :=
  data <- Json.loads (extract_json_text response_text) ;;
  validate data.

(** [parse_json_response]: the [except] clause catches
    [json.JSONDecodeError] and [ValueError] and raises a [ValueError]
    that quotes the caught message; any other exception passes
    through. *)
Definition parse_json_response (response_text : string) : outcome pyval :=
  match parse_json_response_body response_text with
  | Return data => Return data
  | Raise e =>
      if is_ValueError e
      then Raise (ValueError ("Invalid JSON response: " ++ exn_str e))
      else Raise e
  end.

(* ================================================================== *)
(** * Configuration, the network and the random source *)
(* ================================================================== *)

(** The attributes of [django.conf.settings] the service reads.
    [OPENAI_MODEL] is read with [getattr] and a default. *)
Record Settings : Type := {
  AI_PROVIDER : string;
  OLLAMA_BASE_URL : string;
  OLLAMA_MODEL : string;
  AI_PROVIDER_API_KEY : option string;
  OPENAI_MODEL : option string
}.

(** An outbound call: the [requests.post] of the local adapter, or the
    [client.invoke] of the hosted one. *)
Inductive request : Type :=
| OllamaPost (url model prompt : string)
| OpenAIInvoke (model api_key system_prompt user_prompt : string).

(** What [requests.post(...)], [raise_for_status()] and [.json()] come
    to: an exception with its [str], or the decoded body, of which the
    adapter reads [response] and [eval_count]. *)
Inductive http_reply : Type :=
| HttpError (msg : string)
| HttpJson (response : option string) (eval_count : option pyval).

(** What building the client and [client.invoke(messages)] come to: an
    exception, or a message with its content and, when
    [response_metadata] is not empty, the [token_usage] found there
    (the empty dict when absent). *)
Inductive chat_reply : Type :=
| ChatError (msg : string)
| ChatMessage (content : string) (token_usage : option Dict.t).

(** [Faker()]: the number behind [random_int] and the sentences
    [fake.sentence()] returns, by order of call. *)
Record Faker : Type := {
  random_draw : nat;
  sentence : nat -> string
}.

(** [fake.random_int(min=lo, max=hi)] *)
Definition random_int (f : Faker) (lo hi : nat) : nat :=
  lo + random_draw f mod (hi - lo + 1).

(** All a call of the service depends on besides its arguments.
    [elapsed] is the text of [round(end_time - start_time, n)]. *)
Record Env : Type := {
  settings : Settings;
  pytest_loaded : bool;
  http_post : request -> http_reply;
  chat_invoke : request -> chat_reply;
  fake : Faker;
  elapsed : string
}.

(** [a or b] and [not a] on optional strings: [None] and the empty
    string are false. *)
Definition truthy (a : option string) : bool :=
  match a with
  | Some s => negb (PyStr.is_empty s)
  | None => false
  end.

Definition py_or (a b : option string) : option string :=
  if truthy a then a else b.

(* ================================================================== *)
(** * Provider adapters *)
(* ================================================================== *)

(** Each adapter returns its outcome and the requests sent so far. *)
Definition adapter_result : Type :=
  (outcome (string * Dict.t) * list request)%type.

Definition call_ollama_api (env : Env) (prompt : string)
  (sent : list request) : adapter_result :=
  let url := OLLAMA_BASE_URL (settings env) ++ "/api/generate" in
  let req := OllamaPost url (OLLAMA_MODEL (settings env)) prompt in
  match http_post env req with
  | HttpJson response eval_count =>
      let tokens := match eval_count with Some n => n | None => PInt 0 end in
      let metrics :=
        [ ("provider", PStr "ollama")
        ; ("model", PStr (OLLAMA_MODEL (settings env)))
        ; ("latency_seconds", PFloat (elapsed env))
        ; ("tokens_used", tokens)
        ; ("total_tokens", tokens)
        ; ("cost_estimate", PFloat "0.0") ] in
      (Return (match response with Some r => r | None => "" end, metrics),
       (sent ++ [req])%list)
  | HttpError msg =>
      (Raise (Exception ("Ollama API error: " ++ msg)), (sent ++ [req])%list)
  end.

Definition openai_model (env : Env) : string :=
  match OPENAI_MODEL (settings env) with
  | Some m => m
  | None => "gpt-4o-mini"
  end.

Definition call_openai_api (env : Env) (system_prompt user_prompt : string)
  (api_token : option string) (sent : list request) : adapter_result :=
  let token := py_or api_token (AI_PROVIDER_API_KEY (settings env)) in
  match token with
  | Some key =>
      if PyStr.is_empty key
      then (Raise (ValueError "OpenAI API key not configured"), sent)
      else
        let req :=
          OpenAIInvoke (openai_model env) key system_prompt user_prompt in
        match chat_invoke env req with
        | ChatMessage content token_usage =>
            let metrics :=
              [ ("provider", PStr "openai")
              ; ("model", PStr (openai_model env))
              ; ("latency_seconds", PFloat (elapsed env))
              ; ("tokens_used", PInt 0)
              ; ("total_tokens", PInt 0)
              ; ("prompt_tokens", PInt 0)
              ; ("cost_estimate", PFloat "0.0") ] in
            let metrics :=
              match token_usage with
              | Some usage =>
                  Dict.update metrics
                    [ ("tokens_used",
                       Dict.get_default "completion_tokens" (PInt 0) usage)
                    ; ("total_tokens",
                       Dict.get_default "total_tokens" (PInt 0) usage)
                    ; ("prompt_tokens",
                       Dict.get_default "prompt_tokens" (PInt 0) usage) ]
              | None => metrics
              end in
            (Return (content, metrics), (sent ++ [req])%list)
        | ChatError msg =>
            (Raise (Exception ("OpenAI LangChain call failed: " ++ msg)),
             (sent ++ [req])%list)
        end
  | None => (Raise (ValueError "OpenAI API key not configured"), sent)
  end.

(** [[fake.sentence() for _ in range(n)]], the first call being the
    [from]-th of this [Faker]. *)
Definition sentences (f : Faker) (from n : nat) : list string :=
  map (sentence f) (seq from n).

Definition test_response_data (env : Env) : pyval :=
  let n := random_int (fake env) 4 6 in
  let brief := PyStr.join " " (sentences (fake env) 0 n) in
  let angles := sentences (fake env) n 3 in
  let criteria := sentences (fake env) (n + 3) 3 in
  PDict [ ("brief", PStr brief)
        ; ("angles", PList (map PStr angles))
        ; ("criteria", PList (map PStr criteria)) ].

Definition call_test_api (env : Env) (brand platform goal tone : string)
  : string * Dict.t :=
  let response_text := Json.dumps (Some 2) (test_response_data env) in
  let tokens := PInt (Z.of_nat (List.length (PyStr.split response_text))) in
  let metrics :=
    [ ("provider", PStr "test")
    ; ("model", PStr "faker")
    ; ("latency_seconds", PFloat (elapsed env))
    ; ("tokens_used", tokens)
    ; ("total_tokens", tokens)
    ; ("cost_estimate", PFloat "0.0") ] in
  (response_text, metrics).

(* ================================================================== *)
(** * Orchestrator: [generate_campaign_brief] *)
(* ================================================================== *)

(** The returned dict: [brief], [angles], [criteria], [metrics] and, on
    the degraded path of the real providers, [raw_response]. *)
Record GenerationResult : Type := {
  brief : pyval;
  angles : pyval;
  criteria : pyval;
  metrics : Dict.t;
  raw_response : option string
}.

(** The dict built in both [try] blocks. *)
Definition success_result (brief_data : pyval) (metrics : Dict.t)
  : outcome GenerationResult :=
  let metrics := Dict.set "success" (PBool true) metrics in
  b <- getitem brief_data "brief" ;;
  a <- getitem brief_data "angles" ;;
  c <- getitem brief_data "criteria" ;;
  Return {| brief := b; angles := a; criteria := c; metrics := metrics;
            raw_response := None |}.

(** [metrics["success"] = False; metrics["parse_error"] = str(e)] *)
Definition failure_metrics (metrics : Dict.t) (e : exn) : Dict.t :=
  Dict.set "parse_error" (PStr (exn_str e))
    (Dict.set "success" (PBool false) metrics).

(** The provider after the test-mode override. *)
Definition resolve_provider (env : Env) : string :=
  if pytest_loaded env || String.eqb (AI_PROVIDER (settings env)) "test"
  then "test"
  else AI_PROVIDER (settings env).

(** Lines 364-369: the adapter of a real provider. *)
Definition call_provider (env : Env) (provider : string)
  (system_prompt user_prompt : string) (api_token : option string)
  (sent : list request) : adapter_result :=
  let full_prompt := system_prompt ++ nl ++ nl ++ user_prompt in
  if String.eqb provider "ollama" then call_ollama_api env full_prompt sent
  else if String.eqb provider "openai"
  then call_openai_api env system_prompt user_prompt api_token sent
  else (Raise (ValueError ("Unsupported AI provider: " ++ provider)), sent).

(** The dict returned by the [except Exception] clause of the test
    provider.  Whether the exception came before or after
    [metrics["success"] = True], the metrics end up the same: the key
    [success] is the last one and holds [False]. *)
Definition test_error_result (brand : string) (e : exn) (metrics : Dict.t)
  : GenerationResult :=
  {| brief := PStr ("Test provider error for " ++ brand ++ ": " ++ exn_str e);
     angles := PList [ PStr "Test generation failed"
                     ; PStr "Please check configuration"
                     ; PStr "Contact support" ];
     criteria := PList [ PStr "Test provider issue"
                       ; PStr "JSON parsing failed"
                       ; PStr "Debug needed" ];
     metrics := failure_metrics metrics e;
     raw_response := None |}.

(** The dict returned by the [except ValueError] clause of the real
    providers. *)
Definition degraded_result (brand : string) (e : exn) (metrics : Dict.t)
  (response_text : string) : GenerationResult :=
  {| brief := PStr ("Error generating brief for " ++ brand ++ ": "
                      ++ exn_str e);
     angles := PList [ PStr "Error in generation"
                     ; PStr "Please try again"
                     ; PStr "Check configuration" ];
     criteria := PList [ PStr "Model response invalid"
                       ; PStr "JSON parsing failed"
                       ; PStr "Contact support" ];
     metrics := failure_metrics metrics e;
     raw_response := Some response_text |}.

Definition generate_campaign_brief (env : Env)
  (brand platform goal tone : string) (api_token : option string)
  (sent : list request) : outcome GenerationResult * list request :=
  let provider := resolve_provider env in
  if String.eqb provider "test" then
    let (response_text, metrics) := call_test_api env brand platform goal tone in
    match (brief_data <- Json.loads response_text ;;
           success_result brief_data metrics) with
    | Return r => (Return r, sent)
    | Raise e => (Return (test_error_result brand e metrics), sent)
    end
  else
    let system_prompt := build_system_prompt in
    let user_prompt := build_user_prompt brand platform goal tone in
    match call_provider env provider system_prompt user_prompt api_token sent
    with
    | (Raise e, sent') => (Raise e, sent')
    | (Return (response_text, metrics), sent') =>
        match (brief_data <- parse_json_response response_text ;;
               success_result brief_data metrics) with
        | Return r => (Return r, sent')
        | Raise e =>
            if is_ValueError e
            then (Return (degraded_result brand e metrics response_text), sent')
            else (Raise e, sent')
        end
    end.

(* ================================================================== *)
(** * The normaliser as the specification words it *)
(* ================================================================== *)

(** [s] cut at the first occurrence of [sub]: the text before it and
    the text after it. *)
Fixpoint cut_first (sub s : string) : option (string * string) :=
  if PyStr.has_prefix sub s
  then Some (EmptyString, PyStr.skip (String.length sub) s)
  else match s with
       | EmptyString => None
       | String c s' =>
           match cut_first sub s' with
           | Some (before, after) => Some (String c before, after)
           | None => None
           end
       end.

(** The interior of the fenced block tagged [json], when there is one:
    what lies between the first opening fence and the next closing
    fence. *)
Definition fenced_interior (t : string) : option string :=
  match cut_first fence_json t with
  | Some (_, after) =>
      match cut_first fence after with
      | Some (interior, _) => Some interior
      | None => None
      end
  | None => None
  end.

(** The characters from the first opening brace to the last closing
    brace, both included, when the text has both. *)
Definition brace_span (t : string) : option string :=
  match PyStr.first_occurrence "{" t, PyStr.last_occurrence "}" t with
  | Some i, Some j => Some (substring i (S j - i) t)
  | _, _ => None
  end.

(** Steps (1)-(3) of the normaliser, word for word: trim; the interior
    of a fenced JSON block if there is one; else the brace span if there
    is one; else the trimmed text. *)
Definition normalize_as_worded (raw : string) : string :=
  let t := PyStr.strip raw in
  match fenced_interior t with
  | Some interior => interior
  | None =>
      match brace_span t with
      | Some span => span
      | None => t
      end
  end.

(** [before ++ sub ++ after] is [s] cut at its first occurrence of
    [sub]: no occurrence starts further left. *)
Definition first_split (sub s before after : string) : Prop :=
  s = before ++ sub ++ after /\
  forall before' after',
    s = before' ++ sub ++ after' ->
    String.length before <= String.length before'.

(* ================================================================== *)
(** * Values that [json.dumps] and [json.loads] carry unchanged *)
(* ================================================================== *)

(** Pairwise distinct keys, as in any Python [dict]. *)
Fixpoint distinct (keys : list string) : bool :=
  match keys with
  | [] => true
  | k :: ks => negb (existsb (String.eqb k) ks) && distinct ks
  end.

(** A value made of [None], booleans, integers, strings, lists and
    dicts with distinct keys.  Floats are left out: the model keeps
    their text and cannot tell when two of them are equal. *)
Fixpoint well_formed (v : pyval) : bool :=
  match v with
  | PFloat _ => false
  | PList items => forallb well_formed items
  | PDict entries =>
      distinct (map fst entries)
      && forallb (fun kv => well_formed (snd kv)) entries
  | _ => true
  end.

(** An element that is [None], a boolean, a string, or an integer of
    at most 4300 digits, the most the interpreter converts between
    [int] and [str] by default. *)
Definition scalar_element (v : pyval) : bool :=
  match v with
  | PNone | PBool _ | PStr _ => true
  | PInt z => (Z.abs z <? 10 ^ 4300)%Z
  | _ => false
  end.

(** A text before which a number literal ends: empty, or not starting
    with a digit, a dot or an exponent mark. *)
Definition ends_number (rest : string) : bool :=
  match rest with
  | EmptyString => true
  | String c _ =>
      negb (Json.is_digit c || (c =? ".")%char || (c =? "e")%char
            || (c =? "E")%char)
  end.

(** What follows the comma of a separator. *)
Definition gap (indent : option nat) (level : nat) : string :=
  match indent with
  | None => " "
  | Some _ => Json.newline_indent indent level
  end.

(** One [key: value] entry of an encoded dict. *)
Definition encode_entry (indent : option nat) (level : nat)
  (kv : string * pyval) : string :=
  Json.encode_basestring_ascii (fst kv) ++ Json.key_separator
    ++ Json.encode indent level (snd kv).

(** [v], encoded at any depth and followed by any text that cannot
    continue a number, is scanned back as [v], leaving that text, by any
    [scan_once] given more fuel than the encoding has characters. *)
Definition scans_back (v : pyval) : Prop :=
  well_formed v = true ->
  forall indent level fuel rest,
    String.length (Json.encode indent level v) < fuel ->
    ends_number rest = true ->
    Json.scan_once fuel (Json.encode indent level v ++ rest)
    = Json.Scanned v rest.

(* ================================================================== *)
(** * Sample inputs *)
(* ================================================================== *)

Module Sample.

Definition ten_words : string :=
  "one two three four five six seven eight nine ten".

(** Ten words and no sentence: every piece between terminators is
    blank. *)
Definition ten_dots : string := ". . . . . . . . . .".

(** Ten words in ten sentences. *)
Definition ten_sentences : string := "a. b. c. d. e. f. g. h. i. j.".

(** A brief that quotes a code fence. *)
Definition fenced_brief : string :=
  "```json one two three four five six seven eight nine ten".

Definition payload (b : string) (a c : pyval) : pyval :=
  PDict [("brief", PStr b); ("angles", a); ("criteria", c)].

Definition abc : pyval := PList [PStr "a"; PStr "b"; PStr "c"].
Definition def : pyval := PList [PStr "d"; PStr "e"; PStr "f"].
Definition two : pyval := PList [PStr "a"; PStr "b"].
Definition mixed : pyval := PList [PInt 1; PNone; PBool true].

Definition configuration (provider : string) (key : option string)
  : Settings :=
  {| AI_PROVIDER := provider;
     OLLAMA_BASE_URL := "http://localhost:11434";
     OLLAMA_MODEL := "llama3.2";
     AI_PROVIDER_API_KEY := key;
     OPENAI_MODEL := None |}.

Definition lorem : Faker :=
  {| random_draw := 7;
     sentence := fun i => "Lorem ipsum " ++ PyStr.of_nat i ++ "." |}.

Definition unreachable : request -> http_reply :=
  fun _ => HttpError "Connection refused".

Definition unauthorized : request -> chat_reply :=
  fun _ => ChatError "401 Unauthorized".

(** A fenced block whose interior starts with a form feed, which
    [str.strip] removes and JSON does not allow. *)
Definition fenced_form_feed : string :=
  "```json" ++ String "012" (Json.dumps None (payload ten_words abc def))
    ++ "```".

(** An opening fence that is never closed. *)
Definition unclosed_fence : string :=
  "```json" ++ Json.dumps None (payload ten_words abc def).

Definition replying (text : string) : request -> http_reply :=
  fun _ => HttpJson (Some text) (Some (PInt 12)).

Definition env_of (provider : string) (key : option string)
  (pytest : bool) (post : request -> http_reply) : Env :=
  {| settings := configuration provider key;
     pytest_loaded := pytest;
     http_post := post;
     chat_invoke := unauthorized;
     fake := lorem;
     elapsed := "0.01" |}.

End Sample.

(* ================================================================== *)
(** * More of Python: case, character classes, truth values *)
(* ================================================================== *)

Module PyChar.

(** [c.isalnum()] for code points below 256: the ASCII letters and
    digits, the letters of Latin-1 (all of U+00C0..U+00FF but the
    multiplication and division signs, and U+00AA, U+00B5, U+00BA) and
    its numeric characters (superscripts one to three and the three
    fractions). *)
Definition isalnum (c : ascii) : bool :=
  let n := nat_of_ascii c in
  (((48 <=? n) && (n <=? 57)) || ((65 <=? n) && (n <=? 90))
   || ((97 <=? n) && (n <=? 122))
   || (n =? 170) || (n =? 178) || (n =? 179) || (n =? 181) || (n =? 185)
   || (n =? 186) || ((188 <=? n) && (n <=? 190))
   || ((192 <=? n) && (n <=? 214)) || ((216 <=? n) && (n <=? 246))
   || (248 <=? n))%nat.

(** [c.lower()] for code points below 256. *)
Definition lower (c : ascii) : ascii :=
  let n := nat_of_ascii c in
  if (((65 <=? n) && (n <=? 90))
      || ((192 <=? n) && (n <=? 222) && negb (n =? 215)))%nat
  then ascii_of_nat (n + 32)
  else c.

End PyChar.

(** [s.lower()] *)
Fixpoint str_lower (s : string) : string :=
  match s with
  | EmptyString => EmptyString
  | String c s' => String (PyChar.lower c) (str_lower s')
  end.

(** [all(p(c) for c in s)] *)
Fixpoint str_forall (p : ascii -> bool) (s : string) : bool :=
  match s with
  | EmptyString => true
  | String c s' => p c && str_forall p s'
  end.

(** [s.split(',')[0]]: the text before the first comma. *)
Fixpoint before_comma (s : string) : string :=
  match s with
  | EmptyString => EmptyString
  | String c s' =>
      if (c =? ",")%char then EmptyString else String c (before_comma s')
  end.

(** The value of a run of decimal digits, read after [acc]. *)
Fixpoint digits_value (s : string) (acc : Z) : Z :=
  match s with
  | EmptyString => acc
  | String c s' =>
      digits_value s' (10 * acc + (Z.of_nat (nat_of_ascii c) - 48))%Z
  end.

Definition drop_sign (s : string) : string :=
  match s with
  | String c s' => if ((c =? "-") || (c =? "+"))%char then s' else s
  | EmptyString => EmptyString
  end.

(** [float(literal) == 0] for a literal [json.loads] made a float of.
    With [D] the digits of the mantissa read as one integer and [e] the
    written exponent less the number of decimals, the value is
    [D * 10^e]; [float] rounds it to zero when it is at most [2^-1075],
    half the least positive double.  [NaN] and the infinities are not
    zero. *)
Definition float_is_zero (literal : string) : bool :=
  match Json.match_integer literal with
  | None => false
  | Some (i, r1) =>
      let (f, r2) := Json.match_frac r1 in
      let (e, _) := Json.match_exp r2 in
      let decimals := PyStr.skip 1 f in
      let D := digits_value decimals (digits_value (drop_sign i) 0) in
      let written :=
        match e with
        | EmptyString => 0%Z
        | String _ e' =>
            if PyStr.has_prefix "-" e'
            then (- digits_value (drop_sign e') 0)%Z
            else digits_value (drop_sign e') 0
        end in
      let exponent := (written - Z.of_nat (String.length decimals))%Z in
      ((D =? 0) || ((exponent <? 0) && (D * 2 ^ 1075 <=? 10 ^ (- exponent))))%Z
  end.

(** [bool(v)] *)
Definition py_truthy (v : pyval) : bool :=
  match v with
  | PNone => false
  | PBool b => b
  | PInt z => negb (z =? 0)%Z
  | PFloat r => negb (float_is_zero r)
  | PStr s => negb (PyStr.is_empty s)
  | PList items => match items with [] => false | _ => true end
  | PDict entries => match entries with [] => false | _ => true end
  end.

(* ================================================================== *)
(** * The HTTP layer: [generator/views.py] *)
(* ================================================================== *)

(** What a view computes, or the [str] of the exception that left it.
    The [except Exception] clauses of the views and the server's own
    error page read nothing else of an exception. *)
Inductive attempt (A : Type) : Type :=
| Done (a : A)
| Failed (msg : string).
Arguments Done {A} a.
Arguments Failed {A} msg.

(** [AttributeError] of a method looked up on a value that lacks it. *)
Definition no_attribute (v : pyval) (name : string) : string :=
  "'" ++ type_name v ++ "' object has no attribute '" ++ name ++ "'".

Module Http.

(** The parts of a Django request the views read: the method, the body
    (as decoded text; a body that is not valid UTF-8 is outside the
    model) and two entries of [META]. *)
Record Request : Type := {
  method : string;
  body : string;
  HTTP_X_FORWARDED_FOR : option string;
  REMOTE_ADDR : option string
}.

Inductive Response : Type :=
| JsonResponse (payload : Dict.t) (status : nat)
| HttpResponseForbidden (content : string)
| HttpResponseNotAllowed (permitted : list string).

Definition status_code (r : Response) : nat :=
  match r with
  | JsonResponse _ status => status
  | HttpResponseForbidden _ => 403
  | HttpResponseNotAllowed _ => 405
  end.

End Http.

(** [django.core.cache.cache] as the rate limiter uses it: integer
    values, each with the time at which it expires, [now + timeout] for
    a value set at [now]; an entry is gone once its time has come.
    Eviction for lack of room is not modelled. *)
Module Cache.

Definition t : Type := list (string * (Z * Z)).

Fixpoint lookup (key : string) (c : t) : option (Z * Z) :=
  match c with
  | [] => None
  | (k, entry) :: c' => if String.eqb key k then Some entry else lookup key c'
  end.

(** [cache.get(key, default)] at time [now] *)
Definition get (c : t) (now : Z) (key : string) (default : Z) : Z :=
  match lookup key c with
  | Some (value, expires) => if (expires <=? now)%Z then default else value
  | None => default
  end.

Fixpoint store (key : string) (entry : Z * Z) (c : t) : t :=
  match c with
  | [] => [(key, entry)]
  | (k, e) :: c' =>
      if String.eqb key k then (k, entry) :: c' else (k, e) :: store key entry c'
  end.

(** [cache.set(key, value, timeout)] at time [now] *)
Definition set (c : t) (now : Z) (key : string) (value timeout : Z) : t :=
  store key (value, (now + timeout)%Z) c.

(** [cache.clear()] *)
Definition clear : t := [].

(** [cache.has_key(key)] at time [now] *)
Definition has_key (c : t) (now : Z) (key : string) : bool :=
  match lookup key c with
  | Some (_, expires) => negb (expires <=? now)%Z
  | None => false
  end.

End Cache.

(** The settings and collaborators of the views besides those of the
    service: [DEBUG], the two rate-limit settings (read with [getattr]
    and a default), [profanity_check.predict] when the library can be
    imported, and the text of [round(end_time - start_time, 2)]. *)
Record Server : Type := {
  core : Env;
  DEBUG : bool;
  RATE_LIMIT_MAX_REQUESTS : option Z;
  RATE_LIMIT_WINDOW_SECONDS : option Z;
  profanity_predict : option (string -> attempt bool);
  request_duration : string
}.

Definition profane_words : list string :=
  ["spam"; "scam"; "test123"; "badword"].

(** [is_profane]: the library's verdict, or the word list when the
    import fails. *)
Definition is_profane (srv : Server) (text : string) : attempt bool :=
  match profanity_predict srv with
  | Some predict => predict text
  | None =>
      Done (existsb (fun word =>
                       PyStr.contains (str_lower word) (str_lower text))
              profane_words)
  end.

Definition VALID_PLATFORMS : list string := ["Instagram"; "TikTok"; "UGC"].
Definition VALID_GOALS : list string :=
  ["Awareness"; "Conversions"; "Content Assets"].
Definition VALID_TONES : list string := ["Professional"; "Friendly"; "Playful"].

(** [c.isalnum() or c.isspace() or c in ".-&'"] *)
Definition brand_char (c : ascii) : bool :=
  PyChar.isalnum c || PyStr.isspace c
  || PyStr.contains (String c EmptyString) ".-&'".

(** [validate_brand_name]: [None] for a valid name, else the error. *)
Definition validate_brand_name (srv : Server) (brand_name : pyval)
  : attempt (option string) :=
  match brand_name with
  | PStr name =>
      if PyStr.is_empty name then Done (Some "Brand name is required")
      else
        let name := PyStr.strip name in
        if ((String.length name <? 1) || (50 <? String.length name))%nat
        then Done (Some "Brand name must be 1-50 characters")
        else if negb (str_forall brand_char name)
        then Done (Some "Brand name contains invalid characters")
        else
          match is_profane srv name with
          | Done true => Done (Some "Brand name contains inappropriate content")
          | Done false => Done None
          | Failed msg => Failed msg
          end
  | _ => Done (Some "Brand name is required")
  end.

(** [data.get(key, default)] on whatever the body decoded to. *)
Definition data_get (data : pyval) (key : string) (default : pyval)
  : attempt pyval :=
  match data with
  | PDict d => Done (Dict.get_default key default d)
  | _ => Failed (no_attribute data "get")
  end.

(** [v.strip()] *)
Definition py_strip (v : pyval) : attempt string :=
  match v with
  | PStr s => Done (PyStr.strip s)
  | _ => Failed (no_attribute v "strip")
  end.

(** [value not in options], with the message to append when so. *)
Definition option_error (label : string) (options : list string)
  (value : pyval) : list string :=
  match value with
  | PStr s =>
      if existsb (String.eqb s) options then []
      else [label ++ " must be one of: " ++ PyStr.join ", " options]
  | _ => [label ++ " must be one of: " ++ PyStr.join ", " options]
  end.

Record CleanedData : Type := {
  brand_name : string;
  platform : string;
  goal : string;
  tone : string
}.

Definition text_of (v : pyval) : string :=
  match v with PStr s => s | _ => EmptyString end.

(** [validate_form_inputs]: the joined error messages, or the cleaned
    data. *)
Definition validate_form_inputs (srv : Server) (data : pyval)
  : attempt (string + CleanedData) :=
  match data with
  | PDict d =>
      match py_strip (Dict.get_default "brand_name" (PStr "") d) with
      | Failed msg => Failed msg
      | Done brand =>
          match validate_brand_name srv (PStr brand) with
          | Failed msg => Failed msg
          | Done brand_error =>
              let p := Dict.get_default "platform" (PStr "") d in
              let g := Dict.get_default "goal" (PStr "") d in
              let t := Dict.get_default "tone" (PStr "") d in
              let brand_errors :=
                match brand_error with
                | Some e =>
                    if PyStr.is_empty e then [] else ["Brand name: " ++ e]
                | None => []
                end in
              let errors :=
                (brand_errors
                 ++ option_error "Platform" VALID_PLATFORMS p
                 ++ option_error "Goal" VALID_GOALS g
                 ++ option_error "Tone" VALID_TONES t)%list in
              match errors with
              | [] =>
                  Done (inr {| brand_name := brand;
                               platform := text_of p;
                               goal := text_of g;
                               tone := text_of t |})
              | _ => Done (inl (PyStr.join "; " errors))
              end
          end
      end
  | _ => Failed (no_attribute data "get")
  end.

Definition max_requests (srv : Server) : Z :=
  match RATE_LIMIT_MAX_REQUESTS srv with Some n => n | None => 10%Z end.

Definition window_seconds (srv : Server) : Z :=
  match RATE_LIMIT_WINDOW_SECONDS srv with Some n => n | None => 60%Z end.

(** The address the limiter counts against, as the f-string prints
    it. *)
Definition client_ip (req : Http.Request) : string :=
  let remote :=
    match Http.REMOTE_ADDR req with Some a => a | None => "None" end in
  match Http.HTTP_X_FORWARDED_FOR req with
  | Some forwarded =>
      if PyStr.is_empty forwarded then remote else before_comma forwarded
  | None => remote
  end.

Definition rate_key (req : Http.Request) : string :=
  "rate_limit_" ++ client_ip req.

(** [check_rate_limit] at time [now]: the pair it returns and the cache
    it leaves. *)
Definition check_rate_limit (srv : Server) (now : Z) (req : Http.Request)
  (cache : Cache.t) : (bool * option string) * Cache.t :=
  if pytest_loaded (core srv) then ((true, None), cache)
  else
    let current_requests := Cache.get cache now (rate_key req) 0 in
    if (max_requests srv <=? current_requests)%Z
    then ((false,
           Some ("Rate limit exceeded. Maximum "
                   ++ PyStr.of_Z (max_requests srv) ++ " requests per "
                   ++ PyStr.of_Z (window_seconds srv) ++ " seconds.")),
          cache)
    else ((true, None),
          Cache.set cache now (rate_key req) (current_requests + 1)
            (window_seconds srv)).

(** [(data.get('api_token') or '').strip() or None] *)
Definition api_token_of (data : pyval) : attempt (option string) :=
  match data_get data "api_token" PNone with
  | Failed msg => Failed msg
  | Done v =>
      match py_strip (if py_truthy v then v else PStr "") with
      | Failed msg => Failed msg
      | Done s => Done (if PyStr.is_empty s then None else Some s)
      end
  end.

Definition error_payload (message : string) : Dict.t :=
  [("error", PStr message); ("success", PBool false)].

(** The body of both [except Exception] clauses of [generate_brief]. *)
Definition failure_response (srv : Server) (label msg : string)
  : Http.Response :=
  Http.JsonResponse
    [ ("error", PStr (label ++ msg))
    ; ("success", PBool false)
    ; ("metrics",
       PDict [ ("request_duration", PFloat (request_duration srv))
             ; ("error", PStr msg) ]) ]
    500.

(** The dict [generate_campaign_brief] returned, after the view added
    [request_duration] to its metrics and [success] to it. *)
Definition success_payload (srv : Server) (r : GenerationResult) : Dict.t :=
  ([ ("brief", brief r); ("angles", angles r); ("criteria", criteria r)
   ; ("metrics",
      PDict (Dict.set "request_duration" (PFloat (request_duration srv))
               (metrics r))) ]
   ++ match raw_response r with
      | Some text => [("raw_response", PStr text)]
      | None => []
      end
   ++ [("success", PBool true)])%list.

(** [generate_brief], behind [require_http_methods(["POST"])]: the
    response, the cache and the requests sent. *)
Definition generate_brief (srv : Server) (now : Z) (req : Http.Request)
  (cache : Cache.t) (sent : list request)
  : Http.Response * Cache.t * list request :=
  if negb (String.eqb (Http.method req) "POST")
  then (Http.HttpResponseNotAllowed ["POST"], cache, sent)
  else
    match Json.loads (Http.body req) with
    | Raise (JSONDecodeError _ _ _ _) =>
        (Http.JsonResponse (error_payload "Invalid JSON data") 400, cache, sent)
    | Raise e => (failure_response srv "Server error: " (exn_str e), cache, sent)
    | Return data =>
        let '((rate_allowed, rate_error), cache') :=
          check_rate_limit srv now req cache in
        if negb rate_allowed
        then (Http.JsonResponse
                [ ("error",
                   match rate_error with Some e => PStr e | None => PNone end)
                ; ("success", PBool false) ]
                429,
              cache', sent)
        else
          match validate_form_inputs srv data with
          | Failed msg =>
              (failure_response srv "Server error: " msg, cache', sent)
          | Done (inl validation_error) =>
              (Http.JsonResponse
                 (error_payload ("Validation failed: " ++ validation_error))
                 400,
               cache', sent)
          | Done (inr cleaned_data) =>
              match api_token_of data with
              | Failed msg =>
                  (failure_response srv "AI generation failed: " msg,
                   cache', sent)
              | Done api_token =>
                  match generate_campaign_brief (core srv)
                          (brand_name cleaned_data) (platform cleaned_data)
                          (goal cleaned_data) (tone cleaned_data)
                          api_token sent with
                  | (Return result, sent') =>
                      (Http.JsonResponse (success_payload srv result) 200,
                       cache', sent')
                  | (Raise e, sent') =>
                      (failure_response srv "AI generation failed: "
                         (exn_str e),
                       cache', sent')
                  end
              end
          end
    end.

(** [health_check]: the provider it reports.  [AI_PROVIDER] is always
    set in this model of the settings, so the default of [getattr] is
    never used. *)
Definition health_check_provider (srv : Server) : string :=
  if pytest_loaded (core srv) then "test"
  else AI_PROVIDER (settings (core srv)).

Definition health_check (srv : Server) (timestamp : string) : Http.Response :=
  Http.JsonResponse
    [ ("status", PStr "healthy")
    ; ("ai_provider", PStr (health_check_provider srv))
    ; ("timestamp", PFloat timestamp) ]
    200.

(** The service's environment under other settings. *)
Definition with_settings (env : Env) (s : Settings) : Env :=
  {| settings := s;
     pytest_loaded := pytest_loaded env;
     http_post := http_post env;
     chat_invoke := chat_invoke env;
     fake := fake env;
     elapsed := elapsed env |}.

Definition valid_providers : list string := ["test"; "ollama"; "openai"].

(** The assignments of [set_provider] to [settings], for a provider of
    the valid set and the [api_key] of the body, a string when there is
    one. *)
Definition switch_provider (s : Settings) (provider : string)
  (api_key : option string) : Settings :=
  {| AI_PROVIDER := provider;
     OLLAMA_BASE_URL := OLLAMA_BASE_URL s;
     OLLAMA_MODEL := OLLAMA_MODEL s;
     AI_PROVIDER_API_KEY :=
       if String.eqb provider "openai"
       then (if truthy api_key then api_key else AI_PROVIDER_API_KEY s)
       else Some "";
     OPENAI_MODEL := OPENAI_MODEL s |}.

(** The [api_key] of the body, when [Settings] can hold it: a string,
    or nothing for a missing or null key. *)
Definition api_key_of (v : pyval) : option (option string) :=
  match v with
  | PNone => Some None
  | PStr s => Some (Some s)
  | _ => if py_truthy v then None else Some None
  end.

(** [set_provider], behind [require_http_methods(["POST"])]: the
    response with the settings and the cache it leaves, or the [str] of
    the exception that left it.  [None] stands for a body whose
    [api_key] is a true value that is no string, which this model of
    the settings cannot hold. *)
Definition set_provider (srv : Server) (req : Http.Request) (cache : Cache.t)
  : option (attempt (Http.Response * Settings * Cache.t)) :=
  let s := settings (core srv) in
  if negb (String.eqb (Http.method req) "POST")
  then Some (Done (Http.HttpResponseNotAllowed ["POST"], s, cache))
  else if negb (DEBUG srv)
  then Some (Done (Http.HttpResponseForbidden
                     "Provider override available only in debug mode",
                   s, cache))
  else
    let text := if PyStr.is_empty (Http.body req) then "{}"
                else Http.body req in
    match Json.loads text with
    | Raise (JSONDecodeError _ _ _ _) =>
        Some (Done (Http.JsonResponse
                      [ ("success", PBool false)
                      ; ("error", PStr "Invalid JSON payload") ] 400,
                    s, cache))
    | Raise e => Some (Failed (exn_str e))
    | Return data =>
        match data_get data "provider" PNone with
        | Failed msg => Some (Failed msg)
        | Done (PList _) => Some (Failed "unhashable type: 'list'")
        | Done (PDict _) => Some (Failed "unhashable type: 'dict'")
        | Done (PStr provider) =>
            if existsb (String.eqb provider) valid_providers then
              if String.eqb provider "openai" then
                match data_get data "api_key" PNone with
                | Failed msg => Some (Failed msg)
                | Done key =>
                    match api_key_of key with
                    | Some api_key =>
                        Some (Done (Http.JsonResponse
                                      [ ("success", PBool true)
                                      ; ("provider", PStr provider) ] 200,
                                    switch_provider s provider api_key,
                                    Cache.clear))
                    | None => None
                    end
                end
              else
                Some (Done (Http.JsonResponse
                              [ ("success", PBool true)
                              ; ("provider", PStr provider) ] 200,
                            switch_provider s provider None,
                            Cache.clear))
            else
              Some (Done (Http.JsonResponse
                            [ ("success", PBool false)
                            ; ("error",
                               PStr "Provider must be one of: ollama, openai, test") ]
                            400,
                          s, cache))
        | Done _ =>
            Some (Done (Http.JsonResponse
                          [ ("success", PBool false)
                          ; ("error",
                             PStr "Provider must be one of: ollama, openai, test") ]
                          400,
                        s, cache))
        end
    end.

(** The server after [set_provider] assigned to [settings]. *)
Definition reconfigured (srv : Server) (s : Settings) : Server :=
  {| core := with_settings (core srv) s;
     DEBUG := DEBUG srv;
     RATE_LIMIT_MAX_REQUESTS := RATE_LIMIT_MAX_REQUESTS srv;
     RATE_LIMIT_WINDOW_SECONDS := RATE_LIMIT_WINDOW_SECONDS srv;
     profanity_predict := profanity_predict srv;
     request_duration := request_duration srv |}.

(** The verdicts of [check_rate_limit] for one request repeated at the
    given times, each call working on the cache the previous one
    left. *)
Fixpoint admissions (srv : Server) (req : Http.Request) (times : list Z)
  (cache : Cache.t) : list bool :=
  match times with
  | [] => []
  | now :: times' =>
      fst (fst (check_rate_limit srv now req cache))
        :: admissions srv req times' (snd (check_rate_limit srv now req cache))
  end.

(** Times of which each is less than [window] after the one before,
    [previous] being the time before the first. *)
Fixpoint paced (window previous : Z) (times : list Z) : Prop :=
  match times with
  | [] => True
  | t :: times' =>
      (previous <= t < previous + window)%Z /\ paced window t times'
  end.

(** Servers and requests the examples use. *)
Module ViewSample.

Definition server (provider : string) (key : option string)
  (post : request -> http_reply) : Server :=
  {| core := Sample.env_of provider key false post;
     DEBUG := true;
     RATE_LIMIT_MAX_REQUESTS := Some 2%Z;
     RATE_LIMIT_WINDOW_SECONDS := None;
     profanity_predict := None;
     request_duration := "0.02" |}.

Definition form (brand : pyval) : pyval :=
  PDict [ ("brand_name", brand); ("platform", PStr "TikTok")
        ; ("goal", PStr "Awareness"); ("tone", PStr "Playful") ].

Definition post (text : string) (forwarded : option string) : Http.Request :=
  {| Http.method := "POST";
     Http.body := text;
     Http.HTTP_X_FORWARDED_FOR := forwarded;
     Http.REMOTE_ADDR := Some "10.0.0.1" |}.

Definition acme : Http.Request :=
  post (Json.dumps None (form (PStr " Acme & Sons "))) None.

(** The same server with [DEBUG] off. *)
Definition production (provider : string) (key : option string) : Server :=
  {| core := Sample.env_of provider key false Sample.unreachable;
     DEBUG := false;
     RATE_LIMIT_MAX_REQUESTS := Some 2%Z;
     RATE_LIMIT_WINDOW_SECONDS := None;
     profanity_predict := None;
     request_duration := "0.02" |}.

(** A form that brings its own credential. *)
Definition with_token (token : pyval) : pyval :=
  PDict [ ("brand_name", PStr "Acme"); ("platform", PStr "UGC")
        ; ("goal", PStr "Conversions"); ("tone", PStr "Friendly")
        ; ("api_token", token) ].

(** A body for [set_provider]. *)
Definition switch_to (provider : string) : Http.Request :=
  post (Json.dumps None (PDict [("provider", PStr provider)])) None.

End ViewSample.

(* ================================================================== *)
(** * Strings: concatenation and length *)
(* ================================================================== *)

Lemma app_assoc_s (a b c : string) : (a ++ b) ++ c = a ++ (b ++ c).
Proof. induction a as [|x a IH]; simpl; [reflexivity | now rewrite IH]. Qed.

Lemma app_nil_r_s (a : string) : a ++ "" = a.
Proof. induction a as [|x a IH]; simpl; [reflexivity | now rewrite IH]. Qed.

Lemma length_app_s (a b : string) :
  String.length (a ++ b) = String.length a + String.length b.
Proof. induction a as [|x a IH]; simpl; [reflexivity | now rewrite IH]. Qed.

(* ================================================================== *)
(** * Searching and slicing *)
(* ================================================================== *)

Lemma has_prefix_app sub a : PyStr.has_prefix sub (sub ++ a) = true.
Proof.
  induction sub as [|c sub IH]; [reflexivity|].
  cbn [append PyStr.has_prefix]. now rewrite Ascii.eqb_refl, IH.
Qed.

Lemma has_prefix_inv sub s :
  PyStr.has_prefix sub s = true -> exists a, s = sub ++ a.
Proof.
  revert s. induction sub as [|c sub IH]; intros s H.
  - now exists s.
  - destruct s as [|c' s]; [discriminate|].
    cbn [PyStr.has_prefix] in H. apply andb_true_iff in H as [Hc Hs].
    apply Ascii.eqb_eq in Hc. subst c'.
    destruct (IH s Hs) as [a ->]. now exists a.
Qed.

Lemma first_occurrence_unfold sub s :
  PyStr.first_occurrence sub s
  = if PyStr.has_prefix sub s then Some 0
    else match s with
         | "" => None
         | String _ s' => option_map S (PyStr.first_occurrence sub s')
         end.
Proof. destruct s; reflexivity. Qed.

Lemma first_occurrence_first_split sub s before after :
  first_split sub s before after ->
  PyStr.first_occurrence sub s = Some (String.length before).
Proof.
  revert s. induction before as [|c b IH]; intros s [Hs Hmin].
  - subst s. cbn [append].
    now rewrite first_occurrence_unfold, has_prefix_app.
  - subst s. cbn [append String.length].
    rewrite first_occurrence_unfold.
    destruct (PyStr.has_prefix sub (String c (b ++ sub ++ after))) eqn:E.
    + apply has_prefix_inv in E as [a E].
      specialize (Hmin "" a E). cbn [String.length] in Hmin. lia.
    + rewrite (IH (b ++ sub ++ after)); [reflexivity|].
      split; [reflexivity|].
      intros b' a' E'.
      specialize (Hmin (String c b') a').
      cbn [append String.length] in Hmin. rewrite E' in Hmin.
      specialize (Hmin eq_refl). lia.
Qed.

Lemma skip_app a b : PyStr.skip (String.length a) (a ++ b) = b.
Proof. induction a as [|c a IH]; [now destruct b | exact IH]. Qed.

Lemma substring_app a b c :
  substring (String.length a) (String.length b) (a ++ b ++ c) = b.
Proof.
  induction a as [|x a IH]; [|exact IH].
  cbn [append String.length]. revert c.
  induction b as [|y b IHb]; intros c.
  - now destruct c.
  - cbn [append String.length substring]. now rewrite IHb.
Qed.

Lemma substring_nothing n s : substring n 0 s = "".
Proof.
  revert n. induction s as [|c s IH]; intros [|n]; try reflexivity.
  cbn [substring]. apply IH.
Qed.

Lemma slice_bound_offset len i :
  i <= len -> PyStr.slice_bound (Z.of_nat len) (Z.of_nat i) = Z.of_nat i.
Proof.
  intros H. unfold PyStr.slice_bound.
  assert (E1 : (Z.of_nat i <? 0)%Z = false) by (apply Z.ltb_ge; lia).
  assert (E2 : (Z.of_nat len <? Z.of_nat i)%Z = false) by (apply Z.ltb_ge; lia).
  rewrite E1. cbv zeta. now rewrite E1, E2.
Qed.

(** A slice between two offsets of the text. *)
Lemma slice_offsets s i j :
  i <= String.length s -> j <= String.length s ->
  PyStr.slice s (Z.of_nat i) (Z.of_nat j) = substring i (j - i) s.
Proof.
  intros Hi Hj. unfold PyStr.slice.
  rewrite !slice_bound_offset by assumption.
  rewrite Nat2Z.id. f_equal. lia.
Qed.

Lemma contains_head_false c a s :
  PyStr.contains (String c "") (String a s) = false ->
  (c =? a)%char = false /\ PyStr.contains (String c "") s = false.
Proof.
  unfold PyStr.contains.
  unfold PyStr.first_occurrence at 1; fold PyStr.first_occurrence.
  cbn [PyStr.has_prefix].
  destruct (c =? a)%char; cbn [andb]; [discriminate|].
  destruct (PyStr.first_occurrence (String c "") s); [discriminate | auto].
Qed.

(** The first occurrence of a character not found before. *)
Lemma first_occurrence_char c before after :
  PyStr.contains (String c "") before = false ->
  PyStr.first_occurrence (String c "") (before ++ String c after)
  = Some (String.length before).
Proof.
  induction before as [|a b IH]; intros H.
  - cbn. now rewrite Ascii.eqb_refl.
  - apply contains_head_false in H as [Hc Hb].
    cbn [append String.length].
    unfold PyStr.first_occurrence; fold PyStr.first_occurrence.
    cbn [PyStr.has_prefix]. rewrite Hc. cbn [andb].
    now rewrite (IH Hb).
Qed.

Lemma last_occurrence_absent c s :
  PyStr.contains (String c "") s = false ->
  PyStr.last_occurrence (String c "") s = None.
Proof.
  induction s as [|a s IH]; intros H; [reflexivity|].
  apply contains_head_false in H as [Hc Hs].
  cbn [PyStr.last_occurrence PyStr.has_prefix].
  now rewrite (IH Hs), Hc.
Qed.

(** The last occurrence of a character not found after. *)
Lemma last_occurrence_char c before after :
  PyStr.contains (String c "") after = false ->
  PyStr.last_occurrence (String c "") (before ++ String c after)
  = Some (String.length before).
Proof.
  intros H. induction before as [|a b IH].
  - cbn [append PyStr.last_occurrence PyStr.has_prefix String.length].
    now rewrite (last_occurrence_absent c after H), Ascii.eqb_refl.
  - cbn [append PyStr.last_occurrence String.length]. now rewrite IH.
Qed.

Lemma last_occurrence_app_absent c s x :
  PyStr.contains (String c "") x = false ->
  PyStr.last_occurrence (String c "") (s ++ x)
  = match PyStr.last_occurrence (String c "") s with
    | Some j => Some j
    | None => None
    end.
Proof.
  intros H. induction s as [|a s IH].
  - cbn [append]. rewrite (last_occurrence_absent c x H). reflexivity.
  - cbn [append PyStr.last_occurrence]. rewrite IH.
    destruct (PyStr.last_occurrence (String c "") s); [reflexivity|].
    cbn [PyStr.has_prefix]. destruct (c =? a)%char; reflexivity.
Qed.

Lemma last_occurrence_bound c s j :
  PyStr.last_occurrence (String c "") s = Some j -> j < String.length s.
Proof.
  revert j. induction s as [|a s IH]; intros j H; [discriminate|].
  cbn [PyStr.last_occurrence String.length] in *.
  destruct (PyStr.last_occurrence (String c "") s) as [i|].
  - injection H as <-. specialize (IH i eq_refl). lia.
  - destruct (PyStr.has_prefix (String c "") (String a s)); [|discriminate].
    injection H as <-. lia.
Qed.

Lemma contains_true_last c s :
  PyStr.contains (String c "") s = true ->
  exists j, PyStr.last_occurrence (String c "") s = Some j.
Proof.
  intros H.
  destruct (PyStr.last_occurrence (String c "") s) as [j|] eqn:E;
    [now exists j|].
  exfalso. revert H E. induction s as [|a s IH]; [discriminate|].
  unfold PyStr.contains.
  unfold PyStr.first_occurrence at 1; fold PyStr.first_occurrence.
  cbn [PyStr.last_occurrence].
  destruct (PyStr.last_occurrence (String c "") s); [discriminate|].
  destruct (PyStr.has_prefix (String c "") (String a s)); [discriminate|].
  intros H _. apply IH; [|reflexivity].
  unfold PyStr.contains.
  destruct (PyStr.first_occurrence (String c "") s); [reflexivity | discriminate].
Qed.

Lemma contains_char_app c a b :
  PyStr.contains (String c "") (a ++ String c b) = true.
Proof.
  unfold PyStr.contains. induction a as [|x a IH].
  - cbn. now rewrite Ascii.eqb_refl.
  - cbn [append]. rewrite first_occurrence_unfold.
    destruct (PyStr.has_prefix (String c "") (String x (a ++ String c b)));
      [reflexivity|].
    destruct (PyStr.first_occurrence (String c "") (a ++ String c b));
      [reflexivity | discriminate].
Qed.

Lemma contains_char_app_l c a b :
  PyStr.contains (String c "") a = true ->
  PyStr.contains (String c "") (a ++ b) = true.
Proof.
  unfold PyStr.contains. induction a as [|x a IH]; [discriminate|].
  cbn [append]. rewrite !first_occurrence_unfold with (s := String x _).
  cbn [PyStr.has_prefix]. destruct (c =? x)%char; [reflexivity|].
  cbn [andb].
  destruct (PyStr.first_occurrence (String c "") a); [|discriminate].
  intros _. specialize (IH eq_refl).
  destruct (PyStr.first_occurrence (String c "") (a ++ b));
    [reflexivity | discriminate].
Qed.

(** [cut_first] cuts at the first occurrence. *)
Lemma cut_first_split sub s : forall before after,
  cut_first sub s = Some (before, after) -> first_split sub s before after.
Proof.
  induction s as [|c s IH]; intros before after H.
  - cbn [cut_first] in H.
    destruct (PyStr.has_prefix sub "") eqn:E; [|discriminate].
    injection H as <- <-. destruct sub; [|discriminate].
    split; [reflexivity | intros; cbn; lia].
  - unfold cut_first in H; fold cut_first in H.
    destruct (PyStr.has_prefix sub (String c s)) eqn:E.
    + injection H as <- <-.
      apply has_prefix_inv in E as [a E]. rewrite E, skip_app.
      split; [reflexivity | intros; cbn; lia].
    + destruct (cut_first sub s) as [[b a]|] eqn:Ec; [|discriminate].
      injection H as <- <-.
      destruct (IH b a eq_refl) as [Hs Hmin].
      split; [cbn [append]; now rewrite <- Hs|].
      intros b' a' E'. destruct b' as [|c' b'].
      * cbn [append] in E'. rewrite E', has_prefix_app in E. discriminate.
      * cbn [append] in E'. injection E' as _ E'.
        specialize (Hmin b' a' E'). cbn [String.length]. lia.
Qed.

(* ================================================================== *)
(** * JSON strings: [scanstring] undoes [escape] *)
(* ================================================================== *)

Lemma scanstring_escape_char c begin a t :
  Json.scanstring begin (Json.escape_char c ++ String a t)
  = Json.smap (String c) (Json.scanstring begin (String a t)).
Proof. destruct c as [[] [] [] [] [] [] [] []]; reflexivity. Qed.

Lemma escape_char_head c : exists a t, Json.escape_char c = String a t.
Proof. destruct c as [[] [] [] [] [] [] [] []]; eexists; eexists; reflexivity. Qed.

Lemma scanstring_escape s begin rest :
  Json.scanstring begin (Json.escape s ++ String Json.quote rest)
  = Json.Scanned s rest.
Proof.
  induction s as [|c s IH]; [reflexivity|].
  cbn [Json.escape]. rewrite app_assoc_s.
  assert (exists a t, Json.escape s ++ String Json.quote rest = String a t)
    as (a & t & E).
  { destruct s as [|c' s']; [eexists; eexists; reflexivity|].
    cbn [Json.escape]. destruct (escape_char_head c') as (a & t & ->).
    eexists; eexists; reflexivity. }
  rewrite E, scanstring_escape_char, <- E, IH. reflexivity.
Qed.

(* ================================================================== *)
(** * JSON integers *)
(* ================================================================== *)

(** Decimal digits are digits. *)
Lemma span_digits_uint u rest :
  ends_number rest = true ->
  Json.span_digits (NilEmpty.string_of_uint u ++ rest)
  = (NilEmpty.string_of_uint u, rest).
Proof.
  intros Hr. induction u; cbn [NilEmpty.string_of_uint append Json.span_digits];
    try (cbn [Json.is_digit]; rewrite IHu; reflexivity).
  destruct rest as [|c r]; [reflexivity|].
  cbn [Json.span_digits]. cbn [ends_number] in Hr.
  destruct (Json.is_digit c); [discriminate | reflexivity].
Qed.

Lemma to_uint_unorm p : unorm (Pos.to_uint p) = Pos.to_uint p.
Proof.
  rewrite <- (DecimalPos.Unsigned.to_of (Pos.to_uint p)).
  rewrite DecimalPos.Unsigned.of_to. reflexivity.
Qed.

Lemma to_uint_head p :
  match Pos.to_uint p with Nil | D0 _ => False | _ => True end.
Proof.
  pose proof (to_uint_unorm p) as Hn.
  pose proof (DecimalPos.Unsigned.to_uint_nonzero p) as Hz.
  pose proof (DecimalPos.Unsigned.to_uint_nonnil p) as Hnil.
  destruct (Pos.to_uint p) eqn:E; try exact I; [contradiction|].
  unfold unorm in Hn.
  pose proof (nzhead_nonzero (D0 u)) as Hnz.
  destruct (nzhead (D0 u)) eqn:E2; try (now apply (Hnz u)).
  now apply Hz.
Qed.

Lemma match_frac_ends rest :
  ends_number rest = true -> Json.match_frac rest = ("", rest).
Proof.
  destruct rest as [|c r]; [reflexivity|].
  cbn [ends_number Json.match_frac]. intros H.
  apply negb_true_iff in H.
  destruct (c =? ".")%char; [|reflexivity].
  rewrite !orb_true_r in H; cbn in H. rewrite ?orb_true_r in H. discriminate.
Qed.

Lemma match_exp_ends rest :
  ends_number rest = true -> Json.match_exp rest = ("", rest).
Proof.
  destruct rest as [|c r]; [reflexivity|].
  cbn [ends_number Json.match_exp]. intros H.
  apply negb_true_iff in H.
  destruct (c =? "e")%char; [rewrite ?orb_true_r in H; cbn in H; rewrite ?orb_true_r in H; discriminate|].
  destruct (c =? "E")%char; [rewrite ?orb_true_r in H; discriminate|].
  reflexivity.
Qed.

Lemma match_integer_digits u rest :
  match u with Nil | D0 _ => False | _ => True end ->
  ends_number rest = true ->
  Json.match_integer (NilEmpty.string_of_uint u ++ rest)
  = Some (NilEmpty.string_of_uint u, rest) /\
  Json.match_integer (String "-" (NilEmpty.string_of_uint u ++ rest))
  = Some (String "-" (NilEmpty.string_of_uint u), rest).
Proof.
  intros Hu Hr.
  destruct u; try contradiction;
    cbn [NilEmpty.string_of_uint append Json.match_integer Ascii.eqb Bool.eqb
           Json.is_digit];
    cbn; rewrite (span_digits_uint _ _ Hr); split; reflexivity.
Qed.

Lemma scan_number_of_Z z rest :
  ends_number rest = true ->
  Json.scan_number (PyStr.of_Z z ++ rest) = Some (PInt z, rest).
Proof.
  intros Hr. unfold Json.scan_number, PyStr.of_Z.
  assert (Hint : NilZero.int_of_string (NilZero.string_of_int (Z.to_int z))
                 = Some (Z.to_int z)).
  { apply NilZero.isi; destruct z; cbn; try discriminate;
      intros [= E]; now apply (DecimalPos.Unsigned.to_uint_nonnil p). }
  assert (Hm : Json.match_integer (NilZero.string_of_int (Z.to_int z) ++ rest)
               = Some (NilZero.string_of_int (Z.to_int z), rest)).
  { destruct z as [|p|p]; cbn [Z.to_int NilZero.string_of_int];
      [reflexivity | |];
      pose proof (to_uint_head p) as Hh; revert Hh;
      generalize (Pos.to_uint p); intros u Hu;
      (assert (NilZero.string_of_uint u = NilEmpty.string_of_uint u) as ->
          by (destruct u; [contradiction | reflexivity ..]));
      now apply match_integer_digits. }
  rewrite Hm, (match_frac_ends _ Hr), (match_exp_ends _ Hr).
  cbn [PyStr.is_empty andb]. rewrite Hint, DecimalZ.of_to. reflexivity.
Qed.

Lemma number_head c :
  c = "-"%char \/ Json.is_digit c = true ->
  (c =? Json.quote)%char = false /\ (c =? "{")%char = false /\
  (c =? "[")%char = false /\ ("n" =? c)%char = false /\
  ("t" =? c)%char = false /\ ("f" =? c)%char = false /\
  Json.is_ws c = false /\ ("]" =? c)%char = false.
Proof.
  intros [->|H]; [repeat split|].
  destruct c as [[] [] [] [] [] [] [] []]; try discriminate H; repeat split.
Qed.

Lemma of_Z_head z :
  exists c t, PyStr.of_Z z = String c t /\
              (c = "-"%char \/ Json.is_digit c = true).
Proof.
  unfold PyStr.of_Z.
  destruct z as [|p|p]; cbn [Z.to_int NilZero.string_of_int].
  - exists "0"%char, "". split; [reflexivity | right; reflexivity].
  - pose proof (to_uint_head p) as Hh. unfold NilZero.string_of_uint.
    destruct (Pos.to_uint p); try contradiction;
      eexists; eexists; (split; [reflexivity | right; reflexivity]).
  - eexists; eexists. split; [reflexivity | left; reflexivity].
Qed.

Lemma scan_once_int fuel z rest :
  ends_number rest = true ->
  Json.scan_once (S fuel) (PyStr.of_Z z ++ rest) = Json.Scanned (PInt z) rest.
Proof.
  intros Hr. pose proof (scan_number_of_Z z rest Hr) as Hn.
  destruct (of_Z_head z) as (c & t & E & Hc).
  rewrite E in *. cbn [append] in *.
  destruct (number_head c Hc) as (H1 & H2 & H3 & H4 & H5 & H6 & _).
  cbn [Json.scan_once]. rewrite H1, H2, H3.
  cbn [PyStr.has_prefix]. rewrite H4, H5, H6. cbn [andb].
  rewrite Hn. reflexivity.
Qed.

(* ================================================================== *)
(** * White space and separators *)
(* ================================================================== *)

Lemma skip_ws_head c t :
  Json.is_ws c = false -> Json.skip_ws (String c t) = String c t.
Proof. intros H. cbn [Json.skip_ws]. now rewrite H. Qed.

Lemma skip_ws_spaces n s : Json.skip_ws (Json.spaces n ++ s) = Json.skip_ws s.
Proof. induction n as [|n IH]; [reflexivity | exact IH]. Qed.

Lemma skip_ws_newline_indent indent level s :
  Json.skip_ws (Json.newline_indent indent level ++ s) = Json.skip_ws s.
Proof.
  destruct indent as [n|]; [|reflexivity].
  cbn [Json.newline_indent append Json.skip_ws].
  change (Json.is_ws Json.newline) with true. cbn iota.
  apply skip_ws_spaces.
Qed.

Lemma separator_gap indent level :
  Json.separator indent level = String "," (gap indent level).
Proof. destruct indent; reflexivity. Qed.

Lemma skip_ws_gap indent level s :
  Json.skip_ws (gap indent level ++ s) = Json.skip_ws s.
Proof.
  destruct indent as [n|]; [|reflexivity].
  apply skip_ws_newline_indent.
Qed.

Lemma ends_number_closing indent level c rest :
  c = "]"%char \/ c = "}"%char ->
  ends_number (Json.newline_indent indent level ++ String c rest) = true.
Proof. intros [-> | ->]; destruct indent; reflexivity. Qed.

Lemma concat_cons sep a l :
  String.concat sep (a :: l)
  = a ++ match l with [] => "" | _ => sep ++ String.concat sep l end.
Proof. destruct l; cbn [String.concat]; [now rewrite app_nil_r_s | reflexivity]. Qed.

(* ================================================================== *)
(** * Dictionaries built from distinct keys *)
(* ================================================================== *)

Lemma distinct_NoDup keys : distinct keys = true -> NoDup keys.
Proof.
  induction keys as [|k ks IH]; [constructor|].
  cbn [distinct]. intros H. apply andb_true_iff in H as [H1 H2].
  constructor; [|auto].
  intros Hin. apply negb_true_iff in H1.
  assert (existsb (String.eqb k) ks = true); [|congruence].
  apply existsb_exists. exists k. split; [exact Hin | apply String.eqb_refl].
Qed.

Lemma set_fresh k v d :
  ~ In k (map fst d) -> Dict.set k v d = (d ++ [(k, v)])%list.
Proof.
  induction d as [|[k' v'] d IH]; [reflexivity|].
  cbn [map fst In Dict.set]. intros H.
  destruct (String.eqb k k') eqn:E.
  - apply String.eqb_eq in E. subst. exfalso. apply H. now left.
  - cbn [app]. rewrite IH; [reflexivity|]. intros Hin. apply H. now right.
Qed.

Lemma of_pairs_acc l : forall acc,
  NoDup (map fst (acc ++ l)%list) ->
  fold_left (fun d kv => Dict.set (fst kv) (snd kv) d) l acc = (acc ++ l)%list.
Proof.
  induction l as [|[k v] l IH]; intros acc H.
  - cbn [fold_left]. now rewrite List.app_nil_r.
  - cbn [fold_left fst snd].
    rewrite set_fresh.
    + rewrite IH; rewrite <- List.app_assoc; [reflexivity | exact H].
    + rewrite map_app in H. cbn [map fst] in H.
      apply NoDup_remove_2 in H. intros Hin. apply H.
      apply in_or_app. now left.
Qed.

Lemma of_pairs_distinct entries :
  distinct (map fst entries) = true -> Dict.of_pairs entries = entries.
Proof.
  intros H. unfold Dict.of_pairs. rewrite of_pairs_acc; [reflexivity|].
  now apply distinct_NoDup.
Qed.

(* ================================================================== *)
(** * [scan_once] undoes [encode] *)
(* ================================================================== *)

Lemma encode_head v indent level :
  well_formed v = true ->
  exists c t, Json.encode indent level v = String c t /\
              Json.is_ws c = false /\ ("]" =? c)%char = false.
Proof.
  intros Hw. destruct v as [|[]|z|r|s|[|x xs]|[|e es]]; try discriminate Hw;
    try (eexists; eexists; split; [reflexivity | split; reflexivity]).
  destruct (of_Z_head z) as (c & t & E & Hc).
  destruct (number_head c Hc) as (_ & _ & _ & _ & _ & _ & H7 & H8).
  exists c, t. cbn [Json.encode]. auto.
Qed.

Lemma encode_list_cons indent level x xs :
  Json.encode indent level (PList (x :: xs))
  = "[" ++ Json.newline_indent indent (S level)
      ++ String.concat (Json.separator indent (S level))
           (map (Json.encode indent (S level)) (x :: xs))
      ++ Json.newline_indent indent level ++ "]".
Proof. reflexivity. Qed.

Lemma encode_dict_cons indent level e es :
  Json.encode indent level (PDict (e :: es))
  = "{" ++ Json.newline_indent indent (S level)
      ++ String.concat (Json.separator indent (S level))
           (map (encode_entry indent (S level)) (e :: es))
      ++ Json.newline_indent indent level ++ "}".
Proof. reflexivity. Qed.

Lemma separator_length indent level :
  1 <= String.length (Json.separator indent level).
Proof. rewrite separator_gap. cbn [String.length]. lia. Qed.

Lemma array_items_encode indent level items :
  Forall scans_back items ->
  forallb well_formed items = true ->
  items <> [] ->
  forall fuel rest,
    String.length
      (String.concat (Json.separator indent (S level))
         (map (Json.encode indent (S level)) items)) + 1 < fuel ->
    Json.array_items fuel
      (String.concat (Json.separator indent (S level))
         (map (Json.encode indent (S level)) items)
       ++ Json.newline_indent indent level ++ String "]" rest)
    = Json.Scanned items rest.
Proof.
  induction items as [|x xs IH]; intros HP Hw Hne fuel rest Hf;
    [contradiction|].
  inversion HP as [|? ? Px Pxs]; subst.
  cbn [forallb] in Hw. apply andb_true_iff in Hw as [Hwx Hwxs].
  cbn [map] in *. rewrite concat_cons in *.
  destruct fuel as [|f]; [lia|].
  rewrite length_app_s in Hf.
  cbn [Json.array_items]. rewrite app_assoc_s.
  destruct xs as [|y ys].
  - cbn [map append String.length] in *.
    rewrite (Px Hwx) by (try apply ends_number_closing; auto; lia).
    rewrite skip_ws_newline_indent, skip_ws_head by reflexivity.
    reflexivity.
  - cbn [map] in *.
    set (more := String.concat (Json.separator indent (S level))
                   (Json.encode indent (S level) y
                      :: map (Json.encode indent (S level)) ys)) in *.
    rewrite length_app_s in Hf.
    pose proof (separator_length indent (S level)) as Hs.
    rewrite separator_gap in *. cbn [append String.length] in *.
    rewrite (Px Hwx) by (auto; lia).
    rewrite skip_ws_head by reflexivity.
    cbn [Ascii.eqb Bool.eqb]. cbn iota.
    rewrite app_assoc_s, skip_ws_gap.
    specialize (IH Pxs Hwxs ltac:(discriminate) f rest ltac:(fold more; lia)).
    fold more in IH.
    assert (Hskip : forall z, Json.skip_ws (more ++ z) = more ++ z).
    { intros z. unfold more. rewrite concat_cons.
      cbn [forallb] in Hwxs. apply andb_true_iff in Hwxs as [Hwy _].
      destruct (encode_head y indent (S level) Hwy) as (c & t & -> & Hc & _).
      cbn [append]. now apply skip_ws_head. }
    rewrite Hskip, IH. reflexivity.
Qed.

Lemma encode_entry_quote indent level k v :
  encode_entry indent level (k, v)
  = String Json.quote
      (Json.escape k
         ++ String Json.quote (": " ++ Json.encode indent level v)).
Proof.
  unfold encode_entry, Json.encode_basestring_ascii, Json.key_separator.
  cbn [fst snd append]. now rewrite app_assoc_s.
Qed.

Lemma object_items_encode indent level entries :
  Forall (fun kv => scans_back (snd kv)) entries ->
  forallb (fun kv => well_formed (snd kv)) entries = true ->
  forall fuel begin rest text,
    String.concat (Json.separator indent (S level))
      (map (encode_entry indent (S level)) entries)
    = String Json.quote text ->
    String.length text + 2 < fuel ->
    Json.object_items fuel begin
      (text ++ Json.newline_indent indent level ++ String "}" rest)
    = Json.Scanned entries rest.
Proof.
  induction entries as [|[k v] es IH]; intros HP Hw fuel begin rest text Ht Hf;
    [discriminate|].
  inversion HP as [|? ? Pv Pes]; subst. cbn [snd] in Pv.
  cbn [forallb snd] in Hw. apply andb_true_iff in Hw as [Hwv Hwes].
  cbn [map] in Ht. rewrite concat_cons, encode_entry_quote in Ht.
  cbn [append] in Ht. injection Ht as <-.
  destruct fuel as [|f]; [lia|].
  repeat (progress (rewrite ?app_assoc_s; cbn [append])).
  repeat (progress (rewrite ?length_app_s in Hf; cbn [String.length] in Hf)).
  cbn [Json.object_items]. rewrite scanstring_escape.
  rewrite skip_ws_head by reflexivity.
  cbn [PyStr.has_prefix Ascii.eqb Bool.eqb andb PyStr.skip].
  change (Json.skip_ws (String " " ?s)) with (Json.skip_ws s).
  destruct (encode_head v indent (S level) Hwv) as (c & t & E & Hc & _).
  assert (Hskip : forall z,
             Json.skip_ws (Json.encode indent (S level) v ++ z)
             = Json.encode indent (S level) v ++ z).
  { intros z. rewrite E. cbn [append]. now apply skip_ws_head. }
  rewrite Hskip.
  destruct es as [|[k' v'] es'].
  - cbn [map append] in *.
    rewrite (Pv Hwv) by (try apply ends_number_closing; auto; lia).
    rewrite skip_ws_newline_indent, skip_ws_head by reflexivity.
    reflexivity.
  - cbn [map] in *.
    set (more := String.concat (Json.separator indent (S level))
                   (encode_entry indent (S level) (k', v')
                      :: map (encode_entry indent (S level)) es')) in *.
    rewrite separator_gap in *. cbn [append String.length] in *.
    rewrite !length_app_s in Hf.
    rewrite (Pv Hwv) by (auto; lia).
    rewrite skip_ws_head by reflexivity.
    cbn [Ascii.eqb Bool.eqb]. cbn iota.
    rewrite app_assoc_s, skip_ws_gap.
    assert (Hmore : exists text', more = String Json.quote text')
      by (unfold more; rewrite concat_cons, encode_entry_quote;
          eexists; reflexivity).
    destruct Hmore as (text' & Em). rewrite Em in *.
    cbn [append String.length] in *.
    rewrite skip_ws_head by reflexivity.
    change (Json.quote =? Json.quote)%char with true. cbn iota.
    rewrite (IH Pes Hwes f _ rest text' eq_refl) by lia.
    reflexivity.
Qed.

Theorem scan_once_encode v : scans_back v.
Proof.
  induction v as [| b | z | r | s | items IH | entries IH] using pyval_ind;
    intros Hw indent level fuel rest Hf Hr.
  - destruct fuel; [cbn in Hf; lia | reflexivity].
  - destruct fuel; [cbn in Hf; lia | destruct b; reflexivity].
  - destruct fuel; [lia | now apply scan_once_int].
  - discriminate.
  - destruct fuel; [lia|].
    cbn [Json.encode]. unfold Json.encode_basestring_ascii.
    cbn [append Json.scan_once].
    change (Json.quote =? Json.quote)%char with true. cbn iota.
    rewrite app_assoc_s. cbn [append].
    rewrite scanstring_escape. reflexivity.
  - destruct items as [|x xs].
    + destruct fuel; [cbn in Hf; lia | reflexivity].
    + rewrite encode_list_cons in *.
      destruct fuel as [|f]; [lia|].
      cbn [append String.length] in Hf. rewrite !length_app_s in Hf.
      cbn [append Json.scan_once Ascii.eqb Bool.eqb]. cbn iota.
      rewrite !app_assoc_s. rewrite skip_ws_newline_indent.
      cbn [well_formed] in Hw.
      assert (Hh : exists c t,
                 String.concat (Json.separator indent (S level))
                   (map (Json.encode indent (S level)) (x :: xs))
                 = String c t /\ Json.is_ws c = false
                 /\ ("]" =? c)%char = false).
      { cbn [map]. rewrite concat_cons.
        cbn [forallb] in Hw. apply andb_true_iff in Hw as [Hwx _].
        destruct (encode_head x indent (S level) Hwx) as (c & t & -> & H1 & H2).
        eexists; eexists. split; [reflexivity | auto]. }
      destruct Hh as (c & t & E & H1 & H2).
      pose proof (array_items_encode indent level (x :: xs) IH Hw
                    ltac:(discriminate) f rest) as HA.
      rewrite E in *. cbn [append] in *.
      repeat (progress (rewrite ?length_app_s in Hf; cbn [String.length] in Hf)).
      cbn [String.length] in HA.
      rewrite skip_ws_head by assumption.
      cbn [PyStr.has_prefix]. rewrite H2. cbn [andb].
      rewrite HA by lia. reflexivity.
  - destruct entries as [|[k v] es].
    + destruct fuel; [cbn in Hf; lia | reflexivity].
    + rewrite encode_dict_cons in *.
      destruct fuel as [|f]; [lia|].
      cbn [append String.length] in Hf. rewrite !length_app_s in Hf.
      cbn [append Json.scan_once Ascii.eqb Bool.eqb]. cbn iota.
      rewrite !app_assoc_s. rewrite skip_ws_newline_indent.
      cbn [well_formed] in Hw. apply andb_true_iff in Hw as [Hd Hw].
      assert (Hh : exists text,
                 String.concat (Json.separator indent (S level))
                   (map (encode_entry indent (S level)) ((k, v) :: es))
                 = String Json.quote text)
        by (cbn [map]; rewrite concat_cons, encode_entry_quote;
            eexists; reflexivity).
      destruct Hh as (text & E).
      pose proof (object_items_encode indent level ((k, v) :: es) IH Hw
                    f (String Json.quote
                         (text ++ Json.newline_indent indent level
                            ++ String "}" rest)) rest text E) as HO.
      rewrite E in *. cbn [append String.length] in *.
      repeat (progress (rewrite ?length_app_s in Hf; cbn [String.length] in Hf)).
      rewrite skip_ws_head by reflexivity.
      change (Json.quote =? "}")%char with false.
      change (Json.quote =? Json.quote)%char with true. cbn iota.
      rewrite HO by lia. cbn [Json.smap].
      now rewrite of_pairs_distinct.
Qed.

(** [json.loads(json.dumps(v))] and [json.loads(json.dumps(v, indent=n))]
    give [v] back. *)
Theorem loads_dumps indent v :
  well_formed v = true -> Json.loads (Json.dumps indent v) = Return v.
Proof.
  intros Hw. unfold Json.loads, Json.dumps.
  destruct (encode_head v indent 0 Hw) as (c & t & E & Hc & _).
  assert (Hskip : Json.skip_ws (Json.encode indent 0 v)
                  = Json.encode indent 0 v)
    by (rewrite E; now apply skip_ws_head).
  rewrite Hskip.
  rewrite <- (app_nil_r_s (Json.encode indent 0 v)) at 2.
  rewrite (scan_once_encode v Hw) by (auto; lia).
  reflexivity.
Qed.

(* ================================================================== *)
(** * The decoder never runs out of fuel *)
(* ================================================================== *)

Lemma skip_ws_length s : String.length (Json.skip_ws s) <= String.length s.
Proof.
  induction s as [|c s IH]; [constructor|].
  cbn [Json.skip_ws]. destruct (Json.is_ws c); cbn [String.length]; lia.
Qed.

Lemma skip_prefix_length p s :
  PyStr.has_prefix p s = true ->
  String.length (PyStr.skip (String.length p) s) + String.length p
  = String.length s.
Proof.
  intros H. apply has_prefix_inv in H as [a ->].
  rewrite skip_app, length_app_s. lia.
Qed.

Lemma smap_scanned {A B} (f : A -> B) (x : Json.scanned A) y r :
  Json.smap f x = Json.Scanned y r ->
  exists a, x = Json.Scanned a r /\ y = f a.
Proof. destruct x; try discriminate. intros [= <- <-]. eauto. Qed.

Lemma smap_too_deep {A B} (f : A -> B) (x : Json.scanned A) :
  Json.smap f x = Json.TooDeep -> x = Json.TooDeep.
Proof. destruct x; try discriminate. reflexivity. Qed.

Lemma scanstring_facts n : forall begin s,
  String.length s <= n ->
  Json.scanstring begin s <> Json.TooDeep /\
  forall x r, Json.scanstring begin s = Json.Scanned x r ->
              String.length r < String.length s.
Proof.
  induction n as [|n IH]; intros begin s Hn.
  - destruct s; [|cbn in Hn; lia]. cbn. split; [discriminate | discriminate].
  - destruct s as [|c s]; [cbn; split; discriminate|].
    cbn [String.length] in Hn.
    cbn [Json.scanstring].
    destruct (c =? Json.quote)%char.
    { split; [discriminate|]. intros x r [= <- <-]. cbn. lia. }
    destruct (c =? Json.backslash)%char.
    { destruct s as [|e s]; [split; discriminate|].
      destruct (e =? "u")%char.
      - destruct s as [|h1 [|h2 [|h3 [|h4 tail]]]]; try (split; discriminate).
        destruct (PyStr.is_empty tail); [split; discriminate|].
        destruct (Json.hex4 h1 h2 h3 h4) as [k|]; [|split; discriminate].
        destruct (k <? 256)%nat; [|split; discriminate].
        cbn [String.length] in *.
        destruct (IH begin tail ltac:(lia)) as [H1 H2].
        split.
        + intros H. now apply smap_too_deep in H.
        + intros x r H. apply smap_scanned in H as (y0 & H & _).
          specialize (H2 _ _ H). lia.
      - destruct (Json.unescape e); [|split; discriminate].
        cbn [String.length] in *.
        destruct (IH begin s ltac:(lia)) as [H1 H2].
        split.
        + intros H. now apply smap_too_deep in H.
        + intros x r H. apply smap_scanned in H as (y0 & H & _).
          specialize (H2 _ _ H). lia. }
    destruct (nat_of_ascii c <? 32)%nat; [split; discriminate|].
    destruct (IH begin s ltac:(lia)) as [H1 H2].
    split.
    + intros H. now apply smap_too_deep in H.
    + intros x r H. apply smap_scanned in H as (y0 & H & _).
      specialize (H2 _ _ H). cbn [String.length]. lia.
Qed.

Lemma scanstring_not_too_deep begin s :
  Json.scanstring begin s <> Json.TooDeep.
Proof. apply (scanstring_facts (String.length s)); constructor. Qed.

Lemma scanstring_consumes begin s x r :
  Json.scanstring begin s = Json.Scanned x r ->
  String.length r < String.length s.
Proof. apply (scanstring_facts (String.length s)); constructor. Qed.

Lemma span_digits_length s d r :
  Json.span_digits s = (d, r) -> String.length r <= String.length s.
Proof.
  revert d r. induction s as [|c s IH]; intros d r H.
  - injection H as <- <-. constructor.
  - cbn [Json.span_digits] in H. destruct (Json.is_digit c).
    + destruct (Json.span_digits s) as [d' r'] eqn:E. injection H as <- <-.
      specialize (IH _ _ eq_refl). cbn [String.length]. lia.
    + injection H as <- <-. constructor.
Qed.

Lemma match_integer_consumes s i r :
  Json.match_integer s = Some (i, r) -> String.length r < String.length s.
Proof.
  unfold Json.match_integer. intros H.
  assert (Hs : forall s1 sign,
             match s1 with
             | "" => None
             | String c s2 =>
                 if (c =? "0")%char then Some (sign ++ "0", s2)
                 else if Json.is_digit c
                      then let (d, r0) := Json.span_digits s2 in
                           Some (sign ++ String c d, r0)
                      else None
             end = Some (i, r) -> String.length r < String.length s1).
  { intros [|c s2] sign E; [discriminate|].
    destruct (c =? "0")%char; [injection E as _ <-; cbn; lia|].
    destruct (Json.is_digit c); [|discriminate].
    destruct (Json.span_digits s2) as [d r0] eqn:Ed. injection E as _ <-.
    apply span_digits_length in Ed. cbn [String.length]. lia. }
  destruct s as [|c s']; [discriminate|].
  destruct (c =? "-")%char.
  - apply Hs in H. cbn [String.length]. lia.
  - now apply (Hs (String c s') "") in H.
Qed.

Lemma match_frac_length s f r :
  Json.match_frac s = (f, r) -> String.length r <= String.length s.
Proof.
  unfold Json.match_frac. destruct s as [|c s]; [intros [= <- <-]; constructor|].
  destruct (c =? ".")%char; [|intros [= <- <-]; constructor].
  destruct (Json.span_digits s) as [d r0] eqn:E.
  apply span_digits_length in E.
  destruct d; intros [= <- <-]; cbn [String.length]; lia.
Qed.

Lemma match_exp_length s e r :
  Json.match_exp s = (e, r) -> String.length r <= String.length s.
Proof.
  unfold Json.match_exp. destruct s as [|c s]; [intros [= <- <-]; constructor|].
  destruct ((c =? "e") || (c =? "E"))%char; [|intros [= <- <-]; constructor].
  destruct s as [|c' s'].
  - cbn. intros [= <- <-]. constructor.
  - destruct ((c' =? "-") || (c' =? "+"))%char.
    + destruct (Json.span_digits s') as [d r0] eqn:E.
      apply span_digits_length in E.
      destruct d; intros [= <- <-]; cbn [String.length]; lia.
    + destruct (Json.span_digits (String c' s')) as [d r0] eqn:E.
      apply span_digits_length in E.
      destruct d; intros [= <- <-]; cbn [String.length] in *; lia.
Qed.

Lemma scan_number_consumes s v r :
  Json.scan_number s = Some (v, r) -> String.length r < String.length s.
Proof.
  unfold Json.scan_number.
  destruct (Json.match_integer s) as [[i r1]|] eqn:Ei; [|discriminate].
  destruct (Json.match_frac r1) as [f r2] eqn:Ef.
  destruct (Json.match_exp r2) as [e r3] eqn:Ee.
  apply match_integer_consumes in Ei.
  apply match_frac_length in Ef. apply match_exp_length in Ee.
  destruct (PyStr.is_empty f && PyStr.is_empty e).
  - destruct (NilZero.int_of_string i); [|discriminate].
    intros [= _ <-]. lia.
  - intros [= _ <-]. lia.
Qed.

Lemma skip_length n s : String.length (PyStr.skip n s) <= String.length s.
Proof.
  revert s. induction n as [|n IH]; intros [|c s]; cbn [PyStr.skip String.length];
    try lia.
  specialize (IH s). lia.
Qed.

Ltac literal_consumed H :=
  match type of H with
  | Json.Scanned _ (PyStr.skip ?n ?s) = Json.Scanned _ ?r =>
      let Hr := fresh "Hr" in
      assert (Hr : r = PyStr.skip n s) by congruence;
      rewrite Hr;
      match goal with
      | E : PyStr.has_prefix ?p s = true |- _ =>
          pose proof (skip_prefix_length p s E) as Hlit;
          cbn [String.length] in Hlit; lia
      end
  end.

(** Whatever is scanned takes at least one character. *)
Lemma scan_consumes fuel :
  (forall s v r, Json.scan_once fuel s = Json.Scanned v r ->
                 String.length r < String.length s) /\
  (forall s l r, Json.array_items fuel s = Json.Scanned l r ->
                 String.length r < String.length s) /\
  (forall b s l r, Json.object_items fuel b s = Json.Scanned l r ->
                   String.length r < String.length s).
Proof.
  induction fuel as [|f (IH1 & IH2 & IH3)];
    [repeat split; intros; discriminate|].
  repeat apply conj.
  - intros [|c s'] v r H; [discriminate|].
    cbn [Json.scan_once] in H. cbn [String.length].
    destruct (c =? Json.quote)%char.
    { apply smap_scanned in H as (x & H & _).
      apply scanstring_consumes in H. lia. }
    destruct (c =? "{")%char.
    { pose proof (skip_ws_length s') as Hw.
      destruct (Json.skip_ws s') as [|c1 r1]; [discriminate|].
      cbn [String.length] in Hw.
      destruct (c1 =? "}")%char; [injection H as _ <-; lia|].
      destruct (c1 =? Json.quote)%char; [|discriminate].
      apply smap_scanned in H as (x & H & _).
      apply IH3 in H. lia. }
    destruct (c =? "[")%char.
    { pose proof (skip_ws_length s') as Hw.
      destruct (PyStr.has_prefix "]" (Json.skip_ws s')) eqn:E.
      - literal_consumed H.
      - apply smap_scanned in H as (x & H & _). apply IH2 in H. lia. }
    destruct (PyStr.has_prefix "null" (String c s')) eqn:E1;
      [literal_consumed H|].
    destruct (PyStr.has_prefix "true" (String c s')) eqn:E2;
      [literal_consumed H|].
    destruct (PyStr.has_prefix "false" (String c s')) eqn:E3;
      [literal_consumed H|].
    destruct (Json.scan_number (String c s')) as [[v' r']|] eqn:En.
    { injection H as _ <-. apply scan_number_consumes in En.
      cbn [String.length] in En. lia. }
    destruct (PyStr.has_prefix "NaN" (String c s')) eqn:E4;
      [literal_consumed H|].
    destruct (PyStr.has_prefix "Infinity" (String c s')) eqn:E5;
      [literal_consumed H|].
    destruct (PyStr.has_prefix "-Infinity" (String c s')) eqn:E6;
      [literal_consumed H|].
    discriminate.
  - intros s l r H. cbn [Json.array_items] in H.
    destruct (Json.scan_once f s) as [v r0| | |] eqn:Ev; try discriminate.
    apply IH1 in Ev.
    pose proof (skip_ws_length r0) as Hw.
    destruct (Json.skip_ws r0) as [|c r2]; [discriminate|].
    cbn [String.length] in Hw.
    destruct (c =? "]")%char; [injection H as _ <-; lia|].
    destruct (c =? ",")%char; [|discriminate].
    apply smap_scanned in H as (x & H & _). apply IH2 in H.
    pose proof (skip_ws_length r2). lia.
  - intros b s l r H. cbn [Json.object_items] in H.
    destruct (Json.scanstring b s) as [key r0| | |] eqn:Ek; try discriminate.
    apply scanstring_consumes in Ek.
    pose proof (skip_ws_length r0) as Hw0.
    destruct (PyStr.has_prefix ":" (Json.skip_ws r0)); [|discriminate].
    pose proof (skip_length 1 (Json.skip_ws r0)) as Hs1.
    pose proof (skip_ws_length (PyStr.skip 1 (Json.skip_ws r0))) as Hw1.
    destruct (Json.scan_once f (Json.skip_ws (PyStr.skip 1 (Json.skip_ws r0))))
      as [v r4| | |] eqn:Ev; try discriminate.
    apply IH1 in Ev.
    pose proof (skip_ws_length r4) as Hw4.
    destruct (Json.skip_ws r4) as [|c r6]; [discriminate|].
    cbn [String.length] in Hw4.
    destruct (c =? "}")%char; [injection H as _ <-; lia|].
    destruct (c =? ",")%char; [|discriminate].
    pose proof (skip_ws_length r6) as Hw6.
    destruct (Json.skip_ws r6) as [|c7 r8]; [discriminate|].
    cbn [String.length] in Hw6.
    destruct (c7 =? Json.quote)%char; [|discriminate].
    apply smap_scanned in H as (x & H & _). apply IH3 in H. lia.
Qed.

(** With two units of fuel per character the scanner does not run
    out. *)
Lemma scan_has_fuel fuel :
  (forall s, 2 * String.length s + 1 <= fuel ->
             Json.scan_once fuel s <> Json.TooDeep) /\
  (forall s, 2 * String.length s + 2 <= fuel ->
             Json.array_items fuel s <> Json.TooDeep) /\
  (forall b s, 2 * String.length s + 2 <= fuel ->
               Json.object_items fuel b s <> Json.TooDeep).
Proof.
  induction fuel as [|f (IH1 & IH2 & IH3)];
    [repeat split; intros; lia|].
  destruct (scan_consumes f) as (C1 & C2 & C3).
  repeat apply conj.
  - intros [|c s'] Hf; [discriminate|].
    cbn [Json.scan_once]. cbn [String.length] in Hf.
    destruct (c =? Json.quote)%char.
    { intros H. apply smap_too_deep in H.
      now apply scanstring_not_too_deep in H. }
    destruct (c =? "{")%char.
    { pose proof (skip_ws_length s') as Hw.
      destruct (Json.skip_ws s') as [|c1 r1]; [discriminate|].
      cbn [String.length] in Hw.
      destruct (c1 =? "}")%char; [discriminate|].
      destruct (c1 =? Json.quote)%char; [|discriminate].
      intros H. apply smap_too_deep in H. revert H. apply IH3. lia. }
    destruct (c =? "[")%char.
    { pose proof (skip_ws_length s') as Hw.
      destruct (PyStr.has_prefix "]" (Json.skip_ws s')); [discriminate|].
      intros H. apply smap_too_deep in H. revert H. apply IH2. lia. }
    destruct (PyStr.has_prefix "null" (String c s')); [discriminate|].
    destruct (PyStr.has_prefix "true" (String c s')); [discriminate|].
    destruct (PyStr.has_prefix "false" (String c s')); [discriminate|].
    destruct (Json.scan_number (String c s')) as [[v' r']|]; [discriminate|].
    destruct (PyStr.has_prefix "NaN" (String c s')); [discriminate|].
    destruct (PyStr.has_prefix "Infinity" (String c s')); [discriminate|].
    destruct (PyStr.has_prefix "-Infinity" (String c s')); discriminate.
  - intros s Hf. cbn [Json.array_items].
    destruct (Json.scan_once f s) as [v r0| | |] eqn:Ev; try discriminate.
    + apply C1 in Ev.
      pose proof (skip_ws_length r0) as Hw.
      destruct (Json.skip_ws r0) as [|c r2]; [discriminate|].
      cbn [String.length] in Hw.
      destruct (c =? "]")%char; [discriminate|].
      destruct (c =? ",")%char; [|discriminate].
      intros H. apply smap_too_deep in H. revert H. apply IH2.
      pose proof (skip_ws_length r2). lia.
    + exfalso. revert Ev. apply IH1. lia.
  - intros b s Hf. cbn [Json.object_items].
    destruct (Json.scanstring b s) as [key r0| | |] eqn:Ek; try discriminate.
    + apply scanstring_consumes in Ek.
      pose proof (skip_ws_length r0) as Hw0.
      destruct (PyStr.has_prefix ":" (Json.skip_ws r0)); [|discriminate].
      pose proof (skip_length 1 (Json.skip_ws r0)) as Hs1.
      pose proof (skip_ws_length (PyStr.skip 1 (Json.skip_ws r0))) as Hw1.
      destruct (Json.scan_once f
                  (Json.skip_ws (PyStr.skip 1 (Json.skip_ws r0))))
        as [v r4| | |] eqn:Ev; try discriminate.
      * apply C1 in Ev.
        pose proof (skip_ws_length r4) as Hw4.
        destruct (Json.skip_ws r4) as [|c r6]; [discriminate|].
        cbn [String.length] in Hw4.
        destruct (c =? "}")%char; [discriminate|].
        destruct (c =? ",")%char; [|discriminate].
        pose proof (skip_ws_length r6) as Hw6.
        destruct (Json.skip_ws r6) as [|c7 r8]; [discriminate|].
        cbn [String.length] in Hw6.
        destruct (c7 =? Json.quote)%char; [|discriminate].
        intros H. apply smap_too_deep in H. revert H. apply IH3. lia.
      * exfalso. revert Ev. apply IH1. lia.
    + exfalso. now apply scanstring_not_too_deep in Ek.
Qed.

(** The fuel [Json.loads] gives the scanner is never used up, so the
    last case of [Json.loads] is not an effect of the fuel.  CPython's
    decoder does raise [RecursionError], on nesting near the
    interpreter's recursion limit; that bound is not modelled. *)
Lemma loads_fuel_suffices doc :
  Json.scan_once (2 * String.length doc + 2) (Json.skip_ws doc)
  <> Json.TooDeep.
Proof.
  pose proof (skip_ws_length doc) as Hw.
  destruct (scan_has_fuel (2 * String.length doc + 2)) as (H1 & _ & _).
  apply H1. lia.
Qed.

(* ================================================================== *)
(** * Dictionaries: lookup after update *)
(* ================================================================== *)

Lemma dict_get_set_same k v d : Dict.get k (Dict.set k v d) = Some v.
Proof.
  induction d as [|[k' v'] d IH]; simpl.
  - now rewrite String.eqb_refl.
  - destruct (String.eqb k k') eqn:E; simpl; rewrite E; auto.
Qed.

Lemma dict_get_set_other k k' v d :
  k <> k' -> Dict.get k (Dict.set k' v d) = Dict.get k d.
Proof.
  intros Hne. induction d as [|[k0 v0] d IH]; simpl.
  - destruct (String.eqb k k') eqn:E; auto.
    apply String.eqb_eq in E. contradiction.
  - destruct (String.eqb k' k0) eqn:E; simpl.
    + apply String.eqb_eq in E. subst k0.
      destruct (String.eqb k k') eqn:E'; auto.
      apply String.eqb_eq in E'. contradiction.
    + destruct (String.eqb k k0); auto.
Qed.

Lemma failure_metrics_success m e :
  Dict.get "success" (failure_metrics m e) = Some (PBool false).
Proof.
  unfold failure_metrics.
  rewrite dict_get_set_other by discriminate.
  apply dict_get_set_same.
Qed.

Lemma failure_metrics_parse_error m e :
  Dict.get "parse_error" (failure_metrics m e) = Some (PStr (exn_str e)).
Proof. unfold failure_metrics. apply dict_get_set_same. Qed.

(* ================================================================== *)
(** * The validator on a decoded object *)
(* ================================================================== *)

Section Validator.

Variable d : Dict.t.
Variable brief_text : string.
Hypothesis Hbrief : Dict.get "brief" d = Some (PStr brief_text).
Hypothesis Hwords : 10 <= word_count brief_text.

Lemma all_in_dict fields :
  all_in fields (PDict d)
  = Return (forallb (fun f => Dict.mem f d) fields).
Proof.
  induction fields as [|f fs IH]; simpl; auto.
  destruct (Dict.mem f d); simpl; auto.
Qed.

Lemma words_not_short : (word_count brief_text <? 10)%nat = false.
Proof. apply Nat.ltb_ge. exact Hwords. Qed.

(** With the brief in order, the verdict rests on the two lists,
    [angles] first. *)
Lemma validate_lists va vc :
  Dict.get "angles" d = Some va ->
  Dict.get "criteria" d = Some vc ->
  validate (PDict d)
  = if is_list_of_3 va
    then if is_list_of_3 vc
         then Return (PDict d)
         else Raise (ValueError "Must have exactly 3 selection criteria")
    else Raise (ValueError "Must have exactly 3 content angles").
Proof.
  intros Ha Hc. unfold validate.
  rewrite all_in_dict. cbn [forallb bind].
  unfold Dict.mem. rewrite Hbrief, Ha, Hc. cbn [andb].
  cbn [getitem]. rewrite Hbrief. cbn [bind].
  rewrite words_not_short. cbn [negb].
  rewrite Ha. cbn [bind].
  destruct (is_list_of_3 va); [|reflexivity].
  rewrite Hc. cbn [bind].
  destruct (is_list_of_3 vc); reflexivity.
Qed.

End Validator.

(** [parse_json_response] in terms of the decoded value. *)
Lemma parse_json_response_decoded text data :
  Json.loads (extract_json_text text) = Return data ->
  parse_json_response text
  = match validate data with
    | Return v => Return v
    | Raise e =>
        if is_ValueError e
        then Raise (ValueError ("Invalid JSON response: " ++ exn_str e))
        else Raise e
    end.
Proof.
  intros H. unfold parse_json_response, parse_json_response_body.
  rewrite H. reflexivity.
Qed.

(** What an accepted response looks like: nothing but a dict with a
    string under [brief] of ten words or more and lists of three under
    [angles] and [criteria] gets through. *)
Lemma validate_sound data v :
  validate data = Return v ->
  v = data /\
  exists d brief_text a c,
    data = PDict d /\
    Dict.get "brief" d = Some (PStr brief_text) /\
    10 <= word_count brief_text /\
    Dict.get "angles" d = Some (PList a) /\ List.length a = 3 /\
    Dict.get "criteria" d = Some (PList c) /\ List.length c = 3.
Proof.
  unfold validate. intros H.
  destruct (all_in ["brief"; "angles"; "criteria"] data) as [present|e] eqn:Hall;
    [|discriminate].
  cbn [bind] in H. destruct present; [|discriminate].
  destruct (getitem data "brief") as [b|e] eqn:Hb; [|discriminate].
  cbn [bind] in H. destruct b; try discriminate.
  destruct (word_count s <? 10)%nat eqn:Hw; [discriminate|].
  cbn [negb] in H.
  destruct (getitem data "angles") as [a|e] eqn:Ha; [|discriminate].
  cbn [bind] in H.
  destruct (is_list_of_3 a) eqn:Ha3; [|discriminate].
  destruct (getitem data "criteria") as [c|e] eqn:Hc; [|discriminate].
  cbn [bind] in H.
  destruct (is_list_of_3 c) eqn:Hc3; [|discriminate].
  injection H as <-. split; [reflexivity|].
  destruct data; try discriminate.
  cbn [getitem] in Hb, Ha, Hc.
  destruct (Dict.get "brief" entries) eqn:Gb; [|discriminate].
  destruct (Dict.get "angles" entries) eqn:Ga; [|discriminate].
  destruct (Dict.get "criteria" entries) eqn:Gc; [|discriminate].
  injection Hb as ->. injection Ha as ->. injection Hc as ->.
  destruct a; try discriminate. destruct c; try discriminate.
  cbn [is_list_of_3] in Ha3, Hc3.
  apply Nat.eqb_eq in Ha3. apply Nat.eqb_eq in Hc3.
  apply Nat.ltb_ge in Hw.
  exists entries, s, items, items0. repeat split; auto.
Qed.

Lemma parse_json_response_sound text v :
  parse_json_response text = Return v ->
  exists d brief_text a c,
    v = PDict d /\
    Dict.get "brief" d = Some (PStr brief_text) /\
    10 <= word_count brief_text /\
    Dict.get "angles" d = Some (PList a) /\ List.length a = 3 /\
    Dict.get "criteria" d = Some (PList c) /\ List.length c = 3.
Proof.
  unfold parse_json_response, parse_json_response_body. intros H.
  destruct (Json.loads (extract_json_text text)) as [data|e] eqn:Hl.
  - cbn [bind] in H.
    destruct (validate data) as [w|e] eqn:Hv.
    + injection H as <-.
      destruct (validate_sound _ _ Hv) as [-> (d & b & a & c & Hd & Hrest)].
      exists d, b, a, c. split; auto.
    + destruct (is_ValueError e); discriminate.
  - cbn [bind] in H. destruct (is_ValueError e); discriminate.
Qed.

(** The only exceptions of class [ValueError] that leave
    [parse_json_response] are the ones it builds itself. *)
Lemma parse_json_response_raises text e :
  parse_json_response text = Raise e ->
  is_ValueError e = true ->
  exists cause, e = ValueError ("Invalid JSON response: " ++ exn_str cause).
Proof.
  unfold parse_json_response. intros H Hv.
  destruct (parse_json_response_body text) as [v|e0]; [discriminate|].
  destruct (is_ValueError e0) eqn:E.
  - injection H as <-. now exists e0.
  - injection H as ->. congruence.
Qed.

(* ================================================================== *)
(** * The validator: cardinality, leniency, element types *)
(* ================================================================== *)

(** C6 (as amended).  A decoded object with the three fields and a brief
    of ten words or more, whose [angles] is not a list of three, is
    rejected with the message "Must have exactly 3 content angles"
    (behind the prefix of the [except] clause), whatever [criteria] is;
    when [angles] is a list of three and [criteria] is not, it is
    rejected with "Must have exactly 3 selection criteria". *)
Theorem parse_json_response_cardinality text d brief_text va vc :
  Json.loads (extract_json_text text) = Return (PDict d) ->
  Dict.get "brief" d = Some (PStr brief_text) ->
  10 <= word_count brief_text ->
  Dict.get "angles" d = Some va ->
  Dict.get "criteria" d = Some vc ->
  (is_list_of_3 va = false ->
   exists msg,
     parse_json_response text = Raise (ValueError msg) /\
     msg = "Invalid JSON response: Must have exactly 3 content angles" /\
     PyStr.contains "Must have exactly 3 content angles" msg = true) /\
  (is_list_of_3 va = true -> is_list_of_3 vc = false ->
   exists msg,
     parse_json_response text = Raise (ValueError msg) /\
     msg = "Invalid JSON response: Must have exactly 3 selection criteria" /\
     PyStr.contains "Must have exactly 3 selection criteria" msg = true).
Proof.
  intros Hl Hb Hw Ha Hc.
  rewrite (parse_json_response_decoded _ _ Hl).
  rewrite (validate_lists d brief_text Hb Hw va vc Ha Hc).
  split.
  - intros ->. eexists. split; [reflexivity|]. split; reflexivity.
  - intros -> ->. eexists. split; [reflexivity|]. split; reflexivity.
Qed.

Lemma parse_json_response_cardinality_witness :
  parse_json_response
    (Json.dumps None (Sample.payload Sample.ten_words Sample.two Sample.def))
  = Raise (ValueError
             "Invalid JSON response: Must have exactly 3 content angles").
Proof.
  destruct (parse_json_response_cardinality
              (Json.dumps None
                 (Sample.payload Sample.ten_words Sample.two Sample.def))
              [("brief", PStr Sample.ten_words); ("angles", Sample.two);
               ("criteria", Sample.def)]
              Sample.ten_words Sample.two Sample.def)
    as [Hangles _].
  - vm_compute. reflexivity.
  - reflexivity.
  - vm_compute. apply le_n.
  - reflexivity.
  - reflexivity.
  - destruct Hangles as (msg & Hraise & -> & _); [reflexivity|].
    exact Hraise.
Defined.

(** The mirrored statement for [criteria] fails as it stands: with both
    lists of the wrong length the message is the one about angles. *)
Lemma criteria_message_counterexample :
  let data := Sample.payload Sample.ten_words (PList []) (PList []) in
  let text := Json.dumps None data in
  Json.loads (extract_json_text text) = Return data /\
  getitem data "brief" = Return (PStr Sample.ten_words) /\
  10 <= word_count Sample.ten_words /\
  getitem data "angles" = Return (PList []) /\
  getitem data "criteria" = Return (PList []) /\
  is_list_of_3 (PList []) = false /\
  exists msg,
    parse_json_response text = Raise (ValueError msg) /\
    PyStr.contains "Must have exactly 3 selection criteria" msg = false.
Proof.
  cbv zeta. repeat split; try (vm_compute; reflexivity).
  eexists. split; vm_compute; reflexivity.
Qed.

(** C8.  A decoded object with the three fields, a brief of ten words
    or more and lists of three under [angles] and [criteria] is
    accepted whatever number [n] of sentences the brief has: the count
    is computed and never acted upon. *)
Theorem parse_json_response_sentence_leniency text d brief_text a c n :
  Json.loads (extract_json_text text) = Return (PDict d) ->
  Dict.get "brief" d = Some (PStr brief_text) ->
  10 <= word_count brief_text ->
  Dict.get "angles" d = Some (PList a) -> List.length a = 3 ->
  Dict.get "criteria" d = Some (PList c) -> List.length c = 3 ->
  sentence_count brief_text = n ->
  parse_json_response text = Return (PDict d).
Proof.
  intros Hl Hb Hw Ha Ha3 Hc Hc3 _.
  rewrite (parse_json_response_decoded _ _ Hl).
  rewrite (validate_lists d brief_text Hb Hw _ _ Ha Hc).
  cbn [is_list_of_3]. rewrite Ha3, Hc3. reflexivity.
Qed.

Lemma parse_json_response_sentence_leniency_witness :
  (sentence_count Sample.ten_dots = 0 /\
   parse_json_response
     (Json.dumps None (Sample.payload Sample.ten_dots Sample.abc Sample.def))
   = Return (Sample.payload Sample.ten_dots Sample.abc Sample.def)) /\
  (sentence_count Sample.ten_sentences = 10 /\
   parse_json_response
     (Json.dumps None
        (Sample.payload Sample.ten_sentences Sample.abc Sample.def))
   = Return (Sample.payload Sample.ten_sentences Sample.abc Sample.def)).
Proof.
  split; (split; [reflexivity|]).
  - apply (parse_json_response_sentence_leniency _ _ Sample.ten_dots
             [PStr "a"; PStr "b"; PStr "c"] [PStr "d"; PStr "e"; PStr "f"] 0);
      reflexivity.
  - apply (parse_json_response_sentence_leniency _ _ Sample.ten_sentences
             [PStr "a"; PStr "b"; PStr "c"] [PStr "d"; PStr "e"; PStr "f"] 10);
      reflexivity.
Defined.

(** C9.  The elements of the two lists are never looked at: any three
    values under [angles] and any three under [criteria] pass, and the
    accepted object still holds exactly these lists. *)
Theorem parse_json_response_ignores_element_types text d brief_text a c :
  Json.loads (extract_json_text text) = Return (PDict d) ->
  Dict.get "brief" d = Some (PStr brief_text) ->
  10 <= word_count brief_text ->
  Dict.get "angles" d = Some (PList a) -> List.length a = 3 ->
  Dict.get "criteria" d = Some (PList c) -> List.length c = 3 ->
  exists data,
    parse_json_response text = Return data /\
    getitem data "angles" = Return (PList a) /\
    getitem data "criteria" = Return (PList c).
Proof.
  intros Hl Hb Hw Ha Ha3 Hc Hc3.
  exists (PDict d). split.
  - rewrite (parse_json_response_decoded _ _ Hl).
    rewrite (validate_lists d brief_text Hb Hw _ _ Ha Hc).
    cbn [is_list_of_3]. rewrite Ha3, Hc3. reflexivity.
  - cbn [getitem]. rewrite Ha, Hc. split; reflexivity.
Qed.

Lemma parse_json_response_ignores_element_types_witness :
  exists data,
    parse_json_response
      (Json.dumps None
         (Sample.payload Sample.ten_words Sample.mixed Sample.mixed))
    = Return data /\
    getitem data "angles" = Return (PList [PInt 1; PNone; PBool true]) /\
    getitem data "criteria" = Return (PList [PInt 1; PNone; PBool true]).
Proof.
  apply (parse_json_response_ignores_element_types _
           [("brief", PStr Sample.ten_words); ("angles", Sample.mixed);
            ("criteria", Sample.mixed)] Sample.ten_words);
    reflexivity.
Defined.

(* ================================================================== *)
(** * Which exceptions leave [parse_json_response] *)
(* ================================================================== *)

(** The validator raises [ValueError] for a value it rejects and
    [TypeError] for one it cannot index: a JSON scalar, or a list or a
    string in which the three field names happen to occur. *)
Lemma validate_raises data e :
  validate data = Raise e ->
  (exists msg, e = ValueError msg) \/ (exists msg, e = TypeError msg).
Proof.
  unfold validate. intros H.
  destruct (all_in ["brief"; "angles"; "criteria"] data) as [present|e0] eqn:Ha.
  - cbn [bind] in H. destruct present; [|injection H as <-; eauto].
    destruct data as [|b|z|r|s|items|d]; try discriminate Ha.
    + cbn [getitem bind] in H. injection H as <-. eauto.
    + cbn [getitem bind] in H. injection H as <-. eauto.
    + rewrite all_in_dict in Ha. cbn [forallb] in Ha. injection Ha as Ha.
      apply andb_true_iff in Ha as [Hb Ha].
      apply andb_true_iff in Ha as [Ha Hc].
      apply andb_true_iff in Hc as [Hc _].
      unfold Dict.mem in Hb, Ha, Hc. cbn [getitem] in H.
      destruct (Dict.get "brief" d) as [vb|]; [|discriminate].
      destruct (Dict.get "angles" d) as [va|]; [|discriminate].
      destruct (Dict.get "criteria" d) as [vc|]; [|discriminate].
      cbn [bind] in H.
      destruct vb; try (injection H as <-; eauto).
      destruct (negb (word_count s <? 10)%nat); [|injection H as <-; eauto].
      cbn [bind] in H.
      destruct (is_list_of_3 va); [|injection H as <-; eauto].
      destruct (is_list_of_3 vc); [discriminate | injection H as <-; eauto].
  - cbn [bind] in H. injection H as <-.
    destruct data as [|b|z|r|s|items|d]; cbn in Ha;
      try (injection Ha as <-; eauto).
    + destruct (PyStr.contains "brief" s); [|discriminate].
      destruct (PyStr.contains "angles" s); [|discriminate].
      destruct (PyStr.contains "criteria" s); discriminate.
    + repeat match type of Ha with
             | context [if ?c then _ else _] => destruct c
             end; discriminate.
    + unfold Dict.mem in Ha.
      repeat match type of Ha with
             | context [match ?c with _ => _ end] => destruct c
             end; discriminate.
Qed.

(** [parse_json_response] on the malformed text of the unit test. *)
Lemma parse_json_response_invalid_structure :
  parse_json_response "{ invalid json structure"
  = Raise (ValueError
             "Invalid JSON response: Expecting property name enclosed in double quotes: line 1 column 3 (char 2)").
Proof. vm_compute. reflexivity. Qed.

(* ================================================================== *)
(** * Extraction on a text that is one JSON object *)
(* ================================================================== *)

Lemma rstrip_last s c :
  PyStr.isspace c = false ->
  PyStr.rstrip (s ++ String c "") = s ++ String c "".
Proof.
  intros Hc. induction s as [|a s IH].
  - cbn [append PyStr.rstrip]. now rewrite Hc.
  - cbn [append PyStr.rstrip]. rewrite IH.
    destruct s; reflexivity.
Qed.

Lemma has_prefix_refl s : PyStr.has_prefix s s = true.
Proof.
  induction s as [|c s IH]; [reflexivity|].
  cbn [PyStr.has_prefix]. now rewrite Ascii.eqb_refl, IH.
Qed.

Lemma last_occurrence_end c s :
  PyStr.last_occurrence (String c "") (s ++ String c "")
  = Some (String.length s).
Proof.
  induction s as [|a s IH].
  - cbn. now rewrite Ascii.eqb_refl.
  - cbn [append PyStr.last_occurrence String.length]. now rewrite IH.
Qed.

Lemma first_occurrence_end c s :
  exists i, PyStr.first_occurrence (String c "") (s ++ String c "") = Some i.
Proof.
  induction s as [|a s [i IH]].
  - exists 0. cbn. now rewrite Ascii.eqb_refl.
  - cbn [append]. unfold PyStr.first_occurrence; fold PyStr.first_occurrence.
    destruct (PyStr.has_prefix (String c "") (String a (s ++ String c ""))).
    + now exists 0.
    + rewrite IH. now exists (S i).
Qed.

Lemma substring_all s : substring 0 (String.length s) s = s.
Proof. induction s as [|a s IH]; [reflexivity|]. cbn. now rewrite IH. Qed.

Lemma slice_all s : PyStr.slice s 0 (Z.of_nat (String.length s)) = s.
Proof.
  unfold PyStr.slice, PyStr.slice_bound.
  set (len := Z.of_nat (String.length s)).
  assert (0 <= len)%Z by (unfold len; lia).
  change (0 <? 0)%Z with false. cbn iota.
  destruct (len <? 0)%Z eqn:E0; [lia|].
  destruct (len <? 0)%Z eqn:E1; [lia|].
  replace (if (len <? len)%Z then len else len) with len
    by (destruct (len <? len)%Z; reflexivity).
  rewrite ?Z.sub_0_r.
  unfold len. rewrite Nat2Z.id. apply substring_all.
Qed.

(** A text that opens with a brace, closes with a brace and holds no
    [```json] is handed to [json.loads] as it is. *)
Lemma extract_json_text_object body :
  PyStr.contains fence_json (String "{" (body ++ "}")) = false ->
  extract_json_text (String "{" (body ++ "}")) = String "{" (body ++ "}").
Proof.
  intros Hf. unfold extract_json_text.
  set (t := String "{" (body ++ "}")) in *.
  assert (Hs : PyStr.strip t = t).
  { unfold PyStr.strip. unfold t at 1. cbn [PyStr.lstrip].
    change (PyStr.isspace "{") with false. cbn iota.
    change (String "{" (body ++ "}")) with (String "{" body ++ "}").
    now apply rstrip_last. }
  rewrite Hs, Hf.
  assert (H1 : PyStr.contains "{" t = true) by reflexivity.
  assert (H2 : PyStr.contains "}" t = true).
  { unfold PyStr.contains, t.
    change (String "{" (body ++ "}")) with (String "{" body ++ "}").
    destruct (first_occurrence_end "}" (String "{" body)) as [i ->].
    reflexivity. }
  rewrite H1, H2. cbn [andb].
  assert (H3 : PyStr.find t "{" 0 = 0%Z) by reflexivity.
  assert (H4 : PyStr.rfind t "}" = Z.of_nat (String.length t - 1)).
  { unfold PyStr.rfind, t.
    change (String "{" (body ++ "}")) with (String "{" body ++ "}").
    rewrite last_occurrence_end, length_app_s. cbn [String.length].
    f_equal. lia. }
  rewrite H3, H4.
  assert (Hl : 1 <= String.length t) by (unfold t; cbn [String.length]; lia).
  replace (Z.of_nat (String.length t - 1) + 1)%Z
    with (Z.of_nat (String.length t)) by lia.
  apply slice_all.
Qed.

Lemma dumps_object e es :
  exists body, Json.dumps None (PDict (e :: es)) = String "{" (body ++ "}").
Proof.
  unfold Json.dumps. rewrite encode_dict_cons.
  cbn [Json.newline_indent append]. eexists. reflexivity.
Qed.

Lemma scalar_element_well_formed v :
  scalar_element v = true -> well_formed v = true.
Proof. destruct v; try reflexivity; discriminate. Qed.

(** C5 (as amended).  For an object with a string [brief] of ten words
    or more and, under each of [angles] and [criteria], three elements
    that are each [None], a boolean, a string or an integer of at most
    4300 digits, whose serialisation does not contain [```json],
    [parse_json_response(json.dumps(obj))] returns [obj]. *)
Theorem parse_json_response_round_trip b a1 a2 a3 c1 c2 c3 :
  let obj := PDict [ ("brief", PStr b)
                   ; ("angles", PList [a1; a2; a3])
                   ; ("criteria", PList [c1; c2; c3]) ] in
  10 <= word_count b ->
  forallb scalar_element [a1; a2; a3; c1; c2; c3] = true ->
  PyStr.contains fence_json (Json.dumps None obj) = false ->
  parse_json_response (Json.dumps None obj) = Return obj.
Proof.
  intros obj Hw Hwf Hf.
  assert (Hobj : well_formed obj = true).
  { cbn [forallb] in Hwf.
    repeat (apply andb_true_iff in Hwf as [? Hwf]).
    unfold obj. cbn [well_formed map fst snd forallb distinct existsb].
    repeat (apply andb_true_iff; split);
      auto using scalar_element_well_formed. }
  destruct (dumps_object ("brief", PStr b)
              [("angles", PList [a1; a2; a3]);
               ("criteria", PList [c1; c2; c3])]) as (body & E).
  fold obj in E.
  assert (Hl : Json.loads (extract_json_text (Json.dumps None obj))
               = Return obj).
  { rewrite E in *. rewrite extract_json_text_object by exact Hf.
    rewrite <- E. now apply loads_dumps. }
  rewrite (parse_json_response_decoded _ _ Hl).
  unfold obj.
  rewrite (validate_lists
             [ ("brief", PStr b); ("angles", PList [a1; a2; a3])
             ; ("criteria", PList [c1; c2; c3]) ]
             b eq_refl Hw (PList [a1; a2; a3]) (PList [c1; c2; c3])
             eq_refl eq_refl).
  reflexivity.
Qed.

Lemma parse_json_response_round_trip_witness :
  parse_json_response
    (Json.dumps None (Sample.payload Sample.ten_words Sample.abc Sample.mixed))
  = Return (Sample.payload Sample.ten_words Sample.abc Sample.mixed).
Proof.
  apply (parse_json_response_round_trip Sample.ten_words
           (PStr "a") (PStr "b") (PStr "c") (PInt 1) PNone (PBool true));
    vm_compute; reflexivity.
Defined.

(** The round trip fails on a brief that holds [```json]: the marker
    inside the serialised string is taken for a code fence. *)
Lemma fence_in_brief_breaks_round_trip :
  let obj := Sample.payload Sample.fenced_brief Sample.abc Sample.def in
  well_formed obj = true /\
  10 <= word_count Sample.fenced_brief /\
  Json.loads (Json.dumps None obj) = Return obj /\
  parse_json_response (Json.dumps None obj)
  = Raise (ValueError
             "Invalid JSON response: Expecting value: line 1 column 1 (char 0)").
Proof.
  cbv zeta. split; [reflexivity|]. split; [vm_compute; lia|].
  split; vm_compute; reflexivity.
Qed.

(* ================================================================== *)
(** * What [extract_json_text] hands to the decoder *)
(* ================================================================== *)

Lemma find_first_split t sub before after :
  first_split sub t before after ->
  PyStr.find t sub 0 = Z.of_nat (String.length before).
Proof.
  intros H. unfold PyStr.find. cbn [Nat.ltb Nat.leb PyStr.skip].
  replace (PyStr.skip 0 t) with t by (now destruct t).
  now rewrite (first_occurrence_first_split _ _ _ _ H).
Qed.

Lemma contains_first_split t sub before after :
  first_split sub t before after -> PyStr.contains sub t = true.
Proof.
  intros H. unfold PyStr.contains.
  now rewrite (first_occurrence_first_split _ _ _ _ H).
Qed.

Lemma extract_fenced text pre rest interior post :
  first_split fence_json (PyStr.strip text) pre rest ->
  first_split fence rest interior post ->
  extract_json_text text = PyStr.strip interior.
Proof.
  intros H1 H2. unfold extract_json_text.
  set (t := PyStr.strip text) in *.
  rewrite (contains_first_split _ _ _ _ H1), (find_first_split _ _ _ _ H1).
  destruct H1 as [Et _]. pose proof H2 as [Er _].
  set (n := String.length pre).
  replace (Z.of_nat n + 7)%Z with (Z.of_nat (n + 7)) by lia.
  rewrite Nat2Z.id.
  assert (Ea : String.length (pre ++ fence_json) = n + 7)
    by (rewrite length_app_s; reflexivity).
  assert (Et' : t = (pre ++ fence_json) ++ rest)
    by (now rewrite app_assoc_s).
  assert (Hf : PyStr.find t fence (n + 7)
               = Z.of_nat (n + 7 + String.length interior)).
  { unfold PyStr.find.
    assert (El : String.length t = n + 7 + String.length rest)
      by (rewrite Et', length_app_s, Ea; reflexivity).
    destruct (String.length t <? n + 7)%nat eqn:E;
      [apply Nat.ltb_lt in E; lia|].
    rewrite Et' at 1. rewrite <- Ea, skip_app.
    now rewrite (first_occurrence_first_split _ _ _ _ H2), Ea. }
  rewrite Hf. f_equal.
  assert (El : String.length t
               = n + 7 + String.length interior
                 + String.length (fence ++ post)).
  { rewrite Et', Er, length_app_s, Ea, !length_app_s. lia. }
  rewrite slice_offsets by lia.
  replace (n + 7 + String.length interior - (n + 7))
    with (String.length interior) by lia.
  rewrite Et', Er, <- Ea. apply substring_app.
Qed.

Lemma extract_braces text pre mid post :
  PyStr.contains fence_json (PyStr.strip text) = false ->
  PyStr.strip text = pre ++ "{" ++ mid ++ "}" ++ post ->
  PyStr.contains "{" pre = false ->
  PyStr.contains "}" post = false ->
  extract_json_text text = "{" ++ mid ++ "}".
Proof.
  intros Hf Et Hpre Hpost. unfold extract_json_text.
  set (t := PyStr.strip text) in *. rewrite Hf.
  assert (H1 : PyStr.contains "{" t = true)
    by (rewrite Et; apply contains_char_app).
  assert (Et' : t = (pre ++ "{" ++ mid) ++ String "}" post)
    by (rewrite Et, !app_assoc_s; reflexivity).
  assert (H2 : PyStr.contains "}" t = true)
    by (rewrite Et'; apply contains_char_app).
  rewrite H1, H2. cbn [andb].
  assert (H3 : PyStr.find t "{" 0 = Z.of_nat (String.length pre)).
  { unfold PyStr.find. cbn [Nat.ltb Nat.leb].
    replace (PyStr.skip 0 t) with t by (now destruct t).
    rewrite Et. cbn [append].
    now rewrite (first_occurrence_char "{" pre _ Hpre). }
  assert (H4 : PyStr.rfind t "}"
               = Z.of_nat (String.length pre + 1 + String.length mid)).
  { unfold PyStr.rfind. rewrite Et'.
    rewrite (last_occurrence_char "}" _ _ Hpost).
    rewrite !length_app_s. cbn [String.length]. f_equal. lia. }
  rewrite H3, H4.
  replace (Z.of_nat (String.length pre + 1 + String.length mid) + 1)%Z
    with (Z.of_nat (String.length pre + String.length ("{" ++ mid ++ "}")))
    by (cbn [append String.length]; rewrite length_app_s;
        cbn [String.length]; lia).
  assert (El : String.length t
               = String.length pre + String.length ("{" ++ mid ++ "}")
                 + String.length post).
  { rewrite Et. cbn [append String.length].
    rewrite !length_app_s. cbn [String.length].
    rewrite !length_app_s. cbn [String.length]. lia. }
  rewrite slice_offsets by lia.
  replace (String.length pre + String.length ("{" ++ mid ++ "}")
           - String.length pre)
    with (String.length ("{" ++ mid ++ "}")) by lia.
  replace t with (pre ++ ("{" ++ mid ++ "}") ++ post)
    by (rewrite Et; cbn [append]; now rewrite !app_assoc_s).
  apply substring_app.
Qed.

Lemma extract_crossed_braces text pre post :
  PyStr.contains fence_json (PyStr.strip text) = false ->
  PyStr.strip text = pre ++ "{" ++ post ->
  PyStr.contains "{" pre = false ->
  PyStr.contains "}" pre = true ->
  PyStr.contains "}" post = false ->
  extract_json_text text = "".
Proof.
  intros Hf Et Hpre Hin Hpost. unfold extract_json_text.
  set (t := PyStr.strip text) in *. rewrite Hf.
  assert (H1 : PyStr.contains "{" t = true)
    by (rewrite Et; apply contains_char_app).
  assert (H2 : PyStr.contains "}" t = true)
    by (rewrite Et; now apply contains_char_app_l).
  rewrite H1, H2. cbn [andb].
  assert (H3 : PyStr.find t "{" 0 = Z.of_nat (String.length pre)).
  { unfold PyStr.find. cbn [Nat.ltb Nat.leb].
    replace (PyStr.skip 0 t) with t by (now destruct t).
    rewrite Et. cbn [append].
    now rewrite (first_occurrence_char "{" pre _ Hpre). }
  destruct (contains_true_last "}" pre Hin) as [j Hj].
  pose proof (last_occurrence_bound _ _ _ Hj) as Hb.
  assert (H4 : PyStr.rfind t "}" = Z.of_nat j).
  { unfold PyStr.rfind. rewrite Et.
    rewrite last_occurrence_app_absent, Hj; [reflexivity|].
    cbn [append]. unfold PyStr.contains.
    rewrite first_occurrence_unfold. cbn [PyStr.has_prefix Ascii.eqb Bool.eqb andb].
    unfold PyStr.contains in Hpost.
    destruct (PyStr.first_occurrence "}" post); [discriminate | reflexivity]. }
  rewrite H3, H4.
  replace (Z.of_nat j + 1)%Z with (Z.of_nat (j + 1)) by lia.
  assert (El : String.length t = String.length pre + 1 + String.length post)
    by (rewrite Et, length_app_s; cbn [append String.length]; lia).
  rewrite slice_offsets by lia.
  replace (j + 1 - String.length pre) with 0 by lia.
  apply substring_nothing.
Qed.

Lemma extract_plain text :
  PyStr.contains fence_json (PyStr.strip text) = false ->
  PyStr.contains "{" (PyStr.strip text)
  && PyStr.contains "}" (PyStr.strip text) = false ->
  extract_json_text text = PyStr.strip text.
Proof. intros H1 H2. unfold extract_json_text. now rewrite H1, H2. Qed.

(** C4 (as amended).  With [t] the trimmed input, the text handed to
    [json.loads] is:
    - the trimmed text between the first [```json] and the next [```],
      when [t] has both;
    - else, without any [```json], the characters from the first opening
      brace to the last closing brace when the former comes first, and
      the empty text when the latter comes first;
    - else, without any [```json] and without both braces, [t] itself.
    A failure of the decoder on that text that is of class
    [ValueError], as [JSONDecodeError] is, leaves
    [parse_json_response] as a [ValueError] whose message is
    "Invalid JSON response: " followed by the decoder's message.  An
    exception of any other class raised in the [try] block, as the
    [RecursionError] of a nesting too deep for the interpreter, is not
    caught and leaves [parse_json_response] as it is.  A decoded value
    goes on to the validator. *)
Theorem parse_json_response_extraction text :
  let t := PyStr.strip text in
  (forall pre rest interior post,
      first_split fence_json t pre rest ->
      first_split fence rest interior post ->
      extract_json_text text = PyStr.strip interior) /\
  (PyStr.contains fence_json t = false ->
   forall pre mid post,
     t = pre ++ "{" ++ mid ++ "}" ++ post ->
     PyStr.contains "{" pre = false ->
     PyStr.contains "}" post = false ->
     extract_json_text text = "{" ++ mid ++ "}") /\
  (PyStr.contains fence_json t = false ->
   forall pre post,
     t = pre ++ "{" ++ post ->
     PyStr.contains "{" pre = false ->
     PyStr.contains "}" pre = true ->
     PyStr.contains "}" post = false ->
     extract_json_text text = "") /\
  (PyStr.contains fence_json t = false ->
   PyStr.contains "{" t && PyStr.contains "}" t = false ->
   extract_json_text text = t) /\
  (forall e,
      Json.loads (extract_json_text text) = Raise e ->
      is_ValueError e = true ->
      parse_json_response text
      = Raise (ValueError ("Invalid JSON response: " ++ exn_str e))) /\
  (forall e,
      parse_json_response_body text = Raise e ->
      is_ValueError e = false ->
      parse_json_response text = Raise e) /\
  (forall data,
      Json.loads (extract_json_text text) = Return data ->
      parse_json_response_body text = validate data).
Proof.
  intros t. repeat apply conj.
  - intros pre rest interior post. apply extract_fenced.
  - intros Hf pre mid post. now apply extract_braces.
  - intros Hf pre post. now apply extract_crossed_braces.
  - apply extract_plain.
  - intros e H Hv. unfold parse_json_response, parse_json_response_body.
    rewrite H. cbn [bind]. rewrite Hv. reflexivity.
  - intros e H Hv. unfold parse_json_response. rewrite H, Hv. reflexivity.
  - intros data H. unfold parse_json_response_body. rewrite H. reflexivity.
Qed.

Lemma parse_json_response_extraction_witness :
  extract_json_text Sample.fenced_form_feed
  = Json.dumps None
      (Sample.payload Sample.ten_words Sample.abc Sample.def) /\
  extract_json_text "Sure! {a} and {b} done." = "{a} and {b}" /\
  parse_json_response "{ invalid json structure"
  = Raise (ValueError
             "Invalid JSON response: Expecting property name enclosed in double quotes: line 1 column 3 (char 2)") /\
  parse_json_response "null"
  = Raise (TypeError "argument of type 'NoneType' is not iterable").
Proof.
  split; [|split; [|split]].
  - destruct (parse_json_response_extraction Sample.fenced_form_feed)
      as [Hfenced _].
    rewrite (Hfenced ""
               (String "012"
                  (Json.dumps None
                     (Sample.payload Sample.ten_words Sample.abc Sample.def))
                  ++ "```")
               (String "012"
                  (Json.dumps None
                     (Sample.payload Sample.ten_words Sample.abc Sample.def)))
               "").
    + vm_compute. reflexivity.
    + apply cut_first_split. vm_compute. reflexivity.
    + apply cut_first_split. vm_compute. reflexivity.
  - destruct (parse_json_response_extraction "Sure! {a} and {b} done.")
      as (_ & Hbraces & _).
    apply (Hbraces eq_refl "Sure! " "a} and {b" " done."); reflexivity.
  - destruct (parse_json_response_extraction "{ invalid json structure")
      as (_ & _ & _ & _ & Hcaught & _).
    exact (Hcaught
             (JSONDecodeError
                "Expecting property name enclosed in double quotes" 1 3 2)
             eq_refl eq_refl).
  - destruct (parse_json_response_extraction "null")
      as (_ & _ & _ & _ & _ & Hpassed & _).
    exact (Hpassed (TypeError "argument of type 'NoneType' is not iterable")
             eq_refl eq_refl).
Defined.

(** The steps as worded hand the decoder the interior of the fenced
    block as it stands; here it starts with a form feed, which the
    decoder rejects, while [parse_json_response] trims the interior and
    accepts the object. *)
Lemma untrimmed_interior_counterexample :
  normalize_as_worded Sample.fenced_form_feed
  = String "012"
      (Json.dumps None
         (Sample.payload Sample.ten_words Sample.abc Sample.def)) /\
  Json.loads (normalize_as_worded Sample.fenced_form_feed)
  = Raise (JSONDecodeError "Expecting value" 1 1 0) /\
  extract_json_text Sample.fenced_form_feed
  = Json.dumps None
      (Sample.payload Sample.ten_words Sample.abc Sample.def) /\
  parse_json_response Sample.fenced_form_feed
  = Return (Sample.payload Sample.ten_words Sample.abc Sample.def).
Proof. repeat split; vm_compute; reflexivity. Qed.

(** An opening fence without a closing one: [find] answers [-1], the
    slice stops one character short of the end, and the object loses
    its closing brace. *)
Lemma unclosed_fence_loses_last_character :
  let doc :=
    Json.dumps None (Sample.payload Sample.ten_words Sample.abc Sample.def) in
  PyStr.find Sample.unclosed_fence fence 7 = (-1)%Z /\
  extract_json_text Sample.unclosed_fence
  = substring 0 (String.length doc - 1) doc /\
  parse_json_response Sample.unclosed_fence
  = Raise (ValueError
             "Invalid JSON response: Expecting ',' delimiter: line 1 column 117 (char 116)").
Proof. cbv zeta. repeat split; vm_compute; reflexivity. Qed.

(* ================================================================== *)
(** * The orchestrator *)
(* ================================================================== *)

Section Orchestrator.

Variable env : Env.
Variables brand platform goal tone : string.
Variable api_token : option string.
Variable sent : list request.

Let provider := resolve_provider env.
Let system_prompt := build_system_prompt.
Let user_prompt := build_user_prompt brand platform goal tone.
Let out := generate_campaign_brief env brand platform goal tone api_token sent.

Lemma real_provider_unfold :
  provider <> "test" ->
  out = match call_provider env provider system_prompt user_prompt
                api_token sent with
        | (Raise e, sent') => (Raise e, sent')
        | (Return (response_text, m), sent') =>
            match (brief_data <- parse_json_response response_text ;;
                   success_result brief_data m) with
            | Return r => (Return r, sent')
            | Raise e =>
                if is_ValueError e
                then (Return (degraded_result brand e m response_text),
                      sent')
                else (Raise e, sent')
            end
        end.
Proof.
  intros Hp. unfold out, generate_campaign_brief.
  fold provider. apply String.eqb_neq in Hp. rewrite Hp. reflexivity.
Qed.

Lemma adapter_exception_propagates e sent' :
  provider <> "test" ->
  call_provider env provider system_prompt user_prompt api_token sent
  = (Raise e, sent') ->
  out = (Raise e, sent').
Proof.
  intros Hp Hc. rewrite (real_provider_unfold Hp), Hc. reflexivity.
Qed.

Lemma value_error_is_absorbed text m sent' e :
  provider <> "test" ->
  call_provider env provider system_prompt user_prompt api_token sent
  = (Return (text, m), sent') ->
  parse_json_response text = Raise e ->
  is_ValueError e = true ->
  out = (Return (degraded_result brand e m text), sent').
Proof.
  intros Hp Hc Hr Hv.
  rewrite (real_provider_unfold Hp), Hc, Hr. cbn [bind].
  rewrite Hv. reflexivity.
Qed.

Lemma accepted_response_is_returned text m sent' data :
  provider <> "test" ->
  call_provider env provider system_prompt user_prompt api_token sent
  = (Return (text, m), sent') ->
  parse_json_response text = Return data ->
  exists b a c,
    getitem data "brief" = Return b /\
    getitem data "angles" = Return (PList a) /\ List.length a = 3 /\
    getitem data "criteria" = Return (PList c) /\ List.length c = 3 /\
    out = (Return {| brief := b; angles := PList a; criteria := PList c;
                     metrics := Dict.set "success" (PBool true) m;
                     raw_response := None |}, sent').
Proof.
  intros Hp Hc Hr.
  destruct (parse_json_response_sound _ _ Hr)
    as (d & bt & a & c & -> & Hb & _ & Ha & Ha3 & Hcr & Hc3).
  exists (PStr bt), a, c.
  rewrite (real_provider_unfold Hp), Hc, Hr.
  unfold success_result. cbn [bind getitem]. rewrite Hb, Ha, Hcr.
  cbn [bind]. repeat split; auto.
Qed.

Lemma test_provider_unfold :
  provider = "test" ->
  out = let (response_text, m) :=
          call_test_api env brand platform goal tone in
        match (brief_data <- Json.loads response_text ;;
               success_result brief_data m) with
        | Return r => (Return r, sent)
        | Raise e => (Return (test_error_result brand e m), sent)
        end.
Proof.
  intros Hp. unfold out, generate_campaign_brief.
  fold provider. rewrite Hp. reflexivity.
Qed.

Lemma call_openai_api_without_credential sp up sent0 :
  truthy api_token = false ->
  truthy (AI_PROVIDER_API_KEY (settings env)) = false ->
  call_openai_api env sp up api_token sent0
  = (Raise (ValueError "OpenAI API key not configured"), sent0).
Proof.
  intros Ht Hk. unfold call_openai_api, py_or. rewrite Ht.
  destruct (AI_PROVIDER_API_KEY (settings env)) as [key|]; [|reflexivity].
  cbn [truthy] in Hk. apply negb_false_iff in Hk. rewrite Hk. reflexivity.
Qed.

(** C7.  With the hosted provider selected and neither a per-call
    token nor a configured key, [call_openai_api] raises
    [ValueError("OpenAI API key not configured")] and the list of
    requests sent is what it was, so nothing went to the network; and
    [generate_campaign_brief] raises that same exception instead of
    returning a result. *)
Theorem missing_credential_propagates :
  provider = "openai" ->
  truthy api_token = false ->
  truthy (AI_PROVIDER_API_KEY (settings env)) = false ->
  (forall sp up,
      call_openai_api env sp up api_token sent
      = (Raise (ValueError "OpenAI API key not configured"), sent)) /\
  out = (Raise (ValueError "OpenAI API key not configured"), sent).
Proof.
  intros Hp Ht Hk. split.
  - intros sp up. now apply call_openai_api_without_credential.
  - apply adapter_exception_propagates.
    + rewrite Hp. discriminate.
    + unfold call_provider. rewrite Hp. cbn [String.eqb Ascii.eqb Bool.eqb].
      now apply call_openai_api_without_credential.
Qed.

(** C3.  When the adapter of a real provider returned [text] and
    [parse_json_response] raised [ValueError(msg)] on it, the result
    is the degraded envelope: the brief quotes [msg], both lists are
    the fixed three diagnostic strings, [metrics.success] is [False],
    [metrics.parse_error] is [msg], the adapter's own metrics are
    kept, and [raw_response] is [text] untouched. *)
Theorem degraded_envelope_on_invalid_response text m sent' msg :
  provider <> "test" ->
  call_provider env provider system_prompt user_prompt api_token sent
  = (Return (text, m), sent') ->
  parse_json_response text = Raise (ValueError msg) ->
  exists r,
    out = (Return r, sent') /\
    brief r = PStr ("Error generating brief for " ++ brand ++ ": " ++ msg) /\
    angles r = PList [ PStr "Error in generation"; PStr "Please try again"
                     ; PStr "Check configuration" ] /\
    criteria r = PList [ PStr "Model response invalid"
                       ; PStr "JSON parsing failed"
                       ; PStr "Contact support" ] /\
    Dict.get "success" (metrics r) = Some (PBool false) /\
    Dict.get "parse_error" (metrics r) = Some (PStr msg) /\
    (forall k, k <> "success" -> k <> "parse_error" ->
               Dict.get k (metrics r) = Dict.get k m) /\
    raw_response r = Some text.
Proof.
  intros Hp Hc Hr.
  exists (degraded_result brand (ValueError msg) m text).
  split; [now apply value_error_is_absorbed|].
  cbn [degraded_result brief angles criteria metrics raw_response exn_str].
  repeat split.
  - apply failure_metrics_success.
  - apply (failure_metrics_parse_error m (ValueError msg)).
  - intros k H1 H2. unfold failure_metrics.
    rewrite !dict_get_set_other by assumption. reflexivity.
Qed.

End Orchestrator.

Lemma missing_credential_propagates_witness :
  generate_campaign_brief
    (Sample.env_of "openai" (Some "") false Sample.unreachable)
    "Acme" "TikTok" "Conversions" "Playful" None []
  = (Raise (ValueError "OpenAI API key not configured"), []).
Proof.
  apply (missing_credential_propagates
           (Sample.env_of "openai" (Some "") false Sample.unreachable)
           "Acme" "TikTok" "Conversions" "Playful" None []);
    reflexivity.
Defined.

Lemma degraded_envelope_on_invalid_response_witness :
  exists r,
    fst (generate_campaign_brief
           (Sample.env_of "ollama" None false
              (Sample.replying "I cannot help with that."))
           "Acme" "TikTok" "Conversions" "Playful" None [])
    = Return r /\
    Dict.get "success" (metrics r) = Some (PBool false) /\
    raw_response r = Some "I cannot help with that.".
Proof.
  destruct (degraded_envelope_on_invalid_response
              (Sample.env_of "ollama" None false
                 (Sample.replying "I cannot help with that."))
              "Acme" "TikTok" "Conversions" "Playful" None []
              "I cannot help with that."
              [ ("provider", PStr "ollama"); ("model", PStr "llama3.2")
              ; ("latency_seconds", PFloat "0.01"); ("tokens_used", PInt 12)
              ; ("total_tokens", PInt 12); ("cost_estimate", PFloat "0.0") ]
              [OllamaPost "http://localhost:11434/api/generate" "llama3.2"
                 (build_system_prompt ++ nl ++ nl
                    ++ build_user_prompt "Acme" "TikTok" "Conversions"
                         "Playful")]
              "Invalid JSON response: Expecting value: line 1 column 1 (char 0)")
    as (r & Hout & _ & _ & _ & Hs & _ & _ & Hraw).
  - vm_compute. discriminate.
  - vm_compute. reflexivity.
  - vm_compute. reflexivity.
  - exists r. rewrite Hout. repeat split; assumption.
Defined.

(** ** Which failures are captured and which are raised *)

Lemma call_ollama_api_transport_failure env prompt sent msg :
  let req := OllamaPost (OLLAMA_BASE_URL (settings env) ++ "/api/generate")
               (OLLAMA_MODEL (settings env)) prompt in
  http_post env req = HttpError msg ->
  call_ollama_api env prompt sent
  = (Raise (Exception ("Ollama API error: " ++ msg)), (sent ++ [req])%list).
Proof. intros req H. unfold call_ollama_api. fold req. rewrite H. reflexivity. Qed.

Lemma call_openai_api_transport_failure env sp up api_token sent key msg :
  let req := OpenAIInvoke (openai_model env) key sp up in
  py_or api_token (AI_PROVIDER_API_KEY (settings env)) = Some key ->
  key <> "" ->
  chat_invoke env req = ChatError msg ->
  call_openai_api env sp up api_token sent
  = (Raise (Exception ("OpenAI LangChain call failed: " ++ msg)),
     (sent ++ [req])%list).
Proof.
  intros req Hk Hne H. unfold call_openai_api. rewrite Hk.
  destruct key; [contradiction|]. cbn [PyStr.is_empty].
  fold req. rewrite H. reflexivity.
Qed.

(** C1 (as amended).  What [generate_campaign_brief] does with each
    failure:
    - on the test-provider path it always returns a result;
    - a transport failure of the local adapter leaves it as
      [Exception("Ollama API error: ...")], one of the hosted adapter as
      [Exception("OpenAI LangChain call failed: ...")], and an unknown
      provider as [ValueError("Unsupported AI provider: ...")]: whatever
      the adapter raises is raised outward, not captured;
    - when the adapter returned text and [parse_json_response] raised an
      exception of class [ValueError] on it, the failure is captured:
      the result has [metrics.success == False] and a non-empty brief
      that quotes the error;
    - when the adapter returned text and [parse_json_response] accepted
      it, the result has [metrics.success == True]. *)
Theorem generate_campaign_brief_failure_modes
  env brand platform goal tone api_token sent :
  let provider := resolve_provider env in
  let system_prompt := build_system_prompt in
  let user_prompt := build_user_prompt brand platform goal tone in
  let out :=
    generate_campaign_brief env brand platform goal tone api_token sent in
  (provider = "test" -> exists r, out = (Return r, sent)) /\
  (provider <> "test" ->
   forall e sent',
     call_provider env provider system_prompt user_prompt api_token sent
     = (Raise e, sent') ->
     out = (Raise e, sent')) /\
  (provider = "ollama" ->
   forall msg,
     let req := OllamaPost (OLLAMA_BASE_URL (settings env) ++ "/api/generate")
                  (OLLAMA_MODEL (settings env))
                  (system_prompt ++ nl ++ nl ++ user_prompt) in
     http_post env req = HttpError msg ->
     out = (Raise (Exception ("Ollama API error: " ++ msg)),
            (sent ++ [req])%list)) /\
  (provider = "openai" ->
   forall key msg,
     let req := OpenAIInvoke (openai_model env) key system_prompt user_prompt in
     py_or api_token (AI_PROVIDER_API_KEY (settings env)) = Some key ->
     key <> "" ->
     chat_invoke env req = ChatError msg ->
     out = (Raise (Exception ("OpenAI LangChain call failed: " ++ msg)),
            (sent ++ [req])%list)) /\
  (provider <> "test" -> provider <> "ollama" -> provider <> "openai" ->
   out = (Raise (ValueError ("Unsupported AI provider: " ++ provider)), sent)) /\
  (provider <> "test" ->
   forall text m sent',
     call_provider env provider system_prompt user_prompt api_token sent
     = (Return (text, m), sent') ->
     (forall e,
         parse_json_response text = Raise e -> is_ValueError e = true ->
         exists r b,
           out = (Return r, sent') /\
           Dict.get "success" (metrics r) = Some (PBool false) /\
           Dict.get "parse_error" (metrics r) = Some (PStr (exn_str e)) /\
           brief r = PStr b /\ b <> "" /\
           b = "Error generating brief for " ++ brand ++ ": " ++ exn_str e) /\
     (forall data,
         parse_json_response text = Return data ->
         exists r,
           out = (Return r, sent') /\
           Dict.get "success" (metrics r) = Some (PBool true))).
Proof.
  intros provider system_prompt user_prompt out.
  repeat apply conj.
  - intros Hp. unfold out.
    rewrite (test_provider_unfold env brand platform goal tone api_token sent Hp).
    destruct (call_test_api env brand platform goal tone) as [text m].
    destruct (brief_data <- Json.loads text ;; success_result brief_data m);
      eexists; reflexivity.
  - intros Hp e sent' Hc. now apply adapter_exception_propagates.
  - intros Hp msg req H.
    apply adapter_exception_propagates.
    + fold provider. rewrite Hp. discriminate.
    + fold provider. unfold call_provider. rewrite Hp.
      cbn [String.eqb Ascii.eqb Bool.eqb].
      now apply call_ollama_api_transport_failure.
  - intros Hp key msg req Hk Hne H.
    apply adapter_exception_propagates.
    + fold provider. rewrite Hp. discriminate.
    + fold provider. unfold call_provider. rewrite Hp.
      cbn [String.eqb Ascii.eqb Bool.eqb].
      now apply call_openai_api_transport_failure.
  - intros Ht Ho Ha.
    apply adapter_exception_propagates; [exact Ht|].
    fold provider. unfold call_provider.
    apply String.eqb_neq in Ho, Ha. rewrite Ho, Ha. reflexivity.
  - intros Hp text m sent' Hc. split.
    + intros e Hr Hv.
      exists (degraded_result brand e m text),
        ("Error generating brief for " ++ brand ++ ": " ++ exn_str e).
      split; [now apply value_error_is_absorbed|].
      cbn [degraded_result brief metrics].
      repeat split.
      * apply failure_metrics_success.
      * apply failure_metrics_parse_error.
      * discriminate.
    + intros data Hr.
      destruct (accepted_response_is_returned env brand platform goal tone
                  api_token sent text m sent' data Hp Hc Hr)
        as (b & a & c & _ & _ & _ & _ & _ & Hout).
      eexists. split; [exact Hout|].
      cbn [metrics]. apply dict_get_set_same.
Qed.

Lemma generate_campaign_brief_failure_modes_witness :
  exists r,
    fst (generate_campaign_brief
           (Sample.env_of "ollama" None false
              (Sample.replying "{ invalid json structure"))
           "Nike" "Instagram" "Awareness" "Professional" None [])
    = Return r /\
    Dict.get "success" (metrics r) = Some (PBool false) /\
    brief r
    = PStr "Error generating brief for Nike: Invalid JSON response: Expecting property name enclosed in double quotes: line 1 column 3 (char 2)".
Proof.
  destruct (generate_campaign_brief_failure_modes
              (Sample.env_of "ollama" None false
                 (Sample.replying "{ invalid json structure"))
              "Nike" "Instagram" "Awareness" "Professional" None [])
    as (_ & _ & _ & _ & _ & Habsorbed).
  destruct (Habsorbed ltac:(vm_compute; discriminate) _ _ _ eq_refl)
    as [Hcaptured _].
  destruct (Hcaptured
              (ValueError "Invalid JSON response: Expecting property name enclosed in double quotes: line 1 column 3 (char 2)")
              eq_refl eq_refl)
    as (r & b & Hout & Hs & _ & Hb & _ & ->).
  exists r. rewrite Hout. repeat split; assumption.
Defined.

(** The claim that nothing is ever raised fails on a transport failure
    of the local adapter: the exception built by [call_ollama_api]
    leaves [generate_campaign_brief]. *)
Lemma transport_failure_is_raised :
  generate_campaign_brief
    (Sample.env_of "ollama" None false Sample.unreachable)
    "Nike" "Instagram" "Awareness" "Professional" None []
  = (Raise (Exception "Ollama API error: Connection refused"),
     [OllamaPost "http://localhost:11434/api/generate" "llama3.2"
        (build_system_prompt ++ nl ++ nl
           ++ build_user_prompt "Nike" "Instagram" "Awareness"
                "Professional")]).
Proof. vm_compute. reflexivity. Qed.

(* ================================================================== *)
(** * The test provider *)
(* ================================================================== *)

Lemma strings_well_formed l : forallb well_formed (map PStr l) = true.
Proof. induction l as [|s l IH]; [reflexivity | exact IH]. Qed.

Lemma test_response_data_well_formed env :
  well_formed (test_response_data env) = true.
Proof.
  unfold test_response_data.
  cbn [well_formed map fst snd forallb].
  rewrite !strings_well_formed. reflexivity.
Qed.

Lemma sentences_length f from n : List.length (sentences f from n) = n.
Proof. unfold sentences. now rewrite length_map, length_seq. Qed.

Lemma random_int_4_6 f : 4 <= random_int f 4 6 <= 6.
Proof.
  unfold random_int. cbn [Nat.sub Nat.add].
  pose proof (Nat.mod_upper_bound (random_draw f) 3 ltac:(discriminate)).
  change (6 - 4 + 1) with 3. lia.
Qed.

(** What the test-provider path returns. *)
Lemma test_provider_result env brand platform goal tone api_token sent :
  resolve_provider env = "test" ->
  let n := random_int (fake env) 4 6 in
  generate_campaign_brief env brand platform goal tone api_token sent
  = (Return
       {| brief := PStr (PyStr.join " " (sentences (fake env) 0 n));
          angles := PList (map PStr (sentences (fake env) n 3));
          criteria := PList (map PStr (sentences (fake env) (n + 3) 3));
          metrics :=
            Dict.set "success" (PBool true)
              (snd (call_test_api env brand platform goal tone));
          raw_response := None |},
     sent).
Proof.
  intros Hp n.
  rewrite (test_provider_unfold env brand platform goal tone api_token sent Hp).
  unfold call_test_api. cbn [snd].
  rewrite (loads_dumps (Some 2) _ (test_response_data_well_formed env)).
  reflexivity.
Qed.

(** C10.  On the test-provider path [json.loads] always gets back the
    dict [call_test_api] serialised, so [generate_campaign_brief]
    returns the generated brief (four to six sentences joined by
    spaces), the three generated angles and the three generated
    criteria with [metrics.success == True]; the result is never the
    "Test provider error" dict of the [except] clause. *)
Theorem test_provider_always_succeeds
  env brand platform goal tone api_token sent :
  resolve_provider env = "test" ->
  let n := random_int (fake env) 4 6 in
  let text_metrics := call_test_api env brand platform goal tone in
  4 <= n <= 6 /\
  Json.loads (fst text_metrics) = Return (test_response_data env) /\
  exists r,
    generate_campaign_brief env brand platform goal tone api_token sent
    = (Return r, sent) /\
    brief r = PStr (PyStr.join " " (sentences (fake env) 0 n)) /\
    angles r = PList (map PStr (sentences (fake env) n 3)) /\
    criteria r = PList (map PStr (sentences (fake env) (n + 3) 3)) /\
    Dict.get "success" (metrics r) = Some (PBool true) /\
    (forall e m, r <> test_error_result brand e m).
Proof.
  intros Hp n text_metrics.
  split; [apply random_int_4_6|].
  split; [apply loads_dumps, test_response_data_well_formed|].
  eexists. split; [now apply test_provider_result|].
  cbn [brief angles criteria metrics].
  do 3 (split; [reflexivity|]). split.
  - apply dict_get_set_same.
  - intros e m H.
    apply (f_equal (fun r => Dict.get "success" (metrics r))) in H.
    cbn [metrics test_error_result] in H.
    rewrite dict_get_set_same, failure_metrics_success in H. discriminate.
Qed.

Lemma test_provider_always_succeeds_witness :
  exists r,
    generate_campaign_brief
      (Sample.env_of "ollama" None true Sample.unreachable)
      "Acme" "TikTok" "Conversions" "Playful" None []
    = (Return r, []) /\
    Dict.get "success" (metrics r) = Some (PBool true) /\
    Dict.get "provider" (metrics r) = Some (PStr "test").
Proof.
  destruct (test_provider_always_succeeds
              (Sample.env_of "ollama" None true Sample.unreachable)
              "Acme" "TikTok" "Conversions" "Playful" None [] eq_refl)
    as (_ & _ & r & Hout & _ & _ & _ & Hs & _).
  exists r. split; [exact Hout|]. split; [exact Hs|].
  injection Hout as <-. reflexivity.
Defined.

(** C2.  Whatever [generate_campaign_brief] returns, on any path, has a
    list of exactly three elements under [angles] and under
    [criteria]. *)
Theorem generate_campaign_brief_arrays_of_3
  env brand platform goal tone api_token sent r sent' :
  generate_campaign_brief env brand platform goal tone api_token sent
  = (Return r, sent') ->
  exists a c,
    angles r = PList a /\ List.length a = 3 /\
    criteria r = PList c /\ List.length c = 3.
Proof.
  intros H.
  destruct (String.eqb (resolve_provider env) "test") eqn:Hp.
  - apply String.eqb_eq in Hp.
    rewrite (test_provider_result env brand platform goal tone api_token
               sent Hp) in H.
    injection H as <- _. cbn [angles criteria].
    eexists; eexists. repeat split; now rewrite length_map, sentences_length.
  - apply String.eqb_neq in Hp.
    rewrite (real_provider_unfold env brand platform goal tone api_token
               sent Hp) in H.
    destruct (call_provider env (resolve_provider env) build_system_prompt
                (build_user_prompt brand platform goal tone) api_token sent)
      as [[[text m]|e] sent1] eqn:Hc; [|discriminate].
    destruct (parse_json_response text) as [data|e] eqn:Hr.
    + destruct (accepted_response_is_returned env brand platform goal tone
                  api_token sent text m sent1 data Hp Hc Hr)
        as (b & a & c & _ & _ & Ha & _ & Hcl & Hout).
      rewrite (real_provider_unfold env brand platform goal tone api_token
                 sent Hp), Hc, Hr in Hout.
      rewrite Hout in H. injection H as <- _.
      exists a, c. auto.
    + cbn [bind] in H. destruct (is_ValueError e); [|discriminate].
      injection H as <- _. cbn [degraded_result angles criteria].
      eexists; eexists. repeat split.
Qed.

Lemma generate_campaign_brief_arrays_of_3_witness :
  exists r,
    fst (generate_campaign_brief
           (Sample.env_of "ollama" None false
              (Sample.replying "I cannot help with that."))
           "Acme" "TikTok" "Conversions" "Playful" None [])
    = Return r /\
    exists a c,
      angles r = PList a /\ List.length a = 3 /\
      criteria r = PList c /\ List.length c = 3.
Proof.
  eexists. split; [vm_compute; reflexivity|].
  apply (generate_campaign_brief_arrays_of_3
           (Sample.env_of "ollama" None false
              (Sample.replying "I cannot help with that."))
           "Acme" "TikTok" "Conversions" "Playful" None []
           _
           [OllamaPost "http://localhost:11434/api/generate" "llama3.2"
              (build_system_prompt ++ nl ++ nl
                 ++ build_user_prompt "Acme" "TikTok" "Conversions"
                      "Playful")]).
  vm_compute. reflexivity.
Defined.

(** A provider text that is a JSON scalar: [field in data] raises
    [TypeError], which neither [except] clause catches, and the
    exception leaves [generate_campaign_brief]. *)
Lemma scalar_response_raises_type_error :
  parse_json_response "42"
  = Raise (TypeError "argument of type 'int' is not iterable") /\
  fst (generate_campaign_brief
         (Sample.env_of "ollama" None false (Sample.replying "42"))
         "Nike" "Instagram" "Awareness" "Professional" None [])
  = Raise (TypeError "argument of type 'int' is not iterable").
Proof. split; vm_compute; reflexivity. Qed.

(* ================================================================== *)
(** * The prompt builder *)
(* ================================================================== *)

Lemma contains_app_mid sub a b : PyStr.contains sub (a ++ sub ++ b) = true.
Proof.
  unfold PyStr.contains. induction a as [|x a IH].
  - cbn [append]. now rewrite first_occurrence_unfold, has_prefix_app.
  - cbn [append]. rewrite first_occurrence_unfold.
    destruct (PyStr.has_prefix sub (String x (a ++ sub ++ b))); [reflexivity|].
    destruct (PyStr.first_occurrence sub (a ++ sub ++ b));
      [reflexivity | discriminate].
Qed.

(** X1.  Whatever the four inputs are, each of them occurs in the
    prompt [build_user_prompt] builds from them. *)
Theorem build_user_prompt_mentions_inputs brand platform goal tone :
  let prompt := build_user_prompt brand platform goal tone in
  PyStr.contains brand prompt = true /\
  PyStr.contains platform prompt = true /\
  PyStr.contains goal prompt = true /\
  PyStr.contains tone prompt = true.
Proof.
  cbv zeta.
  set (p1 := "Create a campaign brief for:" ++ nl ++ "Brand: ").
  set (p2 := nl ++ "Platform: ").
  set (p3 := nl ++ "Goal: ").
  set (p4 := nl ++ "Tone: ").
  set (p5 := nl ++ nl
             ++ "Generate a strategic campaign brief with content angles and creator criteria.").
  repeat split.
  - change (build_user_prompt brand platform goal tone)
      with (p1 ++ brand ++ (p2 ++ platform ++ p3 ++ goal ++ p4 ++ tone ++ p5)).
    apply contains_app_mid.
  - replace (build_user_prompt brand platform goal tone)
      with ((p1 ++ brand ++ p2) ++ platform ++ (p3 ++ goal ++ p4 ++ tone ++ p5))
      by (rewrite !app_assoc_s; reflexivity).
    apply contains_app_mid.
  - replace (build_user_prompt brand platform goal tone)
      with ((p1 ++ brand ++ p2 ++ platform ++ p3) ++ goal ++ (p4 ++ tone ++ p5))
      by (rewrite !app_assoc_s; reflexivity).
    apply contains_app_mid.
  - replace (build_user_prompt brand platform goal tone)
      with ((p1 ++ brand ++ p2 ++ platform ++ p3 ++ goal ++ p4) ++ tone ++ p5)
      by (rewrite !app_assoc_s; reflexivity).
    apply contains_app_mid.
Qed.

(* ================================================================== *)
(** * The validator: what is accepted, and the order of its checks *)
(* ================================================================== *)

(** X2.  [parse_json_response] returns [v] exactly when the text it
    hands to [json.loads] decodes to [v] and [v] is an object whose
    [brief] is a string of ten words or more and whose [angles] and
    [criteria] are lists of three elements.  The decoded object is
    returned as it is, with whatever other keys it has. *)
Theorem parse_json_response_accepts_exactly text v :
  parse_json_response text = Return v <->
  (Json.loads (extract_json_text text) = Return v /\
   exists d brief_text a c,
     v = PDict d /\
     Dict.get "brief" d = Some (PStr brief_text) /\
     10 <= word_count brief_text /\
     Dict.get "angles" d = Some (PList a) /\ List.length a = 3 /\
     Dict.get "criteria" d = Some (PList c) /\ List.length c = 3).
Proof.
  split.
  - intros H. pose proof H as H0.
    unfold parse_json_response, parse_json_response_body in H.
    destruct (Json.loads (extract_json_text text)) as [data|e] eqn:Hl.
    + cbn [bind] in H.
      destruct (validate data) as [w|e] eqn:Hv.
      * injection H as ->.
        destruct (validate_sound _ _ Hv) as [-> Hs]. split; [reflexivity|].
        destruct Hs as (d & b & a & c & Hs). exists d, b, a, c. exact Hs.
      * destruct (is_ValueError e); discriminate.
    + cbn [bind] in H. destruct (is_ValueError e); discriminate.
  - intros (Hl & d & b & a & c & -> & Hb & Hw & Ha & Hla & Hc & Hlc).
    rewrite (parse_json_response_decoded _ _ Hl).
    rewrite (validate_lists d b Hb Hw _ _ Ha Hc).
    cbn [is_list_of_3]. rewrite Hla, Hlc. reflexivity.
Qed.

Lemma validate_missing d :
  forallb (fun f => Dict.mem f d) ["brief"; "angles"; "criteria"] = false ->
  validate (PDict d) = Raise (ValueError "Missing required fields in response").
Proof.
  intros H. unfold validate. rewrite all_in_dict, H. reflexivity.
Qed.

Lemma validate_present d :
  forallb (fun f => Dict.mem f d) ["brief"; "angles"; "criteria"] = true ->
  validate (PDict d)
  = (brief <- getitem (PDict d) "brief" ;;
     match brief with
     | PStr brief_text =>
         check negb (word_count brief_text <? 10)%nat
           else_raise ValueError "Brief too short - needs more content" ;;
         angles <- getitem (PDict d) "angles" ;;
         check is_list_of_3 angles
           else_raise ValueError "Must have exactly 3 content angles" ;;
         criteria <- getitem (PDict d) "criteria" ;;
         check is_list_of_3 criteria
           else_raise ValueError "Must have exactly 3 selection criteria" ;;
         Return (PDict d)
     | _ => Raise (ValueError "Brief must be a string")
     end).
Proof.
  intros H. unfold validate. rewrite all_in_dict, H. reflexivity.
Qed.

(** X3.  The checks on a decoded object come in a fixed order.  An
    object that lacks one of the three fields is rejected with
    "Missing required fields in response".  With the three fields
    there, a [brief] that is no string is rejected with "Brief must be
    a string" and a brief of fewer than ten words with "Brief too
    short - needs more content", whatever [angles] and [criteria] hold.
    Each message comes behind the prefix of the [except] clause. *)
Theorem parse_json_response_checks_brief_first text d :
  Json.loads (extract_json_text text) = Return (PDict d) ->
  (Dict.mem "brief" d && Dict.mem "angles" d && Dict.mem "criteria" d = false ->
   parse_json_response text
   = Raise (ValueError
              "Invalid JSON response: Missing required fields in response")) /\
  (Dict.mem "angles" d = true -> Dict.mem "criteria" d = true ->
   forall v,
     Dict.get "brief" d = Some v -> is_str v = false ->
     parse_json_response text
     = Raise (ValueError "Invalid JSON response: Brief must be a string")) /\
  (Dict.mem "angles" d = true -> Dict.mem "criteria" d = true ->
   forall brief_text,
     Dict.get "brief" d = Some (PStr brief_text) ->
     word_count brief_text < 10 ->
     parse_json_response text
     = Raise (ValueError
                "Invalid JSON response: Brief too short - needs more content")).
Proof.
  intros Hl. rewrite (parse_json_response_decoded _ _ Hl).
  repeat split.
  - intros H. rewrite validate_missing; [reflexivity|].
    cbn [forallb]. rewrite andb_true_r, andb_assoc. exact H.
  - intros Ha Hc v Hb Hs. rewrite validate_present.
    + cbn [getitem]. rewrite Hb. cbn [bind].
      destruct v; try reflexivity. discriminate.
    + cbn [forallb]. unfold Dict.mem at 1. now rewrite Hb, Ha, Hc.
  - intros Ha Hc b Hb Hw. rewrite validate_present.
    + cbn [getitem]. rewrite Hb. cbn [bind].
      apply Nat.ltb_lt in Hw. rewrite Hw. reflexivity.
    + cbn [forallb]. unfold Dict.mem at 1. now rewrite Hb, Ha, Hc.
Qed.

Lemma parse_json_response_checks_brief_first_witness :
  let d := [ ("brief", PStr "too short"); ("angles", PInt 1)
           ; ("criteria", PNone) ] in
  Json.loads (extract_json_text (Json.dumps None (PDict d))) = Return (PDict d)
  /\ parse_json_response (Json.dumps None (PDict d))
     = Raise (ValueError
                "Invalid JSON response: Brief too short - needs more content").
Proof.
  cbv zeta. split; [vm_compute; reflexivity|].
  refine (proj2 (proj2 (parse_json_response_checks_brief_first _ _ _))
            _ _ "too short" _ _);
    try (vm_compute; reflexivity).
  vm_compute. lia.
Defined.

(** X4.  When the text decodes to [null], a boolean or a number, the
    membership test of the validator raises a [TypeError], which the
    [except] clause of [parse_json_response] does not catch; and
    [generate_campaign_brief], which catches [ValueError] only, raises
    it as well instead of returning the degraded result. *)
Theorem scalar_reply_is_a_type_error text v :
  Json.loads (extract_json_text text) = Return v ->
  match v with PStr _ | PList _ | PDict _ => False | _ => True end ->
  (exists msg, parse_json_response text = Raise (TypeError msg)) /\
  forall env brand platform goal tone api_token sent m sent',
    resolve_provider env <> "test" ->
    call_provider env (resolve_provider env) build_system_prompt
      (build_user_prompt brand platform goal tone) api_token sent
    = (Return (text, m), sent') ->
    exists msg,
      generate_campaign_brief env brand platform goal tone api_token sent
      = (Raise (TypeError msg), sent').
Proof.
  intros Hl Hv.
  assert (Hp : exists msg, parse_json_response text = Raise (TypeError msg)).
  { rewrite (parse_json_response_decoded _ _ Hl).
    destruct v; try contradiction; cbn; eauto. }
  split; [exact Hp|].
  intros env brand platform goal tone api_token sent m sent' Ht Hc.
  destruct Hp as [msg Hp]. exists msg.
  rewrite (real_provider_unfold _ _ _ _ _ _ _ Ht), Hc, Hp. reflexivity.
Qed.

Lemma scalar_reply_is_a_type_error_witness :
  exists msg sent',
    generate_campaign_brief
      (Sample.env_of "ollama" None false (Sample.replying "null"))
      "Acme" "TikTok" "Awareness" "Playful" None []
    = (Raise (TypeError msg), sent').
Proof.
  destruct (scalar_reply_is_a_type_error "null" PNone) as [_ H];
    [reflexivity | exact I |].
  edestruct (H (Sample.env_of "ollama" None false (Sample.replying "null"))
               "Acme" "TikTok" "Awareness" "Playful" None [])
    as [msg Hm];
    [discriminate | reflexivity |].
  exists msg. eexists. exact Hm.
Defined.

(* ================================================================== *)
(** * Trimming a text with a solid core *)
(* ================================================================== *)


Lemma rstrip_solid_head c s :
  PyStr.isspace c = false ->
  PyStr.rstrip (String c s) = String c (PyStr.rstrip s).
Proof.
  intros Hc. cbn [PyStr.rstrip]. rewrite Hc.
  destruct (PyStr.rstrip s); reflexivity.
Qed.






Lemma well_formed_lookup k v d :
  forallb (fun kv : string * pyval => well_formed (snd kv)) d = true ->
  Dict.get k d = Some v -> well_formed v = true.
Proof.
  induction d as [|[k' v'] d IH]; [discriminate|].
  cbn [forallb Dict.get snd]. intros H Hg.
  apply andb_true_iff in H as [Hv Hd].
  destruct (String.eqb k k'); [injection Hg as <-; exact Hv | now apply IH].
Qed.



(* ================================================================== *)
(** * An opening fence that is never closed *)
(* ================================================================== *)

Lemma contains_false_first_occurrence sub s :
  PyStr.contains sub s = false -> PyStr.first_occurrence sub s = None.
Proof.
  unfold PyStr.contains.
  destruct (PyStr.first_occurrence sub s); [discriminate | reflexivity].
Qed.

Lemma substring_skip n m a b :
  substring (String.length a + n) m (a ++ b) = substring n m b.
Proof. induction a as [|x a IH]; [reflexivity | exact IH]. Qed.

(** X6.  An opening fence that is never closed.  When the trimmed
    text has a [```json] and no [```] after it, [find] answers -1 and
    the slice stops before the last character: the text handed to
    [json.loads] is what follows the marker less its last character,
    trimmed. *)
Theorem unclosed_fence_drops_last_character text pre rest :
  first_split fence_json (PyStr.strip text) pre rest ->
  PyStr.contains fence rest = false ->
  extract_json_text text
  = PyStr.strip (substring 0 (String.length rest - 1) rest).
Proof.
  intros H1 H2. unfold extract_json_text.
  set (t := PyStr.strip text) in *.
  rewrite (contains_first_split _ _ _ _ H1), (find_first_split _ _ _ _ H1).
  destruct H1 as [Et _].
  set (n := String.length pre).
  replace (Z.of_nat n + 7)%Z with (Z.of_nat (n + 7)) by lia.
  rewrite Nat2Z.id.
  assert (Ea : String.length (pre ++ fence_json) = n + 7)
    by (rewrite length_app_s; reflexivity).
  assert (Et' : t = (pre ++ fence_json) ++ rest)
    by (rewrite Et, app_assoc_s; reflexivity).
  assert (Hlen : String.length t = n + 7 + String.length rest)
    by (rewrite Et', length_app_s, Ea; reflexivity).
  assert (Hfind : PyStr.find t fence (n + 7) = (-1)%Z).
  { unfold PyStr.find.
    assert (E : (String.length t <? n + 7)%nat = false)
      by (apply Nat.ltb_ge; lia).
    rewrite E. rewrite Et' at 1. rewrite <- Ea, skip_app.
    now rewrite (contains_false_first_occurrence _ _ H2). }
  rewrite Hfind. f_equal.
  unfold PyStr.slice. rewrite slice_bound_offset by lia.
  unfold PyStr.slice_bound. rewrite Hlen.
  change (-1 <? 0)%Z with true. cbv iota.
  set (len := Z.of_nat (n + 7 + String.length rest)).
  assert (E1 : (-1 + len <? 0)%Z = false) by (apply Z.ltb_ge; unfold len; lia).
  assert (E2 : (len <? -1 + len)%Z = false) by (apply Z.ltb_ge; lia).
  cbv zeta. rewrite E1, E2. rewrite Nat2Z.id.
  replace (Z.to_nat (-1 + len - Z.of_nat (n + 7)))
    with (String.length rest - 1) by (unfold len; lia).
  rewrite Et'. rewrite <- Ea.
  replace (String.length (pre ++ fence_json))
    with (String.length (pre ++ fence_json) + 0) by lia.
  apply substring_skip.
Qed.

Lemma unclosed_fence_drops_last_character_witness :
  let doc :=
    Json.dumps None (Sample.payload Sample.ten_words Sample.abc Sample.def) in
  extract_json_text Sample.unclosed_fence
  = PyStr.strip (substring 0 (String.length doc - 1) doc).
Proof.
  cbv zeta.
  apply (unclosed_fence_drops_last_character Sample.unclosed_fence "").
  - apply cut_first_split. vm_compute. reflexivity.
  - vm_compute. reflexivity.
Defined.

(* ================================================================== *)
(** * The orchestrator and the network *)
(* ================================================================== *)

Lemma resolve_provider_real env p :
  resolve_provider env = p -> p <> "test" ->
  AI_PROVIDER (settings env) = p.
Proof.
  unfold resolve_provider.
  destruct (pytest_loaded env || (AI_PROVIDER (settings env) =? "test"));
    congruence.
Qed.

(** What an adapter adds to the requests sent, whatever comes back. *)
Lemma call_ollama_api_sends env prompt sent :
  snd (call_ollama_api env prompt sent)
  = (sent ++ [OllamaPost (OLLAMA_BASE_URL (settings env) ++ "/api/generate")
                (OLLAMA_MODEL (settings env)) prompt])%list.
Proof.
  unfold call_ollama_api. destruct (http_post env _); reflexivity.
Qed.

Lemma call_openai_api_sends env sp up api_token sent key :
  py_or api_token (AI_PROVIDER_API_KEY (settings env)) = Some key ->
  key <> "" ->
  snd (call_openai_api env sp up api_token sent)
  = (sent ++ [OpenAIInvoke (openai_model env) key sp up])%list.
Proof.
  intros Hk Hne. unfold call_openai_api. rewrite Hk.
  destruct key as [|c key]; [congruence|]. cbn [PyStr.is_empty].
  destruct (chat_invoke env _); reflexivity.
Qed.

Lemma generate_sends_what_adapter_sends env brand platform goal tone
  api_token sent :
  resolve_provider env <> "test" ->
  snd (generate_campaign_brief env brand platform goal tone api_token sent)
  = snd (call_provider env (resolve_provider env) build_system_prompt
           (build_user_prompt brand platform goal tone) api_token sent).
Proof.
  intros Ht. rewrite (real_provider_unfold _ _ _ _ _ _ _ Ht).
  destruct (call_provider _ _ _ _ _ _) as [[[text m]|e] sent']; [|reflexivity].
  destruct (brief_data <- parse_json_response text ;; success_result brief_data m)
    as [r|e]; [reflexivity|].
  destruct (is_ValueError e); reflexivity.
Qed.

Lemma openai_request_sent env brand platform goal tone api_token sent key :
  resolve_provider env = "openai" ->
  py_or api_token (AI_PROVIDER_API_KEY (settings env)) = Some key ->
  key <> "" ->
  snd (generate_campaign_brief env brand platform goal tone api_token sent)
  = (sent ++ [OpenAIInvoke (openai_model env) key build_system_prompt
                (build_user_prompt brand platform goal tone)])%list.
Proof.
  intros Hp Hk Hne.
  rewrite generate_sends_what_adapter_sends by (rewrite Hp; discriminate).
  rewrite Hp. unfold call_provider. cbn [String.eqb Ascii.eqb Bool.eqb].
  now apply call_openai_api_sends.
Qed.

(** X7.  With the hosted provider selected and a credential at hand,
    [generate_campaign_brief] sends exactly one request, whatever the
    reply: the model, the key and the two prompts, kept apart.  The key
    is the per-call token when that is a non-empty string, and the
    configured key otherwise. *)
Theorem hosted_request_carries_the_chosen_key env brand platform goal tone
  api_token sent key :
  resolve_provider env = "openai" ->
  py_or api_token (AI_PROVIDER_API_KEY (settings env)) = Some key ->
  key <> "" ->
  snd (generate_campaign_brief env brand platform goal tone api_token sent)
  = (sent ++ [OpenAIInvoke (openai_model env) key build_system_prompt
                (build_user_prompt brand platform goal tone)])%list /\
  (truthy api_token = true -> api_token = Some key) /\
  (truthy api_token = false -> AI_PROVIDER_API_KEY (settings env) = Some key).
Proof.
  intros Hp Hk Hne. split; [now apply openai_request_sent|].
  unfold py_or in Hk. split; intros Ht; rewrite Ht in Hk; exact Hk.
Qed.

Lemma hosted_request_carries_the_chosen_key_witness :
  snd (generate_campaign_brief
         (Sample.env_of "openai" (Some "sk-configured") false
            Sample.unreachable)
         "Acme" "TikTok" "Awareness" "Playful" (Some "sk-call") [])
  = [OpenAIInvoke "gpt-4o-mini" "sk-call" build_system_prompt
       (build_user_prompt "Acme" "TikTok" "Awareness" "Playful")].
Proof.
  refine (proj1 (hosted_request_carries_the_chosen_key
                   (Sample.env_of "openai" (Some "sk-configured") false
                      Sample.unreachable)
                   "Acme" "TikTok" "Awareness" "Playful" (Some "sk-call") []
                   "sk-call" _ _ _));
    [reflexivity | reflexivity | discriminate].
Defined.

(** X8.  With the local provider selected, [generate_campaign_brief]
    sends exactly one request, whatever the reply and whatever the
    per-call token: a POST to [OLLAMA_BASE_URL] followed by
    "/api/generate", for the configured model, whose prompt is the
    system prompt, an empty line and the user prompt. *)
Theorem local_request_joins_both_prompts env brand platform goal tone
  api_token sent :
  resolve_provider env = "ollama" ->
  snd (generate_campaign_brief env brand platform goal tone api_token sent)
  = (sent ++ [OllamaPost (OLLAMA_BASE_URL (settings env) ++ "/api/generate")
                (OLLAMA_MODEL (settings env))
                (build_system_prompt ++ nl ++ nl
                   ++ build_user_prompt brand platform goal tone)])%list.
Proof.
  intros Hp.
  rewrite generate_sends_what_adapter_sends by (rewrite Hp; discriminate).
  rewrite Hp. unfold call_provider. cbn [String.eqb Ascii.eqb Bool.eqb].
  apply call_ollama_api_sends.
Qed.

Lemma local_request_joins_both_prompts_witness :
  snd (generate_campaign_brief
         (Sample.env_of "ollama" None false Sample.unreachable)
         "Acme" "TikTok" "Awareness" "Playful" (Some "sk-call") [])
  = [OllamaPost "http://localhost:11434/api/generate" "llama3.2"
       (build_system_prompt ++ nl ++ nl
          ++ build_user_prompt "Acme" "TikTok" "Awareness" "Playful")].
Proof.
  apply (local_request_joins_both_prompts
           (Sample.env_of "ollama" None false Sample.unreachable)
           "Acme" "TikTok" "Awareness" "Playful" (Some "sk-call") []).
  reflexivity.
Defined.

Lemma call_provider_footprint env p sp up api_token sent :
  exists extra,
    snd (call_provider env p sp up api_token sent) = (sent ++ extra)%list /\
    List.length extra <= 1.
Proof.
  unfold call_provider.
  destruct (String.eqb p "ollama").
  - rewrite call_ollama_api_sends. eexists. split; [reflexivity | cbn; lia].
  - destruct (String.eqb p "openai").
    + unfold call_openai_api.
      destruct (py_or api_token (AI_PROVIDER_API_KEY (settings env)))
        as [key|].
      * destruct (PyStr.is_empty key).
        -- exists []. split; [now rewrite List.app_nil_r | cbn; lia].
        -- destruct (chat_invoke env _); eexists;
             (split; [reflexivity | cbn; lia]).
      * exists []. split; [now rewrite List.app_nil_r | cbn; lia].
    + exists []. split; [now rewrite List.app_nil_r | cbn; lia].
Qed.

(** X9.  A call of [generate_campaign_brief] keeps the requests sent
    before it and adds at most one; it adds none on the test-provider
    path, and none for the hosted provider when there is neither a
    per-call token nor a configured key. *)
Theorem generate_campaign_brief_sends_at_most_once env brand platform goal
  tone api_token sent :
  exists extra,
    snd (generate_campaign_brief env brand platform goal tone api_token sent)
    = (sent ++ extra)%list /\
    List.length extra <= 1 /\
    (resolve_provider env = "test" -> extra = []) /\
    (resolve_provider env = "openai" ->
     truthy api_token = false ->
     truthy (AI_PROVIDER_API_KEY (settings env)) = false -> extra = []).
Proof.
  destruct (String.eqb (resolve_provider env) "test") eqn:E.
  - apply String.eqb_eq in E. exists []. rewrite List.app_nil_r.
    pose proof (test_provider_result env brand platform goal tone api_token
                  sent E) as H.
    cbv zeta in H. rewrite H. repeat split; try reflexivity; cbn; try lia.
  - apply String.eqb_neq in E.
    rewrite generate_sends_what_adapter_sends by exact E.
    destruct (String.eqb (resolve_provider env) "openai"
              && negb (truthy api_token)
              && negb (truthy (AI_PROVIDER_API_KEY (settings env)))) eqn:Hk.
    + apply andb_true_iff in Hk as [Hk H3]. apply andb_true_iff in Hk as [H1 H2].
      apply String.eqb_eq in H1. apply negb_true_iff in H2, H3.
      exists []. rewrite List.app_nil_r. rewrite H1. unfold call_provider.
      cbn [String.eqb Ascii.eqb Bool.eqb].
      rewrite call_openai_api_without_credential by assumption.
      repeat split; try reflexivity. cbn; lia.
    + destruct (call_provider_footprint env (resolve_provider env)
                  build_system_prompt
                  (build_user_prompt brand platform goal tone) api_token sent)
        as (extra & He & Hl).
      exists extra. repeat split; try assumption.
      * intros; contradiction.
      * intros Hp Ht Hs. rewrite Hp, Ht, Hs in Hk. discriminate.
Qed.

Lemma generate_campaign_brief_sends_at_most_once_witness :
  exists extra,
    snd (generate_campaign_brief
           (Sample.env_of "openai" None false Sample.unreachable)
           "Acme" "TikTok" "Awareness" "Playful" None [])
    = extra /\ extra = [].
Proof.
  destruct (generate_campaign_brief_sends_at_most_once
              (Sample.env_of "openai" None false Sample.unreachable)
              "Acme" "TikTok" "Awareness" "Playful" None [])
    as (extra & He & _ & _ & Hn).
  exists extra. split; [exact He|].
  apply Hn; reflexivity.
Defined.

(** X10.  Where an exception that leaves [generate_campaign_brief]
    comes from.  None leaves the test-provider path.  On the path of a
    real provider it is either the adapter's own, raised before any
    parsing (the [ValueError] of the missing credential, the
    [ValueError] of an unsupported provider, or the [Exception] in
    which an adapter wraps a transport failure), or one that
    [parse_json_response] raised on the adapter's text and that is not
    of class [ValueError].  A [ValueError] of [parse_json_response]
    never leaves it. *)
Theorem generate_campaign_brief_exception_origins env brand platform goal
  tone api_token sent e sent' :
  generate_campaign_brief env brand platform goal tone api_token sent
  = (Raise e, sent') ->
  let adapter :=
    call_provider env (resolve_provider env) build_system_prompt
      (build_user_prompt brand platform goal tone) api_token sent in
  resolve_provider env <> "test" /\
  ((adapter = (Raise e, sent') /\
    (e = ValueError "OpenAI API key not configured"
     \/ e = ValueError ("Unsupported AI provider: "
                          ++ AI_PROVIDER (settings env))
     \/ (exists msg, e = Exception ("Ollama API error: " ++ msg))
     \/ (exists msg, e = Exception ("OpenAI LangChain call failed: " ++ msg))))
   \/ (exists text m,
         adapter = (Return (text, m), sent') /\
         parse_json_response text = Raise e /\
         is_ValueError e = false)).
Proof.
  intros H adapter.
  destruct (String.eqb (resolve_provider env) "test") eqn:E.
  { apply String.eqb_eq in E.
    pose proof (test_provider_result env brand platform goal tone api_token
                  sent E) as H'.
    cbv zeta in H'. rewrite H' in H. discriminate. }
  apply String.eqb_neq in E. split; [exact E|].
  rewrite (real_provider_unfold _ _ _ _ _ _ _ E) in H.
  pose proof (resolve_provider_real env _ eq_refl E) as Hp.
  unfold adapter.
  destruct (call_provider _ _ _ _ _ _) as [[[text m]|e0] s0] eqn:Hc.
  - right. exists text, m.
    destruct (parse_json_response text) as [data|e1] eqn:Hr.
    + destruct (accepted_response_is_returned env brand platform goal tone
                  api_token sent text m s0 data E Hc Hr)
        as (b & a & c & Hb & Ha & _ & Hcr & _ & _).
      cbn [bind] in H. unfold success_result in H.
      rewrite Hb, Ha, Hcr in H. cbn [bind] in H. discriminate H.
    + cbn [bind] in H.
      destruct (is_ValueError e1) eqn:Ev; [discriminate H|].
      injection H as <- <-. repeat split. exact Ev.
  - injection H as <- <-. left. split; [reflexivity|].
    unfold call_provider in Hc.
    destruct (String.eqb (resolve_provider env) "ollama").
    + unfold call_ollama_api in Hc.
      destruct (http_post env _) as [msg|]; [|discriminate Hc].
      injection Hc as <- _. right. right. left. now exists msg.
    + destruct (String.eqb (resolve_provider env) "openai").
      * unfold call_openai_api in Hc.
        destruct (py_or api_token (AI_PROVIDER_API_KEY (settings env)))
          as [key|].
        -- destruct (PyStr.is_empty key).
           ++ injection Hc as <- _. now left.
           ++ destruct (chat_invoke env _) as [msg|]; [|discriminate Hc].
              injection Hc as <- _. right. right. right. now exists msg.
        -- injection Hc as <- _. now left.
      * injection Hc as <- _. right. left. now rewrite Hp.
Qed.

Lemma generate_campaign_brief_exception_origins_witness :
  let env := Sample.env_of "ollama" None false (Sample.replying "null") in
  exists e text m sent',
    generate_campaign_brief env "Acme" "TikTok" "Awareness" "Playful" None []
    = (Raise e, sent') /\
    call_provider env (resolve_provider env) build_system_prompt
      (build_user_prompt "Acme" "TikTok" "Awareness" "Playful") None []
    = (Return (text, m), sent') /\
    parse_json_response text = Raise e /\
    is_ValueError e = false.
Proof.
  cbv zeta. eexists. eexists. eexists. eexists.
  split; [vm_compute; reflexivity|].
  match goal with
  | |- call_provider ?env _ _ _ _ _ = (Return (?text, ?m), ?sent') /\
       parse_json_response _ = Raise ?e /\ _ =>
      destruct (generate_campaign_brief_exception_origins
                  env "Acme" "TikTok" "Awareness" "Playful" None [] e sent'
                  ltac:(vm_compute; reflexivity))
        as [_ [[Ha _]|(text' & m' & Ha & Hp & Hv)]]
  end.
  - vm_compute in Ha. discriminate Ha.
  - vm_compute in Ha. injection Ha as <- <-.
    split; [vm_compute; reflexivity|]. split; [exact Hp | exact Hv].
Defined.

(* ================================================================== *)
(** * The metrics of a returned result *)
(* ================================================================== *)

(** The metrics an adapter of a real provider returns. *)
Lemma call_provider_metrics env p sp up api_token sent text m sent' :
  call_provider env p sp up api_token sent = (Return (text, m), sent') ->
  exists model,
    Dict.get "provider" m = Some (PStr p) /\
    Dict.get "model" m = Some (PStr model) /\
    Dict.get "latency_seconds" m = Some (PFloat (elapsed env)) /\
    Dict.get "cost_estimate" m = Some (PFloat "0.0") /\
    Dict.get "success" m = None /\
    Dict.get "parse_error" m = None.
Proof.
  unfold call_provider.
  destruct (String.eqb p "ollama") eqn:Eo.
  - apply String.eqb_eq in Eo. subst p. unfold call_ollama_api.
    destruct (http_post env _) as [msg|response eval_count]; [discriminate|].
    intros [= _ <- _]. exists (OLLAMA_MODEL (settings env)).
    repeat split; reflexivity.
  - destruct (String.eqb p "openai") eqn:Ea; [|discriminate].
    apply String.eqb_eq in Ea. subst p. unfold call_openai_api.
    destruct (py_or api_token (AI_PROVIDER_API_KEY (settings env)))
      as [key|]; [|discriminate].
    destruct (PyStr.is_empty key); [discriminate|].
    destruct (chat_invoke env _) as [msg|content [usage|]]; [discriminate| |];
      intros [= _ <- _]; exists (openai_model env);
      repeat split; reflexivity.
Qed.

Lemma get_through_success k b m :
  k <> "success" -> Dict.get k (Dict.set "success" b m) = Dict.get k m.
Proof. intros H. now apply dict_get_set_other. Qed.

Lemma get_through_failure k m e :
  k <> "success" -> k <> "parse_error" ->
  Dict.get k (failure_metrics m e) = Dict.get k m.
Proof.
  intros H1 H2. unfold failure_metrics.
  now rewrite !dict_get_set_other by assumption.
Qed.

(** The two shapes of a result of a real provider. *)
Lemma real_provider_result env brand platform goal tone api_token sent r
  sent' :
  resolve_provider env <> "test" ->
  generate_campaign_brief env brand platform goal tone api_token sent
  = (Return r, sent') ->
  exists text m,
    call_provider env (resolve_provider env) build_system_prompt
      (build_user_prompt brand platform goal tone) api_token sent
    = (Return (text, m), sent') /\
    ((exists data b a c,
         parse_json_response text = Return data /\
         r = {| brief := b; angles := PList a; criteria := PList c;
                metrics := Dict.set "success" (PBool true) m;
                raw_response := None |} /\
         getitem data "brief" = Return b)
     \/ (exists e,
           parse_json_response text = Raise e /\ is_ValueError e = true /\
           r = degraded_result brand e m text)).
Proof.
  intros Ht H.
  rewrite (real_provider_unfold _ _ _ _ _ _ _ Ht) in H.
  destruct (call_provider _ _ _ _ _ _) as [[[text m]|e0] s0] eqn:Hc;
    [|discriminate H].
  exists text, m.
  destruct (parse_json_response text) as [data|e1] eqn:Hr.
  - destruct (accepted_response_is_returned env brand platform goal tone
                api_token sent text m s0 data Ht Hc Hr)
      as (b & a & c & Hb & Ha & _ & Hcr & _ & _).
    cbn [bind] in H. unfold success_result in H.
    rewrite Hb, Ha, Hcr in H. cbn [bind] in H.
    injection H as <- <-. split; [reflexivity|].
    left. exists data, b, a, c. repeat split; assumption.
  - cbn [bind] in H. destruct (is_ValueError e1) eqn:Ev; [|discriminate H].
    injection H as <- <-. split; [reflexivity|].
    right. exists e1. repeat split; assumption.
Qed.

(** X11.  A returned result has one of two shapes.  Either
    [metrics.success] is true, the brief is a string, and there is
    neither [metrics.parse_error] nor [raw_response].  Or, on the path
    of a real provider only, [metrics.success] is false,
    [metrics.parse_error] is a message that starts with "Invalid JSON
    response: ", the brief is "Error generating brief for ", the brand,
    ": " and that message, and [raw_response] is there. *)
Theorem result_is_success_or_degraded env brand platform goal tone api_token
  sent r sent' :
  generate_campaign_brief env brand platform goal tone api_token sent
  = (Return r, sent') ->
  (exists b,
      brief r = PStr b /\
      Dict.get "success" (metrics r) = Some (PBool true) /\
      Dict.get "parse_error" (metrics r) = None /\
      raw_response r = None)
  \/ (exists msg text,
        resolve_provider env <> "test" /\
        brief r = PStr ("Error generating brief for " ++ brand ++ ": " ++ msg) /\
        Dict.get "success" (metrics r) = Some (PBool false) /\
        Dict.get "parse_error" (metrics r) = Some (PStr msg) /\
        raw_response r = Some text /\
        PyStr.has_prefix "Invalid JSON response: " msg = true).
Proof.
  intros H.
  destruct (String.eqb (resolve_provider env) "test") eqn:E.
  { apply String.eqb_eq in E.
    pose proof (test_provider_result env brand platform goal tone api_token
                  sent E) as H'.
    cbv zeta in H'. rewrite H' in H. injection H as <- _.
    left. eexists. repeat split. }
  apply String.eqb_neq in E.
  destruct (real_provider_result _ _ _ _ _ _ _ _ _ E H)
    as (text & m & Hc & [(data & b & a & c & Hr & -> & Hb)|(e & Hr & Hv & ->)]).
  - left.
    destruct (call_provider_metrics _ _ _ _ _ _ _ _ _ Hc)
      as (model & _ & _ & _ & _ & _ & Hpe).
    apply parse_json_response_sound in Hr
      as (d & bt & a' & c' & -> & Hbt & _).
    cbn [getitem] in Hb. rewrite Hbt in Hb. injection Hb as <-.
    exists bt. cbn [brief metrics raw_response].
    split; [reflexivity|]. split; [apply dict_get_set_same|].
    split; [|reflexivity].
    rewrite get_through_success by discriminate. exact Hpe.
  - right.
    destruct (parse_json_response_raises _ _ Hr Hv) as [cause ->].
    eexists. exists text. cbn [degraded_result brief metrics raw_response exn_str].
    split; [exact E|]. split; [reflexivity|].
    split; [apply failure_metrics_success|].
    split; [apply (failure_metrics_parse_error m (ValueError _))|].
    split; [reflexivity | apply has_prefix_app].
Qed.

Lemma result_is_success_or_degraded_witness :
  exists r sent',
    generate_campaign_brief
      (Sample.env_of "ollama" None false (Sample.replying "no JSON here"))
      "Acme" "TikTok" "Awareness" "Playful" None []
    = (Return r, sent') /\
    Dict.get "success" (metrics r) = Some (PBool false) /\
    exists text, raw_response r = Some text.
Proof.
  eexists. eexists. split; [vm_compute; reflexivity|].
  split; [reflexivity|].
  match goal with
  | |- exists text, raw_response ?r = Some text =>
      destruct (result_is_success_or_degraded
                  (Sample.env_of "ollama" None false
                     (Sample.replying "no JSON here"))
                  "Acme" "TikTok" "Awareness" "Playful" None [] r
                  [OllamaPost "http://localhost:11434/api/generate" "llama3.2"
                     (build_system_prompt ++ nl ++ nl
                        ++ build_user_prompt "Acme" "TikTok" "Awareness"
                             "Playful")])
        as [(b & _ & _ & _ & H)|(msg & text & _ & _ & _ & _ & H & _)]
  end.
  - vm_compute. reflexivity.
  - cbn in H. discriminate H.
  - exists text. exact H.
Defined.

(** X12.  The metrics of a returned result name the provider that
    was used, the one [resolve_provider] gives, and hold the adapter's
    latency, a [cost_estimate] of 0.0 and the name of a model. *)
Theorem metrics_name_the_provider env brand platform goal tone api_token
  sent r sent' :
  generate_campaign_brief env brand platform goal tone api_token sent
  = (Return r, sent') ->
  Dict.get "provider" (metrics r) = Some (PStr (resolve_provider env)) /\
  Dict.get "latency_seconds" (metrics r) = Some (PFloat (elapsed env)) /\
  Dict.get "cost_estimate" (metrics r) = Some (PFloat "0.0") /\
  exists model, Dict.get "model" (metrics r) = Some (PStr model).
Proof.
  intros H.
  destruct (String.eqb (resolve_provider env) "test") eqn:E.
  { apply String.eqb_eq in E.
    pose proof (test_provider_result env brand platform goal tone api_token
                  sent E) as H'.
    cbv zeta in H'. rewrite H' in H. injection H as <- _.
    rewrite E. cbn [metrics]. repeat split. now exists "faker". }
  apply String.eqb_neq in E.
  destruct (real_provider_result _ _ _ _ _ _ _ _ _ E H)
    as (text & m & Hc & Hr).
  destruct (call_provider_metrics _ _ _ _ _ _ _ _ _ Hc)
    as (model & Hp & Hm & Hl & Hce & _ & _).
  destruct Hr as [(data & b & a & c & _ & -> & _)|(e & _ & _ & ->)];
    cbn [metrics degraded_result].
  - rewrite !get_through_success by discriminate. eauto.
  - rewrite !get_through_failure by discriminate. eauto.
Qed.

Lemma metrics_name_the_provider_witness :
  exists r sent',
    generate_campaign_brief
      (Sample.env_of "ollama" None true Sample.unreachable)
      "Acme" "TikTok" "Awareness" "Playful" None []
    = (Return r, sent') /\
    Dict.get "provider" (metrics r) = Some (PStr "test").
Proof.
  eexists. eexists. split; [vm_compute; reflexivity|].
  match goal with
  | |- Dict.get "provider" (metrics ?r) = _ =>
      refine (proj1 (metrics_name_the_provider
                       (Sample.env_of "ollama" None true Sample.unreachable)
                       "Acme" "TikTok" "Awareness" "Playful" None [] r [] _))
  end.
  vm_compute. reflexivity.
Defined.

(* ================================================================== *)
(** * Input validation *)
(* ================================================================== *)

Lemma rstrip_cons c s :
  PyStr.rstrip (String c s)
  = match PyStr.rstrip s with
    | "" => if PyStr.isspace c then "" else String c ""
    | r => String c r
    end.
Proof. reflexivity. Qed.

Lemma rstrip_idempotent s : PyStr.rstrip (PyStr.rstrip s) = PyStr.rstrip s.
Proof.
  induction s as [|c s IH]; [reflexivity|].
  rewrite rstrip_cons.
  destruct (PyStr.rstrip s) as [|y r] eqn:E.
  - destruct (PyStr.isspace c) eqn:Hc; [reflexivity|].
    rewrite rstrip_cons. cbn [PyStr.rstrip]. now rewrite Hc.
  - rewrite rstrip_cons, IH. reflexivity.
Qed.

Lemma lstrip_solid s :
  PyStr.lstrip s = ""
  \/ exists c r, PyStr.lstrip s = String c r /\ PyStr.isspace c = false.
Proof.
  induction s as [|c s IH]; [now left|].
  cbn [PyStr.lstrip]. destruct (PyStr.isspace c) eqn:Hc; [exact IH|].
  right. now exists c, s.
Qed.

Lemma strip_idempotent s : PyStr.strip (PyStr.strip s) = PyStr.strip s.
Proof.
  unfold PyStr.strip.
  destruct (lstrip_solid s) as [->|(c & r & -> & Hc)]; [reflexivity|].
  rewrite rstrip_solid_head by exact Hc.
  cbn [PyStr.lstrip]. rewrite Hc.
  rewrite rstrip_solid_head by exact Hc.
  now rewrite rstrip_idempotent.
Qed.

Lemma is_empty_length s :
  PyStr.is_empty s = false <-> 1 <= String.length s.
Proof. destruct s; cbn; split; intros; try discriminate; lia. Qed.

Lemma validate_brand_name_none srv v :
  validate_brand_name srv v = Done None <->
  exists name,
    v = PStr name /\
    1 <= String.length (PyStr.strip name) <= 50 /\
    str_forall brand_char (PyStr.strip name) = true /\
    is_profane srv (PyStr.strip name) = Done false.
Proof.
  split.
  - destruct v as [| | | |name| |]; try discriminate.
    cbn [validate_brand_name].
    destruct (PyStr.is_empty name); [discriminate|].
    destruct (String.length (PyStr.strip name) <? 1)%nat eqn:E1;
      [discriminate|].
    destruct (50 <? String.length (PyStr.strip name))%nat eqn:E2;
      [discriminate|].
    cbn [orb].
    destruct (str_forall brand_char (PyStr.strip name)) eqn:E3;
      [|discriminate].
    cbn [negb].
    destruct (is_profane srv (PyStr.strip name)) as [[|]|msg] eqn:E4;
      try discriminate.
    intros _. exists name. apply Nat.ltb_ge in E1, E2. repeat split; auto.
  - intros (name & -> & [H1 H2] & H3 & H4).
    cbn [validate_brand_name].
    assert (E0 : PyStr.is_empty name = false).
    { destruct name; [cbn in H1; lia | reflexivity]. }
    rewrite E0.
    apply Nat.ltb_ge in H1, H2. rewrite H1, H2. cbn [orb].
    rewrite H3. cbn [negb]. now rewrite H4.
Qed.

(** X13.  [validate_brand_name] finds no fault exactly in a string
    that, once trimmed, has 1 to 50 characters, each of them a letter,
    a digit, white space or one of [.], [-], [&] and ['], and that
    [is_profane] answers false on. *)
Theorem validate_brand_name_accepts_exactly srv v :
  validate_brand_name srv v = Done None <->
  exists name,
    v = PStr name /\
    1 <= String.length (PyStr.strip name) <= 50 /\
    str_forall brand_char (PyStr.strip name) = true /\
    is_profane srv (PyStr.strip name) = Done false.
Proof. apply validate_brand_name_none. Qed.

Lemma str_lower_app a b : str_lower (a ++ b) = str_lower a ++ str_lower b.
Proof.
  induction a as [|c a IH]; [reflexivity|].
  cbn [append str_lower]. now rewrite IH.
Qed.

(** X14.  When [profanity_check] cannot be imported, a text that
    holds one of the four listed words anywhere inside it, in any mix
    of upper and lower case, is profane. *)
Theorem fallback_filter_finds_embedded_words srv word spelling pre post :
  profanity_predict srv = None ->
  In word profane_words ->
  str_lower spelling = word ->
  is_profane srv (pre ++ spelling ++ post) = Done true.
Proof.
  intros Hp Hin Hs. unfold is_profane. rewrite Hp. f_equal.
  apply existsb_exists. exists word. split; [exact Hin|].
  rewrite !str_lower_app, Hs.
  replace (str_lower word) with word.
  - apply contains_app_mid.
  - cbn in Hin. destruct Hin as [<-|[<-|[<-|[<-|[]]]]]; reflexivity.
Qed.

Lemma fallback_filter_finds_embedded_words_witness :
  is_profane (ViewSample.server "test" None Sample.unreachable)
    "Anti-SPAM Tools"
  = Done true.
Proof.
  apply (fallback_filter_finds_embedded_words
           (ViewSample.server "test" None Sample.unreachable)
           "spam" "SPAM" "Anti-" " Tools");
    [reflexivity | cbn; auto | reflexivity].
Defined.

Lemma option_error_nil label options v :
  option_error label options v = [] ->
  exists s, v = PStr s /\ In s options.
Proof.
  unfold option_error. destruct v as [| | | |s| |]; try discriminate.
  destruct (existsb (String.eqb s) options) eqn:E; [|discriminate].
  intros _. exists s. split; [reflexivity|].
  apply existsb_exists in E as (x & Hx & Ex).
  apply String.eqb_eq in Ex. now subst x.
Qed.

Lemma get_default_not_default k d s options :
  Dict.get_default k (PStr "") d = PStr s ->
  In s options -> ~ In "" options ->
  Dict.get k d = Some (PStr s).
Proof.
  unfold Dict.get_default. intros H Hin Hno.
  destruct (Dict.get k d) as [v|]; [now subst v|].
  injection H as <-. contradiction.
Qed.

Lemma option_error_in label options s :
  In s options -> option_error label options (PStr s) = [].
Proof.
  intros H. unfold option_error.
  replace (existsb (String.eqb s) options) with true; [reflexivity|].
  symmetry. apply existsb_exists. exists s. split; [exact H|].
  apply String.eqb_refl.
Qed.

Lemma validate_form_inputs_sound srv data cleaned :
  validate_form_inputs srv data = Done (inr cleaned) ->
  exists d raw,
    data = PDict d /\
    Dict.get "brand_name" d = Some (PStr raw) /\
    brand_name cleaned = PyStr.strip raw /\
    1 <= String.length (brand_name cleaned) <= 50 /\
    str_forall brand_char (brand_name cleaned) = true /\
    is_profane srv (brand_name cleaned) = Done false /\
    Dict.get "platform" d = Some (PStr (platform cleaned)) /\
    In (platform cleaned) VALID_PLATFORMS /\
    Dict.get "goal" d = Some (PStr (goal cleaned)) /\
    In (goal cleaned) VALID_GOALS /\
    Dict.get "tone" d = Some (PStr (tone cleaned)) /\
    In (tone cleaned) VALID_TONES.
Proof.
  unfold validate_form_inputs.
  destruct data as [| | | | | |d]; try discriminate.
  destruct (py_strip (Dict.get_default "brand_name" (PStr "") d))
    as [brand|msg] eqn:Hs; [|discriminate].
  destruct (validate_brand_name srv (PStr brand)) as [brand_error|msg] eqn:Hv;
    [|discriminate].
  cbv zeta.
  destruct brand_error as [e|].
  { revert Hv. cbn [validate_brand_name].
    destruct (PyStr.is_empty brand);
      [|destruct ((String.length (PyStr.strip brand) <? 1)%nat
                  || (50 <? String.length (PyStr.strip brand))%nat);
        [|destruct (negb (str_forall brand_char (PyStr.strip brand)));
          [|destruct (is_profane srv (PyStr.strip brand)) as [[|]|]]]];
      intros [= <-]; cbn [PyStr.is_empty app]; discriminate. }
  cbn [app].
  destruct (option_error "Platform" VALID_PLATFORMS
              (Dict.get_default "platform" (PStr "") d)) eqn:Ep;
    [|discriminate].
  destruct (option_error "Goal" VALID_GOALS
              (Dict.get_default "goal" (PStr "") d)) eqn:Eg;
    [|discriminate].
  destruct (option_error "Tone" VALID_TONES
              (Dict.get_default "tone" (PStr "") d)) eqn:Et;
    [|discriminate].
  cbn [app]. intros [= <-]. cbn [brand_name platform goal tone].
  apply option_error_nil in Ep as (p & Hp & Hpin).
  apply option_error_nil in Eg as (g & Hg & Hgin).
  apply option_error_nil in Et as (t & Ht & Htin).
  rewrite Hp, Hg, Ht. cbn [text_of].
  apply validate_brand_name_none in Hv
    as (name & [= <-] & Hlen & Hchars & Hprof).
  unfold py_strip in Hs.
  destruct (Dict.get_default "brand_name" (PStr "") d) as [| | | |raw| |] eqn:Hb;
    try discriminate Hs.
  injection Hs as <-. rewrite strip_idempotent in Hlen, Hchars, Hprof.
  exists d, raw. split; [reflexivity|].
  split.
  { unfold Dict.get_default in Hb.
    destruct (Dict.get "brand_name" d) as [v|]; [now subst v|].
    injection Hb as <-. cbn in Hlen. lia. }
  split; [reflexivity|]. split; [exact Hlen|].
  split; [exact Hchars|]. split; [exact Hprof|].
  split; [apply (get_default_not_default _ _ _ VALID_PLATFORMS Hp Hpin);
          cbn; intuition discriminate|].
  split; [exact Hpin|].
  split; [apply (get_default_not_default _ _ _ VALID_GOALS Hg Hgin);
          cbn; intuition discriminate|].
  split; [exact Hgin|].
  split; [apply (get_default_not_default _ _ _ VALID_TONES Ht Htin);
          cbn; intuition discriminate|].
  exact Htin.
Qed.


(** X15.  [validate_form_inputs] returns cleaned data exactly for
    an object whose [brand_name] is a string that is valid once
    trimmed, and whose [platform], [goal] and [tone] are each one of
    the listed options, spelled as listed.  The cleaned brand name is
    the trimmed one; the other three are those of the object. *)
Theorem validate_form_inputs_accepts_exactly srv data cleaned :
  validate_form_inputs srv data = Done (inr cleaned) <->
  exists d raw,
    data = PDict d /\
    Dict.get "brand_name" d = Some (PStr raw) /\
    brand_name cleaned = PyStr.strip raw /\
    1 <= String.length (brand_name cleaned) <= 50 /\
    str_forall brand_char (brand_name cleaned) = true /\
    is_profane srv (brand_name cleaned) = Done false /\
    Dict.get "platform" d = Some (PStr (platform cleaned)) /\
    In (platform cleaned) VALID_PLATFORMS /\
    Dict.get "goal" d = Some (PStr (goal cleaned)) /\
    In (goal cleaned) VALID_GOALS /\
    Dict.get "tone" d = Some (PStr (tone cleaned)) /\
    In (tone cleaned) VALID_TONES.
Proof.
  split; [apply validate_form_inputs_sound|].
  intros (d & raw & -> & Hb & Hbrand & Hlen & Hchars & Hprof
          & Hp & Hpin & Hg & Hgin & Ht & Htin).
  destruct cleaned as [b p g t]. cbn [brand_name platform goal tone] in *.
  subst b. unfold validate_form_inputs, Dict.get_default.
  rewrite Hb, Hp, Hg, Ht. cbn [py_strip].
  replace (validate_brand_name srv (PStr (PyStr.strip raw))) with
    (@Done (option string) None).
  - cbv zeta. rewrite !option_error_in by assumption. reflexivity.
  - symmetry. apply validate_brand_name_none. exists (PyStr.strip raw).
    rewrite strip_idempotent. auto.
Qed.

(* ================================================================== *)
(** * The rate limiter *)
(* ================================================================== *)

Lemma lookup_store_same key entry c :
  Cache.lookup key (Cache.store key entry c) = Some entry.
Proof.
  induction c as [|[k e] c IH]; cbn [Cache.store Cache.lookup].
  - now rewrite String.eqb_refl.
  - destruct (String.eqb key k) eqn:E; cbn [Cache.lookup]; rewrite E;
      [reflexivity | exact IH].
Qed.

Lemma lookup_store_other key key' entry c :
  key <> key' ->
  Cache.lookup key (Cache.store key' entry c) = Cache.lookup key c.
Proof.
  intros Hne. induction c as [|[k e] c IH]; cbn [Cache.store Cache.lookup].
  - apply String.eqb_neq in Hne. now rewrite Hne.
  - destruct (String.eqb key' k) eqn:E; cbn [Cache.lookup].
    + apply String.eqb_eq in E. subst k.
      apply String.eqb_neq in Hne. now rewrite Hne.
    + destruct (String.eqb key k); [reflexivity | exact IH].
Qed.

Lemma has_key_later cache t0 now key :
  Cache.has_key cache t0 key = false -> (t0 <= now)%Z ->
  Cache.has_key cache now key = false.
Proof.
  unfold Cache.has_key.
  destruct (Cache.lookup key cache) as [[v e]|]; [|reflexivity].
  intros H Hle. apply negb_false_iff in H. apply Z.leb_le in H.
  apply negb_false_iff. apply Z.leb_le. lia.
Qed.

Section Limiter.
Variable srv : Server.
Variable req : Http.Request.
Hypothesis Hlive : pytest_loaded (core srv) = false.

Let key := rate_key req.
Let M := max_requests srv.
Let W := window_seconds srv.

(** A counter that is alive at [now]. *)
Lemma check_rate_limit_live now cache k expires :
  Cache.lookup key cache = Some (k, expires) ->
  (now < expires)%Z ->
  check_rate_limit srv now req cache
  = if (M <=? k)%Z
    then ((false,
           Some ("Rate limit exceeded. Maximum " ++ PyStr.of_Z M
                   ++ " requests per " ++ PyStr.of_Z W ++ " seconds.")),
          cache)
    else ((true, None),
          Cache.store key ((k + 1)%Z, (now + W)%Z) cache).
Proof.
  intros Hl Hn. unfold check_rate_limit. rewrite Hlive.
  unfold Cache.get. fold key. rewrite Hl.
  assert (E : (expires <=? now)%Z = false) by (apply Z.leb_gt; lia).
  rewrite E. reflexivity.
Qed.

Lemma check_rate_limit_fresh now cache :
  Cache.has_key cache now key = false ->
  check_rate_limit srv now req cache
  = if (M <=? 0)%Z
    then ((false,
           Some ("Rate limit exceeded. Maximum " ++ PyStr.of_Z M
                   ++ " requests per " ++ PyStr.of_Z W ++ " seconds.")),
          cache)
    else ((true, None), Cache.store key (1%Z, (now + W)%Z) cache).
Proof.
  unfold Cache.has_key. intros H. unfold check_rate_limit. rewrite Hlive.
  unfold Cache.get. fold key.
  destruct (Cache.lookup key cache) as [[v expires]|].
  - apply negb_false_iff in H. rewrite H. reflexivity.
  - reflexivity.
Qed.

Lemma admissions_live t0 times : forall cache k expires,
  Cache.lookup key cache = Some (k, expires) ->
  (t0 + W <= expires)%Z ->
  (forall t, In t times -> (t0 <= t < t0 + W)%Z) ->
  admissions srv req times cache
  = map (fun i => (k + Z.of_nat i <? M)%Z) (seq 0 (List.length times)).
Proof.
  induction times as [|now times IH]; intros cache k expires Hl He Ht;
    [reflexivity|].
  cbn [admissions List.length seq map].
  assert (Hnow : (t0 <= now < t0 + W)%Z) by (apply Ht; now left).
  rewrite (check_rate_limit_live now cache k expires Hl) by lia.
  replace (k + Z.of_nat 0)%Z with k by lia.
  destruct (M <=? k)%Z eqn:E.
  - cbn [fst snd]. f_equal.
    + symmetry. apply Z.ltb_ge. apply Z.leb_le in E. exact E.
    + rewrite (IH cache k expires Hl He) by (intros; apply Ht; now right).
      rewrite <- seq_shift, map_map.
      apply map_ext_in. intros i _.
      apply Z.leb_le in E.
      transitivity false; [|symmetry]; apply Z.ltb_ge; lia.
  - cbn [fst snd]. f_equal.
    + symmetry. apply Z.ltb_lt. apply Z.leb_gt in E. exact E.
    + rewrite (IH _ (k + 1)%Z (now + W)%Z (lookup_store_same _ _ _))
        by (try lia; intros; apply Ht; now right).
      rewrite <- seq_shift, map_map.
      apply map_ext. intros i. f_equal. lia.
Qed.

Lemma admissions_quota t0 times cache :
  Cache.has_key cache t0 key = false ->
  (forall t, In t times -> (t0 <= t < t0 + W)%Z) ->
  admissions srv req times cache
  = map (fun i => (Z.of_nat i <? M)%Z) (seq 0 (List.length times)).
Proof.
  revert cache. induction times as [|now times IH]; intros cache Hc Ht;
    [reflexivity|].
  cbn [admissions List.length seq map].
  assert (Hnow : (t0 <= now < t0 + W)%Z) by (apply Ht; now left).
  assert (Hf : Cache.has_key cache now key = false)
    by (apply (has_key_later cache t0); [exact Hc | lia]).
  rewrite (check_rate_limit_fresh now cache Hf).
  destruct (M <=? 0)%Z eqn:E.
  - cbn [fst snd]. apply Z.leb_le in E. f_equal.
    + symmetry. apply Z.ltb_ge. cbn. exact E.
    + rewrite (IH cache Hc) by (intros; apply Ht; now right).
      rewrite <- seq_shift, map_map.
      apply map_ext. intros i.
      transitivity false; [|symmetry]; apply Z.ltb_ge; lia.
  - cbn [fst snd]. apply Z.leb_gt in E. f_equal.
    + symmetry. apply Z.ltb_lt. cbn. exact E.
    + rewrite (admissions_live t0 times _ 1%Z (now + W)%Z
                 (lookup_store_same _ _ _))
        by (try lia; intros; apply Ht; now right).
      rewrite <- seq_shift, map_map.
      apply map_ext. intros i. f_equal. lia.
Qed.

Lemma admissions_paced_live times : forall cache k previous,
  Cache.lookup key cache = Some (k, (previous + W)%Z) ->
  paced W previous times ->
  (k + Z.of_nat (List.length times) <= M + 1)%Z ->
  admissions srv req times cache
  = map (fun i => (k + Z.of_nat i <? M)%Z) (seq 0 (List.length times)).
Proof.
  induction times as [|now times IH]; intros cache k previous Hl Hp Hn;
    [reflexivity|].
  cbn [admissions List.length seq map].
  destruct Hp as [Hnow Hp].
  rewrite (check_rate_limit_live now cache k _ Hl) by lia.
  replace (k + Z.of_nat 0)%Z with k by lia.
  cbn [List.length] in Hn.
  destruct (M <=? k)%Z eqn:E.
  - apply Z.leb_le in E.
    destruct times as [|t times]; [|cbn [List.length] in Hn; lia].
    cbn [fst snd admissions List.length seq map]. f_equal.
    symmetry. apply Z.ltb_ge. exact E.
  - apply Z.leb_gt in E. cbn [fst snd]. f_equal.
    + symmetry. apply Z.ltb_lt. exact E.
    + rewrite (IH _ (k + 1)%Z now (lookup_store_same _ _ _) Hp) by lia.
      rewrite <- seq_shift, map_map.
      apply map_ext. intros i. f_equal. lia.
Qed.

Lemma admissions_paced t0 times cache :
  Cache.has_key cache t0 key = false ->
  paced W t0 times ->
  (Z.of_nat (List.length times) <= M + 1)%Z ->
  admissions srv req times cache
  = map (fun i => (Z.of_nat i <? M)%Z) (seq 0 (List.length times)).
Proof.
  destruct times as [|now times]; intros Hc Hp Hn; [reflexivity|].
  cbn [admissions List.length seq map].
  destruct Hp as [Hnow Hp]. cbn [List.length] in Hn.
  assert (Hf : Cache.has_key cache now key = false)
    by (apply (has_key_later cache t0); [exact Hc | lia]).
  rewrite (check_rate_limit_fresh now cache Hf).
  destruct (M <=? 0)%Z eqn:E.
  - apply Z.leb_le in E.
    destruct times as [|t times]; [|cbn [List.length] in Hn; lia].
    cbn [fst snd admissions List.length seq map]. f_equal.
    symmetry. apply Z.ltb_ge. cbn. exact E.
  - apply Z.leb_gt in E. cbn [fst snd]. f_equal.
    + symmetry. apply Z.ltb_lt. cbn. exact E.
    + rewrite (admissions_paced_live times _ 1%Z now
                 (lookup_store_same _ _ _) Hp) by lia.
      rewrite <- seq_shift, map_map.
      apply map_ext. intros i. f_equal. lia.
Qed.

End Limiter.

(** X16.  Outside test runs, take a caller with no live counter at
    [t0] and calls that all come at or after [t0] and less than one
    window after it, in any order.  The first
    [RATE_LIMIT_MAX_REQUESTS] of them (10 when not set) are allowed and
    every later one is denied. *)
Theorem fresh_client_passes_max_requests_times srv req t0 times cache :
  pytest_loaded (core srv) = false ->
  Cache.has_key cache t0 (rate_key req) = false ->
  (forall t, In t times -> (t0 <= t < t0 + window_seconds srv)%Z) ->
  admissions srv req times cache
  = map (fun i => (Z.of_nat i <? max_requests srv)%Z)
      (seq 0 (List.length times)).
Proof. intros. now apply admissions_quota with (t0 := t0). Qed.

Lemma fresh_client_passes_max_requests_times_witness :
  admissions (ViewSample.server "test" None Sample.unreachable)
    ViewSample.acme [0; 10; 59; 30]%Z []
  = [true; true; false; false].
Proof.
  apply (fresh_client_passes_max_requests_times
           (ViewSample.server "test" None Sample.unreachable)
           ViewSample.acme 0%Z [0; 10; 59; 30]%Z []).
  - reflexivity.
  - reflexivity.
  - cbn. intros t [<-|[<-|[<-|[<-|[]]]]]; lia.
Defined.

(** X17.  The window restarts at each allowed call.  When each call
    comes less than one window after the call before it, the counter
    never expires in between: the first [RATE_LIMIT_MAX_REQUESTS]
    calls are allowed and the next one is denied, however long after
    the first call it comes. *)
Theorem window_restarts_at_each_admission srv req t0 times cache :
  pytest_loaded (core srv) = false ->
  Cache.has_key cache t0 (rate_key req) = false ->
  paced (window_seconds srv) t0 times ->
  (Z.of_nat (List.length times) <= max_requests srv + 1)%Z ->
  admissions srv req times cache
  = map (fun i => (Z.of_nat i <? max_requests srv)%Z)
      (seq 0 (List.length times)).
Proof. intros. now apply admissions_paced with (t0 := t0). Qed.

Lemma window_restarts_at_each_admission_witness :
  admissions (ViewSample.server "test" None Sample.unreachable)
    ViewSample.acme [0; 59; 118]%Z []
  = [true; true; false].
Proof.
  apply (window_restarts_at_each_admission
           (ViewSample.server "test" None Sample.unreachable)
           ViewSample.acme 0%Z [0; 59; 118]%Z []).
  - reflexivity.
  - reflexivity.
  - cbn. lia.
  - cbn. lia.
Defined.

Lemma check_rate_limit_other_key srv now req cache key :
  key <> rate_key req ->
  Cache.lookup key (snd (check_rate_limit srv now req cache))
  = Cache.lookup key cache.
Proof.
  intros Hne. unfold check_rate_limit.
  destruct (pytest_loaded (core srv)); [reflexivity|].
  destruct (max_requests srv <=? _)%Z; [reflexivity|].
  cbn [snd]. unfold Cache.set. now apply lookup_store_other.
Qed.

Lemma check_rate_limit_reads_own_key srv now req cache cache' :
  Cache.lookup (rate_key req) cache' = Cache.lookup (rate_key req) cache ->
  fst (check_rate_limit srv now req cache')
  = fst (check_rate_limit srv now req cache).
Proof.
  intros H. unfold check_rate_limit.
  destruct (pytest_loaded (core srv)); [reflexivity|].
  unfold Cache.get. rewrite H.
  destruct (max_requests srv <=? _)%Z; reflexivity.
Qed.

(** X18.  Callers are counted apart: a call counted under another
    cache key changes nothing in the verdict for this caller. *)
Theorem clients_are_counted_apart srv t1 t2 other req cache :
  rate_key other <> rate_key req ->
  fst (check_rate_limit srv t2 req (snd (check_rate_limit srv t1 other cache)))
  = fst (check_rate_limit srv t2 req cache).
Proof.
  intros Hne. apply check_rate_limit_reads_own_key.
  apply check_rate_limit_other_key. congruence.
Qed.

Lemma clients_are_counted_apart_witness :
  let srv := ViewSample.server "test" None Sample.unreachable in
  let other := ViewSample.post "{}" (Some "203.0.113.7") in
  fst (check_rate_limit srv 5 ViewSample.acme
         (snd (check_rate_limit srv 1 other [])))
  = fst (check_rate_limit srv 5 ViewSample.acme []).
Proof.
  cbv zeta. apply clients_are_counted_apart. vm_compute. discriminate.
Defined.

Lemma before_comma_app ip rest :
  PyStr.contains "," ip = false ->
  before_comma (ip ++ "," ++ rest) = ip.
Proof.
  induction ip as [|c ip IH]; intros H; [reflexivity|].
  apply contains_head_false in H as [Hc Hip].
  cbn [append before_comma].
  rewrite Ascii.eqb_sym, Hc. f_equal. now apply IH.
Qed.

Lemma before_comma_none ip :
  PyStr.contains "," ip = false -> before_comma ip = ip.
Proof.
  induction ip as [|c ip IH]; intros H; [reflexivity|].
  apply contains_head_false in H as [Hc Hip].
  cbn [before_comma]. rewrite Ascii.eqb_sym, Hc. f_equal. now apply IH.
Qed.

(** X19.  When the [X-Forwarded-For] header is not empty, the
    caller is counted under the text ahead of its first comma, or
    under the whole header when it has no comma, whatever
    [REMOTE_ADDR] is. *)
Theorem forwarded_header_names_the_client req ip tail :
  Http.HTTP_X_FORWARDED_FOR req = Some (ip ++ tail) ->
  ip ++ tail <> "" ->
  PyStr.contains "," ip = false ->
  tail = "" \/ PyStr.has_prefix "," tail = true ->
  rate_key req = "rate_limit_" ++ ip.
Proof.
  intros Hx Hne Hc Ht. unfold rate_key, client_ip. rewrite Hx.
  destruct (ip ++ tail) eqn:E; [congruence|].
  cbn [PyStr.is_empty]. rewrite <- E. f_equal.
  destruct Ht as [->|Ht].
  - rewrite app_nil_r_s. now apply before_comma_none.
  - apply has_prefix_inv in Ht as [rest ->]. now apply before_comma_app.
Qed.

Lemma forwarded_header_names_the_client_witness :
  rate_key (ViewSample.post "{}" (Some "203.0.113.7, 10.0.0.1"))
  = "rate_limit_203.0.113.7".
Proof.
  apply (forwarded_header_names_the_client
           (ViewSample.post "{}" (Some "203.0.113.7, 10.0.0.1"))
           "203.0.113.7" ", 10.0.0.1").
  - reflexivity.
  - discriminate.
  - reflexivity.
  - right. reflexivity.
Defined.

(* ================================================================== *)
(** * The endpoint [generate_brief] *)
(* ================================================================== *)

Lemma check_rate_limit_verdict srv now req cache :
  (exists cache', check_rate_limit srv now req cache = ((true, None), cache'))
  \/ (exists msg, check_rate_limit srv now req cache = ((false, Some msg), cache)).
Proof.
  unfold check_rate_limit.
  destruct (pytest_loaded (core srv)); [left; eauto|].
  destruct (max_requests srv <=? _)%Z; [right | left]; eauto.
Qed.

Lemma success_payload_flags srv r :
  Dict.get "success" (success_payload srv r) = Some (PBool true) /\
  Dict.get "error" (success_payload srv r) = None.
Proof.
  unfold success_payload. destruct (raw_response r); split; reflexivity.
Qed.

(** The request got past the method check, the decoder, the limiter,
    validation and the reading of the token. *)
Lemma generate_brief_accepted srv now req cache sent data cache' cleaned
  api_token :
  Http.method req = "POST" ->
  Json.loads (Http.body req) = Return data ->
  check_rate_limit srv now req cache = ((true, None), cache') ->
  validate_form_inputs srv data = Done (inr cleaned) ->
  api_token_of data = Done api_token ->
  generate_brief srv now req cache sent
  = match generate_campaign_brief (core srv) (brand_name cleaned)
            (platform cleaned) (goal cleaned) (tone cleaned) api_token sent
    with
    | (Return result, sent') =>
        (Http.JsonResponse (success_payload srv result) 200, cache', sent')
    | (Raise e, sent') =>
        (failure_response srv "AI generation failed: " (exn_str e),
         cache', sent')
    end.
Proof.
  intros Hm Hl Hr Hv Ht. unfold generate_brief.
  rewrite Hm, Hl, Hr, Hv, Ht. reflexivity.
Qed.

(** X20.  The answers of [generate_brief].  A request that is not a
    POST gets the 405 of [require_http_methods].  A POST gets a JSON
    answer of status 200, 400, 429 or 500, whose [success] is true
    exactly for status 200; it has no [error] for status 200 and a
    string under [error] for the other three. *)
Theorem generate_brief_status_and_success srv now req cache sent :
  match fst (fst (generate_brief srv now req cache sent)) with
  | Http.JsonResponse payload status =>
      Http.method req = "POST" /\
      In status [200; 400; 429; 500] /\
      Dict.get "success" payload = Some (PBool (status =? 200)%nat) /\
      (status = 200 -> Dict.get "error" payload = None) /\
      (status <> 200 -> exists msg, Dict.get "error" payload = Some (PStr msg))
  | Http.HttpResponseNotAllowed permitted =>
      Http.method req <> "POST" /\ permitted = ["POST"]
  | Http.HttpResponseForbidden _ => False
  end.
Proof.
  set (P := fun resp : Http.Response =>
              match resp with
              | Http.JsonResponse payload status =>
                  Http.method req = "POST" /\
                  In status [200; 400; 429; 500] /\
                  Dict.get "success" payload
                  = Some (PBool (status =? 200)%nat) /\
                  (status = 200 -> Dict.get "error" payload = None) /\
                  (status <> 200 ->
                   exists msg, Dict.get "error" payload = Some (PStr msg))
              | Http.HttpResponseNotAllowed permitted =>
                  Http.method req <> "POST" /\ permitted = ["POST"]
              | Http.HttpResponseForbidden _ => False
              end).
  change (P (fst (fst (generate_brief srv now req cache sent)))).
  unfold generate_brief.
  destruct (String.eqb (Http.method req) "POST") eqn:Em; cbn [negb].
  2:{ cbn [fst]. apply String.eqb_neq in Em. now split. }
  apply String.eqb_eq in Em.
  assert (Herr : forall payload status,
             In status [400; 429; 500] ->
             Dict.get "success" payload = Some (PBool false) ->
             (exists msg, Dict.get "error" payload = Some (PStr msg)) ->
             P (Http.JsonResponse payload status)).
  { intros payload status Hin Hs He. unfold P.
    split; [exact Em|]. split; [cbn in *; intuition|].
    assert (status <> 200) by (cbn in Hin; intuition lia).
    split; [|split; [contradiction | intros _; exact He]].
    rewrite Hs. apply Nat.eqb_neq in H. now rewrite H. }
  assert (Hfail : forall label msg, P (failure_response srv label msg)).
  { intros label msg. apply Herr; [cbn; auto | reflexivity | eexists; reflexivity]. }
  destruct (Json.loads (Http.body req)) as [data|e].
  2:{ destruct e; cbn [fst]; try apply Hfail.
      apply Herr; [cbn; auto | reflexivity | eexists; reflexivity]. }
  destruct (check_rate_limit_verdict srv now req cache)
    as [[cache' ->]|[msg ->]]; cbn [negb].
  2:{ cbn [fst].
      apply Herr; [cbn; auto | reflexivity | eexists; reflexivity]. }
  destruct (validate_form_inputs srv data) as [[verr|cleaned]|msg];
    [| |apply Hfail].
  { cbn [fst].
    apply Herr; [cbn; auto | reflexivity | eexists; reflexivity]. }
  destruct (api_token_of data) as [api_token|msg]; [|apply Hfail].
  destruct (generate_campaign_brief _ _ _ _ _ _ _) as [[r|e] sent'];
    [|apply Hfail].
  cbn [fst]. destruct (success_payload_flags srv r) as [Hs He].
  split; [exact Em|]. split; [cbn; auto|]. split; [exact Hs|].
  split; [intros _; exact He | congruence].
Qed.

Lemma generate_brief_status_and_success_witness :
  match fst (fst (generate_brief
                    (ViewSample.server "test" None Sample.unreachable) 0
                    (ViewSample.post "{" None) [] [])) with
  | Http.JsonResponse payload status =>
      status = 400 /\ Dict.get "success" payload = Some (PBool false)
  | _ => False
  end.
Proof.
  pose proof (generate_brief_status_and_success
                (ViewSample.server "test" None Sample.unreachable) 0
                (ViewSample.post "{" None) [] []) as H.
  destruct (fst (fst (generate_brief _ _ _ _ _))) as [payload status| |] eqn:E.
  - assert (Hs : status = 400) by (vm_compute in E; congruence).
    split; [exact Hs|]. destruct H as (_ & _ & H & _).
    rewrite H, Hs. reflexivity.
  - vm_compute in E. discriminate E.
  - vm_compute in E. discriminate E.
Defined.

(** X21.  Nothing goes to a provider unless the request is a POST
    whose body decoded, which the limiter allowed and validation
    accepted, and whose token could be read; what is sent then is what
    [generate_campaign_brief] sends for the cleaned fields. *)
Theorem generate_brief_reaches_provider_only_when_valid srv now req cache
  sent :
  snd (generate_brief srv now req cache sent) <> sent ->
  exists data cleaned api_token cache',
    Http.method req = "POST" /\
    Json.loads (Http.body req) = Return data /\
    check_rate_limit srv now req cache = ((true, None), cache') /\
    validate_form_inputs srv data = Done (inr cleaned) /\
    api_token_of data = Done api_token /\
    snd (generate_brief srv now req cache sent)
    = snd (generate_campaign_brief (core srv) (brand_name cleaned)
             (platform cleaned) (goal cleaned) (tone cleaned) api_token sent).
Proof.
  unfold generate_brief.
  destruct (String.eqb (Http.method req) "POST") eqn:Em; cbn [negb];
    [|cbn [snd]; congruence].
  apply String.eqb_eq in Em.
  destruct (Json.loads (Http.body req)) as [data|e] eqn:Hl;
    [|destruct e; cbn [snd]; congruence].
  destruct (check_rate_limit_verdict srv now req cache)
    as [[cache' Hr]|[msg Hr]]; rewrite Hr; cbn [negb];
    [|cbn [snd]; congruence].
  destruct (validate_form_inputs srv data) as [[verr|cleaned]|msg] eqn:Hv;
    [cbn [snd]; congruence| |cbn [snd]; congruence].
  destruct (api_token_of data) as [api_token|msg] eqn:Ht;
    [|cbn [snd]; congruence].
  intros _. exists data, cleaned, api_token, cache'.
  repeat (split; [reflexivity || assumption|]).
  destruct (generate_campaign_brief _ _ _ _ _ _ _) as [[r|e] sent'];
    reflexivity.
Qed.

Lemma generate_brief_reaches_provider_only_when_valid_witness :
  let srv := ViewSample.server "ollama" None Sample.unreachable in
  exists data cleaned,
    Json.loads (Http.body ViewSample.acme) = Return data /\
    validate_form_inputs srv data = Done (inr cleaned).
Proof.
  cbv zeta.
  destruct (generate_brief_reaches_provider_only_when_valid
              (ViewSample.server "ollama" None Sample.unreachable) 0
              ViewSample.acme [] [])
    as (data & cleaned & _ & _ & _ & Hl & _ & Hv & _).
  - vm_compute. discriminate.
  - exists data, cleaned. split; assumption.
Defined.

(** X22.  What counts against the quota.  Every POST whose body
    decodes is taken to the limiter and leaves the cache as the limiter
    left it, also when validation rejects it afterwards.  A request of
    another method, or one whose body does not decode, leaves the cache
    as it was. *)
Theorem generate_brief_counts_decoded_requests srv now req cache sent :
  let cache' := snd (fst (generate_brief srv now req cache sent)) in
  (Http.method req = "POST" ->
   forall data,
     Json.loads (Http.body req) = Return data ->
     cache' = snd (check_rate_limit srv now req cache)) /\
  (Http.method req <> "POST" -> cache' = cache) /\
  (forall e, Json.loads (Http.body req) = Raise e -> cache' = cache).
Proof.
  cbv zeta. unfold generate_brief. repeat split.
  - intros Hm data Hl. rewrite Hm, Hl. cbn [String.eqb Ascii.eqb Bool.eqb negb].
    destruct (check_rate_limit_verdict srv now req cache)
      as [[cache' Hr]|[msg Hr]]; rewrite Hr; cbn [negb snd]; [|reflexivity].
    destruct (validate_form_inputs srv data) as [[verr|cleaned]|msg];
      try reflexivity.
    destruct (api_token_of data) as [api_token|msg]; [|reflexivity].
    destruct (generate_campaign_brief _ _ _ _ _ _ _) as [[r|e] sent'];
      reflexivity.
  - intros Hm. apply String.eqb_neq in Hm. rewrite Hm. reflexivity.
  - intros e Hl. rewrite Hl.
    destruct (String.eqb (Http.method req) "POST"); cbn [negb];
      [|reflexivity].
    destruct e; reflexivity.
Qed.

Lemma generate_brief_counts_decoded_requests_witness :
  let srv := ViewSample.server "test" None Sample.unreachable in
  let req := ViewSample.post (Json.dumps None (ViewSample.form PNone)) None in
  snd (fst (generate_brief srv 0 req [] []))
  = [("rate_limit_10.0.0.1", (1, 60)%Z)].
Proof.
  cbv zeta.
  rewrite (proj1 (generate_brief_counts_decoded_requests
                    (ViewSample.server "test" None Sample.unreachable) 0
                    (ViewSample.post
                       (Json.dumps None (ViewSample.form PNone)) None)
                    [] [])
             eq_refl (ViewSample.form PNone) eq_refl).
  reflexivity.
Defined.

(** X23.  When the text of a real provider is rejected by
    [parse_json_response] with a [ValueError], the endpoint answers
    with status 200 and [success] true at the top level, while
    [metrics.success] is false.  The answer carries the message under
    [metrics.parse_error], the provider's text under [raw_response],
    the brief that quotes the message, and [metrics.request_duration]. *)
Theorem invalid_model_output_is_served_as_200 srv now req cache sent data
  cache' cleaned api_token text m sent' msg :
  Http.method req = "POST" ->
  Json.loads (Http.body req) = Return data ->
  check_rate_limit srv now req cache = ((true, None), cache') ->
  validate_form_inputs srv data = Done (inr cleaned) ->
  api_token_of data = Done api_token ->
  resolve_provider (core srv) <> "test" ->
  call_provider (core srv) (resolve_provider (core srv)) build_system_prompt
    (build_user_prompt (brand_name cleaned) (platform cleaned) (goal cleaned)
       (tone cleaned)) api_token sent
  = (Return (text, m), sent') ->
  parse_json_response text = Raise (ValueError msg) ->
  exists payload metrics,
    generate_brief srv now req cache sent
    = (Http.JsonResponse payload 200, cache', sent') /\
    Dict.get "success" payload = Some (PBool true) /\
    Dict.get "brief" payload
    = Some (PStr ("Error generating brief for " ++ brand_name cleaned ++ ": "
                    ++ msg)) /\
    Dict.get "raw_response" payload = Some (PStr text) /\
    Dict.get "metrics" payload = Some (PDict metrics) /\
    Dict.get "success" metrics = Some (PBool false) /\
    Dict.get "parse_error" metrics = Some (PStr msg) /\
    Dict.get "request_duration" metrics
    = Some (PFloat (request_duration srv)).
Proof.
  intros Hm Hl Hr Hv Ht Hp Hc He.
  rewrite (generate_brief_accepted _ _ _ _ _ _ _ _ _ Hm Hl Hr Hv Ht).
  rewrite (value_error_is_absorbed _ _ _ _ _ _ _ _ _ _ _ Hp Hc He eq_refl).
  eexists. eexists. split; [reflexivity|].
  cbn [success_payload degraded_result brief angles criteria metrics
         raw_response app exn_str].
  split; [reflexivity|]. split; [reflexivity|]. split; [reflexivity|].
  split; [reflexivity|].
  split.
  { rewrite dict_get_set_other by discriminate.
    apply failure_metrics_success. }
  split.
  { rewrite dict_get_set_other by discriminate.
    apply (failure_metrics_parse_error m (ValueError msg)). }
  apply dict_get_set_same.
Qed.

Lemma invalid_model_output_is_served_as_200_witness :
  let srv := ViewSample.server "ollama" None (Sample.replying "no JSON here") in
  exists payload cache' sent',
    generate_brief srv 0 ViewSample.acme [] []
    = (Http.JsonResponse payload 200, cache', sent') /\
    Dict.get "success" payload = Some (PBool true) /\
    Dict.get "raw_response" payload = Some (PStr "no JSON here").
Proof.
  cbv zeta.
  edestruct (invalid_model_output_is_served_as_200
               (ViewSample.server "ollama" None
                  (Sample.replying "no JSON here"))
               0 ViewSample.acme [] [])
    as (payload & metrics & H & Hs & _ & Hr & _).
  - reflexivity.
  - vm_compute. reflexivity.
  - reflexivity.
  - vm_compute. reflexivity.
  - reflexivity.
  - discriminate.
  - vm_compute. reflexivity.
  - vm_compute. reflexivity.
  - exists payload. eexists. eexists.
    split; [exact H|]. split; [exact Hs | exact Hr].
Defined.

(** X24.  With the hosted provider selected, no usable [api_token]
    in the body and no configured key, a request that passed the
    limiter and validation is answered with status 500 and the error
    "AI generation failed: OpenAI API key not configured"; nothing is
    sent. *)
Theorem missing_credential_is_served_as_500 srv now req cache sent data
  cache' cleaned :
  Http.method req = "POST" ->
  Json.loads (Http.body req) = Return data ->
  check_rate_limit srv now req cache = ((true, None), cache') ->
  validate_form_inputs srv data = Done (inr cleaned) ->
  api_token_of data = Done None ->
  resolve_provider (core srv) = "openai" ->
  truthy (AI_PROVIDER_API_KEY (settings (core srv))) = false ->
  generate_brief srv now req cache sent
  = (Http.JsonResponse
       [ ("error",
          PStr "AI generation failed: OpenAI API key not configured")
       ; ("success", PBool false)
       ; ("metrics",
          PDict [ ("request_duration", PFloat (request_duration srv))
                ; ("error", PStr "OpenAI API key not configured") ]) ]
       500,
     cache', sent).
Proof.
  intros Hm Hl Hr Hv Ht Hp Hk.
  rewrite (generate_brief_accepted _ _ _ _ _ _ _ _ _ Hm Hl Hr Hv Ht).
  assert (Hne : resolve_provider (core srv) <> "test")
    by (rewrite Hp; discriminate).
  rewrite (adapter_exception_propagates (core srv) _ _ _ _ None sent
             (ValueError "OpenAI API key not configured") sent Hne).
  - reflexivity.
  - rewrite Hp. unfold call_provider. cbn [String.eqb Ascii.eqb Bool.eqb].
    now apply call_openai_api_without_credential.
Qed.

Lemma missing_credential_is_served_as_500_witness :
  let srv := ViewSample.server "openai" None Sample.unreachable in
  Http.status_code (fst (fst (generate_brief srv 0 ViewSample.acme [] [])))
  = 500 /\
  snd (generate_brief srv 0 ViewSample.acme [] []) = [].
Proof.
  cbv zeta.
  erewrite (missing_credential_is_served_as_500
              (ViewSample.server "openai" None Sample.unreachable) 0
              ViewSample.acme [] []).
  - split; reflexivity.
  - reflexivity.
  - vm_compute. reflexivity.
  - reflexivity.
  - vm_compute. reflexivity.
  - reflexivity.
  - reflexivity.
  - reflexivity.
Defined.

(** X25.  Fields of the wrong type end in a 500, after the limiter
    counted the request.  A body that decodes to something other than
    an object, and an object whose [brand_name] is no string, make the
    method lookup fail and are answered with "Server error: " and the
    message of the [AttributeError]; an [api_token] that is true and no
    string does the same behind "AI generation failed: ".  Nothing is
    sent in any of these cases. *)
Theorem ill_typed_fields_are_served_as_500 srv now req cache sent data
  cache' :
  Http.method req = "POST" ->
  Json.loads (Http.body req) = Return data ->
  check_rate_limit srv now req cache = ((true, None), cache') ->
  (match data with PDict _ => False | _ => True end ->
   generate_brief srv now req cache sent
   = (failure_response srv "Server error: " (no_attribute data "get"),
      cache', sent)) /\
  (forall d v,
      data = PDict d -> Dict.get "brand_name" d = Some v -> is_str v = false ->
      generate_brief srv now req cache sent
      = (failure_response srv "Server error: " (no_attribute v "strip"),
         cache', sent)) /\
  (forall d v cleaned,
      data = PDict d -> validate_form_inputs srv data = Done (inr cleaned) ->
      Dict.get "api_token" d = Some v -> is_str v = false ->
      py_truthy v = true ->
      generate_brief srv now req cache sent
      = (failure_response srv "AI generation failed: "
           (no_attribute v "strip"),
         cache', sent)).
Proof.
  intros Hm Hl Hr. unfold generate_brief. rewrite Hm, Hl, Hr.
  cbn [String.eqb Ascii.eqb Bool.eqb negb].
  repeat split.
  - intros Hd. destruct data; try contradiction; reflexivity.
  - intros d v -> Hb Hs. unfold validate_form_inputs, Dict.get_default.
    rewrite Hb. destruct v; try discriminate Hs; reflexivity.
  - intros d v cleaned -> Hv Ha Hs Ht. rewrite Hv.
    unfold api_token_of, data_get, Dict.get_default. rewrite Ha, Ht.
    destruct v; try discriminate Hs; reflexivity.
Qed.

Lemma ill_typed_fields_are_served_as_500_witness :
  let srv := ViewSample.server "test" None Sample.unreachable in
  generate_brief srv 0 (ViewSample.post "[]" None) [] []
  = (failure_response srv "Server error: "
       "'list' object has no attribute 'get'",
     [("rate_limit_10.0.0.1", (1, 60)%Z)], []).
Proof.
  cbv zeta.
  refine (proj1 (ill_typed_fields_are_served_as_500
                   (ViewSample.server "test" None Sample.unreachable) 0
                   (ViewSample.post "[]" None) [] [] (PList [])
                   [("rate_limit_10.0.0.1", (1, 60)%Z)] _ _ _) _);
    try reflexivity; exact I.
Defined.

Lemma api_token_of_string d token :
  Dict.get "api_token" d = Some (PStr token) ->
  api_token_of (PDict d)
  = Done (if PyStr.is_empty (PyStr.strip token) then None
          else Some (PyStr.strip token)).
Proof.
  intros H. unfold api_token_of, data_get, Dict.get_default. rewrite H.
  cbn [py_truthy]. destruct token; reflexivity.
Qed.

(** X26.  The [api_token] of the body is trimmed and goes before
    the configured key: with the hosted provider, an accepted request
    whose token is not blank sends that token, trimmed, as the key; one
    whose token is blank sends the configured key. *)
Theorem body_token_is_trimmed_and_preferred srv now req cache sent d cache'
  cleaned token :
  Http.method req = "POST" ->
  Json.loads (Http.body req) = Return (PDict d) ->
  check_rate_limit srv now req cache = ((true, None), cache') ->
  validate_form_inputs srv (PDict d) = Done (inr cleaned) ->
  resolve_provider (core srv) = "openai" ->
  Dict.get "api_token" d = Some (PStr token) ->
  let prompt := build_user_prompt (brand_name cleaned) (platform cleaned)
                  (goal cleaned) (tone cleaned) in
  (PyStr.strip token <> "" ->
   snd (generate_brief srv now req cache sent)
   = (sent ++ [OpenAIInvoke (openai_model (core srv)) (PyStr.strip token)
                 build_system_prompt prompt])%list) /\
  (PyStr.strip token = "" ->
   forall key,
     AI_PROVIDER_API_KEY (settings (core srv)) = Some key -> key <> "" ->
     snd (generate_brief srv now req cache sent)
     = (sent ++ [OpenAIInvoke (openai_model (core srv)) key
                   build_system_prompt prompt])%list).
Proof.
  intros Hm Hl Hr Hv Hp Ha prompt.
  pose proof (api_token_of_string d token Ha) as Ht.
  rewrite (generate_brief_accepted _ _ _ _ _ _ _ _ _ Hm Hl Hr Hv Ht).
  assert (Hsnd : forall tok,
             snd (match generate_campaign_brief (core srv) (brand_name cleaned)
                          (platform cleaned) (goal cleaned) (tone cleaned)
                          tok sent with
                  | (Return result, sent') =>
                      (Http.JsonResponse (success_payload srv result) 200,
                       cache', sent')
                  | (Raise e, sent') =>
                      (failure_response srv "AI generation failed: "
                         (exn_str e), cache', sent')
                  end)
             = snd (generate_campaign_brief (core srv) (brand_name cleaned)
                      (platform cleaned) (goal cleaned) (tone cleaned)
                      tok sent)).
  { intros tok.
    destruct (generate_campaign_brief _ _ _ _ _ _ _) as [[r|e] s];
      reflexivity. }
  rewrite Hsnd. split.
  - intros Hne.
    destruct (PyStr.strip token) as [|c t] eqn:E; [congruence|].
    cbn [PyStr.is_empty].
    apply openai_request_sent; [exact Hp | reflexivity | discriminate].
  - intros Hne key Hk Hkne. rewrite Hne. cbn [PyStr.is_empty].
    apply openai_request_sent; [exact Hp | | exact Hkne].
    unfold py_or. cbn [truthy]. exact Hk.
Qed.

Lemma body_token_is_trimmed_and_preferred_witness :
  let srv := ViewSample.server "openai" (Some "sk-configured")
               Sample.unreachable in
  let req := ViewSample.post
               (Json.dumps None (ViewSample.with_token (PStr " sk-call ")))
               None in
  snd (generate_brief srv 0 req [] [])
  = [OpenAIInvoke "gpt-4o-mini" "sk-call" build_system_prompt
       (build_user_prompt "Acme" "UGC" "Conversions" "Friendly")].
Proof.
  cbv zeta.
  refine (proj1 (body_token_is_trimmed_and_preferred
                   (ViewSample.server "openai" (Some "sk-configured")
                      Sample.unreachable)
                   0
                   (ViewSample.post
                      (Json.dumps None
                         (ViewSample.with_token (PStr " sk-call ")))
                      None)
                   [] []
                   [ ("brand_name", PStr "Acme"); ("platform", PStr "UGC")
                   ; ("goal", PStr "Conversions"); ("tone", PStr "Friendly")
                   ; ("api_token", PStr " sk-call ") ]
                   [("rate_limit_10.0.0.1", (1, 60)%Z)]
                   {| brand_name := "Acme"; platform := "UGC";
                      goal := "Conversions"; tone := "Friendly" |}
                   " sk-call " _ _ _ _ _ _) _);
    try (vm_compute; reflexivity).
  vm_compute. discriminate.
Defined.

(* ================================================================== *)
(** * The provider switch and the health check *)
(* ================================================================== *)

(** X27.  Without [DEBUG], [set_provider] changes nothing, whatever
    the body: a POST is answered with 403, any other method with 405,
    and the settings and the cache stay as they were. *)
Theorem set_provider_needs_debug srv req cache :
  DEBUG srv = false ->
  exists resp,
    set_provider srv req cache = Some (Done (resp, settings (core srv), cache))
    /\ (Http.method req = "POST" ->
        resp = Http.HttpResponseForbidden
                 "Provider override available only in debug mode"
        /\ Http.status_code resp = 403)
    /\ (Http.method req <> "POST" ->
        resp = Http.HttpResponseNotAllowed ["POST"]
        /\ Http.status_code resp = 405).
Proof.
  intros Hd. unfold set_provider.
  destruct (String.eqb (Http.method req) "POST") eqn:Em; cbn [negb].
  - rewrite Hd. cbn [negb]. apply String.eqb_eq in Em.
    eexists. split; [reflexivity|]. split; [now split | congruence].
  - apply String.eqb_neq in Em.
    eexists. split; [reflexivity|]. split; [congruence | now split].
Qed.

Lemma set_provider_needs_debug_witness :
  set_provider (ViewSample.production "openai" (Some "sk-configured"))
    (ViewSample.switch_to "test") []
  = Some (Done (Http.HttpResponseForbidden
                  "Provider override available only in debug mode",
                Sample.configuration "openai" (Some "sk-configured"), [])).
Proof.
  destruct (set_provider_needs_debug
              (ViewSample.production "openai" (Some "sk-configured"))
              (ViewSample.switch_to "test") [] eq_refl)
    as (resp & H & Hpost & _).
  destruct (Hpost eq_refl) as [-> _]. exact H.
Defined.

(** Every way [set_provider] has to answer. *)
Lemma set_provider_cases srv req cache resp s' c' :
  set_provider srv req cache = Some (Done (resp, s', c')) ->
  (Http.status_code resp <> 200 /\ s' = settings (core srv) /\ c' = cache)
  \/ (exists provider api_key d,
        Http.method req = "POST" /\ DEBUG srv = true /\
        Json.loads (if PyStr.is_empty (Http.body req) then "{}"
                    else Http.body req) = Return (PDict d) /\
        Dict.get "provider" d = Some (PStr provider) /\
        In provider valid_providers /\
        (provider = "openai" ->
         api_key_of (Dict.get_default "api_key" PNone d) = Some api_key) /\
        (provider <> "openai" -> api_key = None) /\
        resp = Http.JsonResponse [ ("success", PBool true)
                                 ; ("provider", PStr provider) ] 200 /\
        s' = switch_provider (settings (core srv)) provider api_key /\
        c' = Cache.clear).
Proof.
  unfold set_provider.
  destruct (String.eqb (Http.method req) "POST") eqn:Em; cbn [negb].
  2:{ intros [= <- <- <-]. left. cbn. repeat split. discriminate. }
  apply String.eqb_eq in Em.
  destruct (DEBUG srv) eqn:Hd; cbn [negb].
  2:{ intros [= <- <- <-]. left. cbn. repeat split. discriminate. }
  destruct (Json.loads _) as [data|e] eqn:Hl.
  2:{ destruct e; try discriminate.
      intros [= <- <- <-]. left. cbn. repeat split. discriminate. }
  destruct data as [| | | | | |d]; try discriminate.
  cbn [data_get]. unfold Dict.get_default at 1.
  destruct (Dict.get "provider" d) as [v|] eqn:Hp.
  2:{ intros [= <- <- <-]. left. cbn. repeat split. discriminate. }
  destruct v as [| | | |provider| |]; try discriminate;
    try (intros [= <- <- <-]; left; cbn; repeat split; discriminate).
  destruct (existsb (String.eqb provider) valid_providers) eqn:Ev.
  2:{ intros [= <- <- <-]. left. cbn. repeat split. discriminate. }
  assert (Hin : In provider valid_providers).
  { apply existsb_exists in Ev as (x & Hx & Ex).
    apply String.eqb_eq in Ex. now subst x. }
  destruct (String.eqb provider "openai") eqn:Eo.
  - apply String.eqb_eq in Eo.
    destruct (api_key_of (Dict.get_default "api_key" PNone d))
      as [api_key|] eqn:Hk; [|discriminate].
    intros [= <- <- <-]. right. exists provider, api_key, d.
    repeat split; auto. intros; contradiction.
  - apply String.eqb_neq in Eo.
    intros [= <- <- <-]. right. exists provider, None, d.
    repeat split; auto. intros; contradiction.
Qed.

(** X28.  [set_provider] changes the settings and the cache only
    when it answers 200.  Then [DEBUG] is on, the new provider is one
    of the three valid ones and is the one reported, the cache is
    empty, the key is the empty string unless the new provider is the
    hosted one, and the other settings are as they were. *)
Theorem set_provider_changes_state_only_on_200 srv req cache resp s' c' :
  set_provider srv req cache = Some (Done (resp, s', c')) ->
  (Http.status_code resp <> 200 -> s' = settings (core srv) /\ c' = cache) /\
  (Http.status_code resp = 200 ->
   DEBUG srv = true /\
   In (AI_PROVIDER s') valid_providers /\
   resp = Http.JsonResponse [ ("success", PBool true)
                            ; ("provider", PStr (AI_PROVIDER s')) ] 200 /\
   c' = Cache.clear /\
   (AI_PROVIDER s' <> "openai" -> AI_PROVIDER_API_KEY s' = Some "") /\
   OLLAMA_BASE_URL s' = OLLAMA_BASE_URL (settings (core srv)) /\
   OLLAMA_MODEL s' = OLLAMA_MODEL (settings (core srv)) /\
   OPENAI_MODEL s' = OPENAI_MODEL (settings (core srv))).
Proof.
  intros H. apply set_provider_cases in H
    as [(Hs & -> & ->)
       |(provider & api_key & d & Hm & Hd & Hl & Hp & Hin & Hk & Hn
         & -> & -> & ->)].
  - split; [auto | contradiction].
  - split; [cbn; congruence|]. intros _.
    cbn [switch_provider AI_PROVIDER AI_PROVIDER_API_KEY OLLAMA_BASE_URL
           OLLAMA_MODEL OPENAI_MODEL].
    repeat split; auto.
    intros Hne. apply String.eqb_neq in Hne. now rewrite Hne.
Qed.

Lemma set_provider_changes_state_only_on_200_witness :
  exists resp s' c',
    set_provider (ViewSample.server "openai" (Some "sk-configured")
                    Sample.unreachable)
      (ViewSample.switch_to "ollama")
      [("rate_limit_10.0.0.1", (2, 60)%Z)]
    = Some (Done (resp, s', c')) /\
    AI_PROVIDER s' = "ollama" /\ AI_PROVIDER_API_KEY s' = Some "" /\ c' = [].
Proof.
  eexists. eexists. eexists. split; [vm_compute; reflexivity|].
  match goal with
  | |- AI_PROVIDER ?s = _ /\ _ /\ ?c = _ =>
      destruct (proj2 (set_provider_changes_state_only_on_200
                         (ViewSample.server "openai" (Some "sk-configured")
                            Sample.unreachable)
                         (ViewSample.switch_to "ollama")
                         [("rate_limit_10.0.0.1", (2, 60)%Z)]
                         (Http.JsonResponse
                            [ ("success", PBool true)
                            ; ("provider", PStr "ollama") ] 200)
                         s c ltac:(vm_compute; reflexivity))
                  eq_refl)
        as (_ & _ & _ & Hc & Hk & _)
  end.
  split; [reflexivity|]. split; [|exact Hc].
  apply Hk. discriminate.
Defined.

(** X29.  Switching away from the hosted provider forgets its key.
    After a switch to another provider, a switch back to the hosted one
    by a body without [api_key] leaves a configuration in which, with
    no per-call token, [generate_campaign_brief] raises
    [ValueError("OpenAI API key not configured")] and sends nothing,
    whatever key was configured at the start. *)
Theorem switching_away_forgets_the_key srv req1 req2 cache r1 s1 c1 r2 s2 c2
  d2 :
  set_provider srv req1 cache = Some (Done (r1, s1, c1)) ->
  Http.status_code r1 = 200 ->
  AI_PROVIDER s1 <> "openai" ->
  set_provider (reconfigured srv s1) req2 c1 = Some (Done (r2, s2, c2)) ->
  Http.status_code r2 = 200 ->
  AI_PROVIDER s2 = "openai" ->
  Json.loads (Http.body req2) = Return (PDict d2) ->
  Dict.get "api_key" d2 = None ->
  pytest_loaded (core srv) = false ->
  forall brand platform goal tone sent,
    generate_campaign_brief (core (reconfigured srv s2)) brand platform goal
      tone None sent
    = (Raise (ValueError "OpenAI API key not configured"), sent).
Proof.
  intros H1 Hr1 Hp1 H2 Hr2 Hp2 Hl2 Hk2 Hpy brand platform goal tone sent.
  apply set_provider_cases in H1
    as [(Hs & _)
       |(p1 & k1 & d1 & _ & _ & _ & _ & _ & _ & Hn1 & _ & -> & _)];
    [contradiction|].
  cbn [switch_provider AI_PROVIDER] in Hp1.
  apply set_provider_cases in H2
    as [(Hs & _)
       |(p2 & k2 & d & _ & _ & Hl & _ & _ & Hk & _ & _ & -> & _)];
    [contradiction|].
  cbn [switch_provider AI_PROVIDER] in Hp2. subst p2.
  assert (Hb : PyStr.is_empty (Http.body req2) = false).
  { destruct (Http.body req2); [discriminate Hl2 | reflexivity]. }
  rewrite Hb, Hl2 in Hl. injection Hl as <-.
  specialize (Hk eq_refl). unfold Dict.get_default in Hk. rewrite Hk2 in Hk.
  injection Hk as <-.
  set (env := core (reconfigured srv _)).
  assert (Hp : resolve_provider env = "openai").
  { unfold resolve_provider, env. cbn. rewrite Hpy. reflexivity. }
  assert (Hne : resolve_provider env <> "test")
    by (rewrite Hp; discriminate).
  apply (adapter_exception_propagates env _ _ _ _ None sent _ sent Hne).
  rewrite Hp. unfold call_provider. cbn [String.eqb Ascii.eqb Bool.eqb].
  apply call_openai_api_without_credential; [reflexivity|].
  unfold env. cbn.
  apply String.eqb_neq in Hp1. rewrite Hp1. reflexivity.
Qed.

Lemma switching_away_forgets_the_key_witness :
  let srv := ViewSample.server "openai" (Some "sk-configured")
               Sample.unreachable in
  let s1 := Sample.configuration "ollama" (Some "") in
  let s2 := Sample.configuration "openai" (Some "") in
  generate_campaign_brief (core (reconfigured srv s2)) "Acme" "TikTok"
    "Awareness" "Playful" None []
  = (Raise (ValueError "OpenAI API key not configured"), []).
Proof.
  cbv zeta.
  apply (switching_away_forgets_the_key
           (ViewSample.server "openai" (Some "sk-configured")
              Sample.unreachable)
           (ViewSample.switch_to "ollama") (ViewSample.switch_to "openai")
           []
           (Http.JsonResponse [ ("success", PBool true)
                              ; ("provider", PStr "ollama") ] 200)
           (Sample.configuration "ollama" (Some "")) []
           (Http.JsonResponse [ ("success", PBool true)
                              ; ("provider", PStr "openai") ] 200)
           (Sample.configuration "openai" (Some "")) []
           [("provider", PStr "openai")]);
    try (vm_compute; reflexivity).
  discriminate.
Defined.

(** X30.  [health_check] answers with status 200 and [status]
    "healthy", and the provider it reports is the one
    [generate_campaign_brief] resolves. *)
Theorem health_check_reports_the_provider_in_use srv timestamp :
  exists payload,
    health_check srv timestamp = Http.JsonResponse payload 200 /\
    Dict.get "status" payload = Some (PStr "healthy") /\
    Dict.get "ai_provider" payload = Some (PStr (resolve_provider (core srv))).
Proof.
  eexists. split; [reflexivity|]. split; [reflexivity|].
  cbn. do 2 f_equal. unfold health_check_provider, resolve_provider.
  destruct (pytest_loaded (core srv)); [reflexivity|]. cbn [orb].
  destruct (String.eqb (AI_PROVIDER (settings (core srv))) "test") eqn:E;
    [|reflexivity].
  now apply String.eqb_eq in E.
Qed.
